(** * Fast-F1 [fastf1/api.py]: a shallow embedding of the live-timing
    decoder and of the lap, gap and tyre reconstruction passes.

    Python values are embedded as the inductive [value]; dictionaries whose
    keys are computed at run time ([data[driver][f'Speed{trap}']]) are finite
    maps keyed by strings; exceptions are the [Raise] branch of [result].
    Timedeltas are integers counting nanoseconds, as pandas stores them. *)

From Stdlib Require Import ZArith Lia DecimalString Sorted.
From stdpp Require Import base option list strings gmap.

Local Open Scope Z_scope.

(** ** Python values and exceptions *)

#[warnings="-register-all"]
Inductive value : Type :=
| VNone
| VBool (b : bool)
| VInt (n : Z)
| VStr (s : string)
| VList (l : list value)
| VDict (kvs : list (string * value))
| VTimedelta (ns : Z).

Inductive exn : Type := IndexError | KeyError | TypeError | ValueError.

Inductive result (A : Type) : Type :=
| Ok (a : A)
| Raise (e : exn).
Arguments Ok {A} a.
Arguments Raise {A} e.

Definition bind {A B : Type} (m : result A) (k : A -> result B) : result B :=
  match m with
  | Ok a => k a
  | Raise e => Raise e
  end.

Notation "x <- m ;; k" := (bind m (fun x => k))
  (at level 100, m at next level, right associativity).

Definition of_option {A : Type} (e : exn) (o : option A) : result A :=
  match o with
  | Some a => Ok a
  | None => Raise e
  end.

(** Left fold that stops at the first exception: a Python [for] loop whose
    body may raise. *)
Fixpoint foldM {A S : Type} (f : S -> A -> result S) (l : list A) (s : S)
  : result S :=
  match l with
  | [] => Ok s
  | x :: l' => s' <- f s x ;; foldM f l' s'
  end.

(** ** Python primitives used by the module *)

(** First binding of a key in a dict (keys of a decoded JSON object are
    distinct, so first and last agree). *)
Fixpoint assoc (k : string) (kvs : list (string * value)) : option value :=
  match kvs with
  | [] => None
  | (k', v) :: rest => if String.eqb k k' then Some v else assoc k rest
  end.

Definition is_substring (needle hay : string) : bool :=
  match String.index 0 needle hay with
  | Some _ => true
  | None => false
  end.

Definition is_str (k : string) (v : value) : bool :=
  match v with
  | VStr s => String.eqb k s
  | _ => false
  end.

(** [k in v] for a string [k]: key membership on a dict, substring on a
    string, element membership on a list, TypeError on the rest. *)
Definition py_in (k : string) (v : value) : result bool :=
  match v with
  | VDict kvs => Ok (bool_decide (is_Some (assoc k kvs)))
  | VStr s => Ok (is_substring k s)
  | VList l => Ok (existsb (is_str k) l)
  | _ => Raise TypeError
  end.

(** [v[k]] for a string [k]. *)
Definition py_getitem (v : value) (k : string) : result value :=
  match v with
  | VDict kvs => of_option KeyError (assoc k kvs)
  | _ => Raise TypeError
  end.

Definition chars (s : string) : list value :=
  map (fun c => VStr (String c EmptyString)) (String.list_ascii_of_string s).

(** What a [for x in v] loop visits: the elements of a list, the keys of a
    dict in insertion order, the characters of a string. *)
Definition py_iter (v : value) : result (list value) :=
  match v with
  | VList l => Ok l
  | VDict kvs => Ok (map (fun kv => VStr (fst kv)) kvs)
  | VStr s => Ok (chars s)
  | _ => Raise TypeError
  end.

Fixpoint enumerate_from {A : Type} (n : Z) (l : list A) : list (Z * A) :=
  match l with
  | [] => []
  | x :: l' => (n, x) :: enumerate_from (n + 1) l'
  end.

Definition enumerate {A : Type} (l : list A) : list (Z * A) := enumerate_from 0 l.

(** [int(s)] on a decimal literal with an optional sign.  Python also
    accepts surrounding blanks and digit-group underscores; the keys of the
    feed are plain decimals, and the other spellings raise here. *)
Definition py_int (v : value) : result Z :=
  match v with
  | VInt n => Ok n
  | VBool b => Ok (if b then 1 else 0)
  | VStr (String (Ascii.Ascii true true false true false true false false) rest) =>
      match NilZero.uint_of_string rest with
      | Some u => Ok (Z.of_uint u)
      | None => Raise ValueError
      end
  | VStr s =>
      match NilZero.int_of_string s with
      | Some d => Ok (Z.of_int d)
      | None => Raise ValueError
      end
  | _ => Raise TypeError
  end.

(** [str(n)] of an integer. *)
Definition py_str (n : Z) : string := NilZero.string_of_int (Z.to_int n).

(** [v != ''] *)
Definition ne_empty_str (v : value) : bool := negb (is_str "" v).

(** [v == False] and [v == True]: Python equates the booleans with 0 and 1. *)
Definition eq_False (v : value) : bool :=
  match v with
  | VBool b => negb b
  | VInt n => n =? 0
  | _ => false
  end.

Definition eq_True (v : value) : bool :=
  match v with
  | VBool b => b
  | VInt n => n =? 1
  | _ => false
  end.

(** ['prefix' + v]: string concatenation, TypeError unless [v] is a string. *)
Definition str_concat (prefix : string) (v : value) : result string :=
  match v with
  | VStr s => Ok (prefix +:+ s)
  | _ => Raise TypeError
  end.

(** Python list indexing with negative indices counted from the end: the
    position that index [i] denotes in a list of [n] elements. *)
Definition index_at (n : nat) (i : Z) : option nat :=
  let n := Z.of_nat n in
  let j := if i <? 0 then n + i else i in
  if (0 <=? j) && (j <? n) then Some (Z.to_nat j) else None.

Definition norm_index {A : Type} (l : list A) (i : Z) : option nat :=
  index_at (length l) i.

Definition py_get {A : Type} (l : list A) (i : Z) : result A :=
  match norm_index l i with
  | Some j => of_option IndexError (l !! j)
  | None => Raise IndexError
  end.

Definition py_set {A : Type} (l : list A) (i : Z) (x : A) : result (list A) :=
  match norm_index l i with
  | Some j => Ok (<[j := x]> l)
  | None => Raise IndexError
  end.

(** ** Lap reconstruction state ([_timing_data_laps_entry]) *)

(** [data[driver]]: a dict from column name to the list of its cells. *)
Abbreviation columns := (gmap string (list value)).

Definition lap_keys : list string :=
  [ "Time"; "Driver"; "LastLapTime"; "NumberOfLaps"; "NumberOfPitStops";
    "PitOutTime"; "PitInTime"; "Sector1Time"; "Sector2Time"; "Sector3Time";
    "SpeedI1"; "SpeedI2"; "SpeedFL"; "SpeedST" ].

(** The dict built at lines 214-218, every list empty. *)
Definition empty_columns (keys : list string) : columns :=
  list_to_map (map (fun k => (k, @nil value)) keys).

(** [[data[driver][key].append(None) for key in data[driver]]] *)
Definition append_none (c : columns) : columns := (fun l => l ++ [VNone]) <$> c.

(** [data[driver][key]] and [data[driver][key][i] = v] *)
Definition col (c : columns) (key : string) : result (list value) :=
  of_option KeyError (c !! key).

Definition set_cell (c : columns) (key : string) (i : Z) (v : value)
  : result columns :=
  l <- col c key ;;
  l' <- py_set l i v ;;
  Ok (<[key := l']> c).

(** One time reference: the dict with keys base, delta, ts0 and, once seen,
    ts1 and ts2. *)
Record time_ref : Type := mk_ref {
  base : Z;
  delta : Z;
  ts0 : Z;
  ts1 : option Z;
  ts2 : option Z
}.

(** [flags[driver]] *)
Record flag_lists : Type := mk_flags {
  time_reference : list (option time_ref);
  locked_times : list bool
}.

Record state : Type := mk_state {
  data : gmap string columns;
  flags : gmap string flag_lists
}.

Definition five_seconds : Z := 5000000000.

(** [last_time + pd.to_timedelta('5s')]: [None] on the left gives NaT, which
    is [None] here. *)
Definition add_5s (last_time : value) : result (option Z) :=
  match last_time with
  | VTimedelta t => Ok (Some (t + five_seconds))
  | VNone => Ok None
  | _ => Raise TypeError
  end.

(** [time < deadline]; every comparison with NaT is false. *)
Definition td_lt (time : Z) (deadline : option Z) : bool :=
  match deadline with
  | Some d => time <? d
  | None => false
  end.

(** Lines 229-233: the row index that the block populates. *)
Definition select_slot (time : Z) (c : columns) : result Z :=
  tcol <- col c "Time" ;;
  if 1 <? Z.of_nat (length tcol) then
    last_time <- py_get tcol (-2) ;;
    deadline <- add_5s last_time ;;
    if td_lt time deadline then Ok (-2) else Ok (-1)
  else Ok (-1).

Section Laps.

(** [pd.to_timedelta] on a string: the nanoseconds it denotes, or [None]
    where pandas raises. *)
Variable to_timedelta : string -> option Z.

Definition parse_td (s : string) : result Z := of_option ValueError (to_timedelta s).

(** [time_reference['base'] - time_reference['delta']] *)
Definition lap_start (r : time_ref) : Z := base r - delta r.

(** Lines 271-278 and 284-292: a later sector's estimate of the lap start is
    adopted when it is earlier than the stored one. *)
Definition refine (time new_delta : Z) (r : time_ref) : time_ref :=
  if time - new_delta <? lap_start r
  then mk_ref time new_delta (ts0 r) (ts1 r) (ts2 r)
  else r.

Definition set_ts1 (t : Z) (r : time_ref) : time_ref :=
  mk_ref (base r) (delta r) (ts0 r) (Some t) (ts2 r).

Definition set_ts2 (t : Z) (r : time_ref) : time_ref :=
  mk_ref (base r) (delta r) (ts0 r) (ts1 r) (Some t).

(** [flags[driver]['time_reference'][i]] read as a dict. *)
Definition get_ref (f : flag_lists) (i : Z) : result time_ref :=
  o <- py_get (time_reference f) i ;;
  of_option TypeError o.

Definition set_ref (f : flag_lists) (i : Z) (r : time_ref) : result flag_lists :=
  refs <- py_set (time_reference f) i (Some r) ;;
  Ok (mk_flags refs (locked_times f)).

Definition is_dict (v : value) : bool :=
  match v with
  | VDict _ => true
  | _ => false
  end.

(** [f'Sector{str(_n+1)}Time'] *)
Definition sector_key (n : Z) : string := "Sector" +:+ py_str (n + 1) +:+ "Time".

(** ['00:00:' + sector['Value']] parsed as a timedelta. *)
Definition sector_td (v : value) : result Z :=
  s <- str_concat "00:00:" v ;;
  parse_td s.

(** Lines 251-255: for a dict the loop variable is a key, and the sector
    is looked up under the key read as an integer. *)
Definition resolve_item (sectors : value) (item : Z * value) : result (Z * value) :=
  if is_dict sectors
  then n <- py_int (snd item) ;;
       s <- py_getitem sectors (py_str n) ;;
       Ok (n, s)
  else Ok item.

(** Lines 256-293 for sector index [n].  [no_time_reference] is the flag
    computed once at line 235, before the loop. *)
Definition sector_body (time i : Z) (no_time_reference : bool)
    (cf : columns * flag_lists) (n : Z) (sector : value)
  : result (columns * flag_lists) :=
  has_value <- py_in "Value" sector ;;
  c <- (if has_value
        then v <- py_getitem sector "Value" ;; set_cell (fst cf) (sector_key n) i v
        else Ok (fst cf)) ;;
  has_measure <- (if has_value
                  then v <- py_getitem sector "Value" ;; Ok (ne_empty_str v)
                  else Ok false) ;;
  f <- (if (n =? 0) && has_measure && no_time_reference
        then v <- py_getitem sector "Value" ;;
             sector_time <- sector_td v ;;
             set_ref (snd cf) i (mk_ref time sector_time sector_time None None)
        else Ok (snd cf)) ;;
  reference_has_ts0 <- (if no_time_reference then Ok false
                        else _ <- get_ref f i ;; Ok true) ;;
  f <- (if (n =? 1) && has_measure && reference_has_ts0
        then v <- py_getitem sector "Value" ;;
             sector_time <- sector_td v ;;
             r <- get_ref f i ;;
             set_ref f i (set_ts1 sector_time (refine time (sector_time + ts0 r) r))
        else Ok f) ;;
  reference_has_ts01 <- (if reference_has_ts0
                         then r <- get_ref f i ;; Ok (bool_decide (is_Some (ts1 r)))
                         else Ok false) ;;
  f <- (if (n =? 2) && has_measure && reference_has_ts01
        then v <- py_getitem sector "Value" ;;
             sector_time <- sector_td v ;;
             r <- get_ref f i ;;
             t1 <- of_option KeyError (ts1 r) ;;
             set_ref f i (set_ts2 sector_time (refine time (sector_time + t1 + ts0 r) r))
        else Ok f) ;;
  Ok (c, f).

(** Lines 250-293: the body of the loop over [enumerate(block['Sectors'])]. *)
Definition sector_step (time i : Z) (no_time_reference : bool) (sectors : value)
    (cf : columns * flag_lists) (item : Z * value)
  : result (columns * flag_lists) :=
  ns <- resolve_item sectors item ;;
  sector_body time i no_time_reference cf (fst ns) (snd ns).

(** Lines 248-293 *)
Definition write_sectors (time i : Z) (no_time_reference : bool) (block : value)
    (cf : columns * flag_lists) : result (columns * flag_lists) :=
  has <- py_in "Sectors" block ;;
  if has then
    sectors <- py_getitem block "Sectors" ;;
    items <- py_iter sectors ;;
    foldM (sector_step time i no_time_reference sectors) (enumerate items) cf
  else Ok cf.

(** Lines 297-299; a trap that is not a string cannot be a key of the
    decoded object and raises here. *)
Definition speed_step (i : Z) (speeds : value) (c : columns) (trap : value)
  : result columns :=
  match trap with
  | VStr t =>
      tv <- py_getitem speeds t ;;
      has_value <- py_in "Value" tv ;;
      if has_value
      then v <- py_getitem tv "Value" ;; set_cell c ("Speed" +:+ t) i v
      else Ok c
  | _ => Raise TypeError
  end.

(** Lines 296-299 *)
Definition write_speeds (i : Z) (block : value) (c : columns) : result columns :=
  has <- py_in "Speeds" block ;;
  if has then
    speeds <- py_getitem block "Speeds" ;;
    traps <- py_iter speeds ;;
    foldM (speed_step i speeds) traps c
  else Ok c.

(** Lines 244-245 *)
Definition write_pit_stops (i : Z) (block : value) (c : columns) : result columns :=
  has <- py_in "NumberOfPitStops" block ;;
  if has
  then v <- py_getitem block "NumberOfPitStops" ;; set_cell c "NumberOfPitStops" i v
  else Ok c.

(** Lines 304-307 *)
Definition write_pit_times (time i : Z) (block : value) (c : columns)
  : result columns :=
  has_out <- py_in "PitOut" block ;;
  c <- (if has_out
        then v <- py_getitem block "PitOut" ;;
             if eq_False v then set_cell c "PitOutTime" i (VTimedelta time) else Ok c
        else Ok c) ;;
  has_in <- py_in "InPit" block ;;
  if has_in
  then v <- py_getitem block "InPit" ;;
       if eq_True v then set_cell c "PitInTime" i (VTimedelta time) else Ok c
  else Ok c.

(** The condition of lines 312-314: the non-empty lap time, if any. *)
Definition last_lap_value (block : value) : result (option value) :=
  has <- py_in "LastLapTime" block ;;
  if has then
    llt <- py_getitem block "LastLapTime" ;;
    has_value <- py_in "Value" llt ;;
    if has_value then
      v <- py_getitem llt "Value" ;;
      Ok (if ne_empty_str v then Some v else None)
    else Ok None
  else Ok None.

Definition set_locked (f : flag_lists) (i : Z) : result flag_lists :=
  locks <- py_set (locked_times f) i true ;;
  Ok (mk_flags (time_reference f) locks).

(** Lines 312-323 *)
Definition write_last_lap (i : Z) (block : value) (cf : columns * flag_lists)
  : result (columns * flag_lists) :=
  ov <- last_lap_value block ;;
  match ov with
  | Some v =>
      c <- set_cell (fst cf) "LastLapTime" i v ;;
      s <- str_concat "00:" v ;;
      lap_time <- parse_td s ;;
      time_reference <- py_get (time_reference (snd cf)) i ;;
      match time_reference with
      | Some r =>
          let lap_start_time := lap_start r in
          c <- set_cell c "Time" i (VTimedelta (lap_start_time + lap_time)) ;;
          f <- set_locked (snd cf) i ;;
          Ok (c, f)
      | None => Ok (c, snd cf)
      end
  | None => Ok cf
  end.

(** Lines 330-334 *)
Definition close_lap (block : value) (cf : columns * flag_lists)
  : result (columns * flag_lists) :=
  has <- py_in "NumberOfLaps" block ;;
  if has then
    v <- py_getitem block "NumberOfLaps" ;;
    c <- set_cell (fst cf) "NumberOfLaps" (-1) v ;;
    Ok (append_none c,
        mk_flags (time_reference (snd cf) ++ [None]) (locked_times (snd cf) ++ [false]))
  else Ok cf.

(** Lines 239-241: the packet's time, unless the record is locked, and the
    driver. *)
Definition stamp (time : Z) (driver : string) (i : Z) (no_locked_time : bool)
    (c : columns) : result columns :=
  c <- (if no_locked_time then set_cell c "Time" i (VTimedelta time) else Ok c) ;;
  set_cell c "Driver" i (VStr driver).

(** Lines 235-335 for the row index [i] chosen at lines 229-233. *)
Definition entry_at (time : Z) (driver : string) (block : value) (i : Z)
    (c : columns) (f : flag_lists) : result (columns * flag_lists) :=
  ref_i <- py_get (time_reference f) i ;;
  let no_time_reference := bool_decide (ref_i = None :> option time_ref) in
  locked_i <- py_get (locked_times f) i ;;
  let no_locked_time := negb locked_i in
  c <- stamp time driver i no_locked_time c ;;
  c <- write_pit_stops i block c ;;
  cf <- write_sectors time i no_time_reference block (c, f) ;;
  c <- write_speeds i block (fst cf) ;;
  c <- write_pit_times time i block c ;;
  cf <- write_last_lap i block (c, snd cf) ;;
  close_lap block cf.

(** Lines 213-221: the dicts a driver gets when first seen. *)
Definition new_columns : columns := append_none (empty_columns lap_keys).
Definition new_flags : flag_lists := mk_flags [None] [false].

(** [_timing_data_laps_entry(entry, driver, data, flags)] *)
Definition timing_data_laps_entry (entry : string * value) (driver : string)
    (st : state) : result state :=
  let c0 := default new_columns (data st !! driver) in
  let f0 := default new_flags (flags st !! driver) in
  time <- parse_td (fst entry) ;;
  lines <- py_getitem (snd entry) "Lines" ;;
  block <- py_getitem lines driver ;;
  i <- select_slot time c0 ;;
  cf <- entry_at time driver block i c0 f0 ;;
  Ok (mk_state (<[driver := fst cf]> (data st)) (<[driver := snd cf]> (flags st))).

(** Lines 187-191: the loop of [_timing_data_laps] over the response. *)
Definition laps_driver (entry : string * value) (st : state) (d : value)
  : result state :=
  match d with
  | VStr driver => timing_data_laps_entry entry driver st
  | _ => Raise TypeError
  end.

Definition laps_frame (st : state) (entry : string * value) : result state :=
  has <- py_in "Lines" (snd entry) ;;
  if has then
    lines <- py_getitem (snd entry) "Lines" ;;
    drivers <- py_iter lines ;;
    foldM (laps_driver entry) drivers st
  else Ok st.

Definition laps_loop (response : list (string * value)) (st : state) : result state :=
  foldM laps_frame response st.

End Laps.


(** ** Finalisation of a driver's laps ([_timing_data_laps], lines 193-208) *)

Fixpoint mapM {A B : Type} (f : A -> result B) (l : list A) : result (list B) :=
  match l with
  | [] => Ok []
  | x :: l' => y <- f x ;; ys <- mapM f l' ;; Ok (y :: ys)
  end.

(** What [bool(v)] is for a cell; pandas skips null cells in [any()], which
    makes them count as false. *)
Definition truthy (v : value) : bool :=
  match v with
  | VNone => false
  | VBool b => b
  | VInt n => negb (n =? 0)
  | VStr s => negb (String.eqb s "")
  | VList l => negb (bool_decide (l = []))
  | VDict kvs => negb (bool_decide (kvs = []))
  | VTimedelta ns => negb (ns =? 0)
  end.

(** Line 193: the keys of [data[driver]] other than Time and Driver. *)
Definition empty_check : list string :=
  filter (fun key => key ∉ ["Time"; "Driver"]) lap_keys.

(** [_df.iloc[-1][key]] *)
Definition last_cell (c : columns) (key : string) : result value :=
  l <- col c key ;;
  py_get l (-1).

(** [_df.iloc[-1][empty_check].any()] *)
Definition last_row_any (c : columns) : result bool :=
  cells <- mapM (last_cell c) empty_check ;;
  Ok (existsb truthy cells).

(** [_df.iloc[:-1]] *)
Definition drop_last_row (c : columns) : columns :=
  (fun l => take (length l - 1) l) <$> c.

(** Lines 195-198 *)
Definition trim_tail (c : columns) : result columns :=
  any <- last_row_any c ;;
  if negb any then Ok (drop_last_row c) else Ok c.

(** The NumberOfPitStops column as pandas holds it: a number or NaN ([None])
    per row.  A cell that is neither an integer nor None makes the column
    non-numeric, and the subtraction at line 201 raises. *)
Definition as_number (v : value) : result (option Z) :=
  match v with
  | VNone => Ok None
  | VInt n => Ok (Some n)
  | _ => Raise TypeError
  end.

(** [Series.max()]: the largest number present, NaN when there is none. *)
Definition nan_max (l : list (option Z)) : option Z :=
  fold_left (fun acc x =>
               match acc, x with
               | Some a, Some b => Some (Z.max a b)
               | None, _ => x
               | _, None => acc
               end) l None.

Fixpoint indices_from {A : Type} (p : A -> bool) (n : nat) (l : list A) : list nat :=
  match l with
  | [] => []
  | x :: l' => if p x then n :: indices_from p (S n) l' else indices_from p (S n) l'
  end.

(** [_df[~_df['NumberOfPitStops'].isnull()].index] *)
Definition pit_laps (l : list (option Z)) : list nat :=
  indices_from (fun x => bool_decide (is_Some x)) 0 l.

Fixpoint assign_from (n lap : nat) (v : option Z) (l : list (option Z))
  : list (option Z) :=
  match l with
  | [] => []
  | x :: l' => (if (n <=? lap)%nat then v else x) :: assign_from (S n) lap v l'
  end.

(** [_df.loc[_df.index <= lap, 'NumberOfPitStops'] = v] *)
Definition assign_upto (lap : nat) (v : option Z) (l : list (option Z))
  : list (option Z) := assign_from 0 lap v l.

(** [x - 1] on a number or NaN. *)
Definition minus_one (o : option Z) : option Z :=
  match o with
  | Some x => Some (x - 1)
  | None => None
  end.

(** The body of the loop at lines 203-207, on the column and the running
    [pit_stops]. *)
Definition correction_step (s : list (option Z) * option Z) (lap : nat)
  : list (option Z) * option Z :=
  (assign_upto lap (snd s) (fst s), minus_one (snd s)).

(** Lines 200-207 *)
Definition correct_pit_stops (l : list (option Z)) : list (option Z) :=
  let pit_stops := nan_max l in
  let l1 := map minus_one l in
  let laps := rev (pit_laps l1 ++ [length l1]) in
  fst (fold_left correction_step laps (l1, pit_stops)).

Definition of_number (o : option Z) : value :=
  match o with
  | Some n => VInt n
  | None => VNone
  end.

(** Lines 195-207 for one driver. *)
Definition finalize_driver (c : columns) : result columns :=
  c <- trim_tail c ;;
  cells <- col c "NumberOfPitStops" ;;
  nums <- mapM as_number cells ;;
  Ok (<["NumberOfPitStops" := of_number <$> correct_pit_stops nums]> c).

(** ** Gap and position stream ([_timing_data_stream]) *)

Definition stream_keys : list string :=
  [ "Time"; "Driver"; "Position"; "GapToLeader"; "IntervalToPositionAhead" ].

(** [block[key]] when [key in block] *)
Definition field (key : string) (block : value) : result (option value) :=
  has <- py_in key block ;;
  if has then v <- py_getitem block key ;; Ok (Some v) else Ok None.

(** [block['IntervalToPositionAhead']['Value']] when both keys are there
    (lines 160-161) *)
Definition interval_value (block : value) : result (option value) :=
  o <- field "IntervalToPositionAhead" block ;;
  match o with
  | Some iv => field "Value" iv
  | None => Ok None
  end.

(** [data[driver][key].append(v)] *)
Definition append_cell (c : columns) (key : string) (v : value) : result columns :=
  l <- col c key ;;
  Ok (<[key := l ++ [v]]> c).

Definition append_if (c : columns) (key : string) (o : option value)
  : result columns :=
  match o with
  | Some v => append_cell c key v
  | None => Ok c
  end.

(** Lines 170-173 on one list. *)
Definition fill (expected_length : nat) (l : list value) : list value :=
  if (length l =? 0)%nat then l ++ [VNone]
  else if (length l <? expected_length)%nat then l ++ [default VNone (last l)]
  else l.

(** Lines 147-173 for one driver's block. *)
Definition stream_block (time driver : string) (block : value) (c : columns)
  : result columns :=
  position <- field "Position" block ;;
  c <- append_if c "Position" position ;;
  gap <- field "GapToLeader" block ;;
  c <- append_if c "GapToLeader" gap ;;
  interval <- interval_value block ;;
  c <- append_if c "IntervalToPositionAhead" interval ;;
  let new_entry :=
    bool_decide (is_Some position) || bool_decide (is_Some gap)
    || bool_decide (is_Some interval) in
  if new_entry then
    c <- append_cell c "Time" (VStr time) ;;
    c <- append_cell c "Driver" (VStr driver) ;;
    tcol <- col c "Time" ;;
    Ok (fill (length tcol) <$> c)
  else Ok c.

(** Lines 143-173 *)
Definition stream_driver (entry : string * value) (d : gmap string columns)
    (drv : value) : result (gmap string columns) :=
  match drv with
  | VStr driver =>
      let c0 := default (empty_columns stream_keys) (d !! driver) in
      lines <- py_getitem (snd entry) "Lines" ;;
      block <- py_getitem lines driver ;;
      c <- stream_block (fst entry) driver block c0 ;;
      Ok (<[driver := c]> d)
  | _ => Raise TypeError
  end.

(** Lines 140-173 *)
Definition stream_frame (d : gmap string columns) (entry : string * value)
  : result (gmap string columns) :=
  has <- py_in "Lines" (snd entry) ;;
  if has then
    lines <- py_getitem (snd entry) "Lines" ;;
    drivers <- py_iter lines ;;
    foldM (stream_driver entry) drivers d
  else Ok d.

Definition timing_data_stream (response : list (string * value))
  : result (gmap string columns) :=
  foldM stream_frame response ∅.

(** ** Summary table ([summary], lines 95-113) *)

(** A row of [laps_data]; the other lap columns ride along unchanged and
    are left out. *)
Record lap_row : Type := mk_lap {
  lap_driver : string;
  lap_time : Z;
  lap_pit_stops : option Z
}.

(** A row of [laps_app_data] restricted to the columns of line 101. *)
Record app_row : Type := mk_app {
  app_driver : string;
  app_time : Z;
  app_compound : value;
  app_total_laps : option Z;
  app_new : value
}.

(** A row of the merged frame; [Stint] is the column of line 95. *)
Record summary_row : Type := mk_summary {
  s_driver : string;
  s_time : Z;
  s_stint : option Z;
  s_compound : value;
  s_total_laps : option Z;
  s_new : value
}.

Fixpoint insert_sorted {A : Type} (key : A -> Z) (x : A) (l : list A) : list A :=
  match l with
  | [] => [x]
  | y :: l' => if key x <? key y then x :: y :: l' else y :: insert_sorted key x l'
  end.

(** [sort_values('Time')]; rows with equal times keep their order here. *)
Definition sort_values {A : Type} (key : A -> Z) (l : list A) : list A :=
  fold_left (fun acc x => insert_sorted key x acc) l [].

(** The row [merge_asof] matches to time [t]: the last one of the sorted
    right frame whose time is at or before [t]. *)
Definition asof (right : list app_row) (t : Z) : option app_row :=
  last (filter (fun r => app_time r <= t) right).

(** Line 95: [Stint] is [NumberOfPitStops + 1]. *)
Definition lap_stint (l : lap_row) : option Z := (fun n => n + 1) <$> lap_pit_stops l.

(** Line 109 *)
Definition merge_row (right : list app_row) (l : lap_row) : summary_row :=
  let m := asof right (lap_time l) in
  mk_summary (lap_driver l) (lap_time l) (lap_stint l)
             (from_option app_compound VNone m)
             (m ≫= app_total_laps)
             (from_option app_new VNone m).

Definition add_total_laps (k : Z) (r : summary_row) : summary_row :=
  mk_summary (s_driver r) (s_time r) (s_stint r) (s_compound r)
             ((fun n => n + k) <$> s_total_laps r) (s_new r).

(** Lines 111-112 for one value of [Stint]: the selected rows get 1, 2, ...
    added in row order.  [k] is the next number to hand out. *)
Fixpoint renumber (stint : Z) (k : Z) (rows : list summary_row) : list summary_row :=
  match rows with
  | [] => []
  | r :: rows' =>
      if bool_decide (s_stint r = Some stint)
      then add_total_laps k r :: renumber stint (k + 1) rows'
      else r :: renumber stint k rows'
  end.

(** [Series.unique()]: the distinct values in order of first appearance. *)
Fixpoint unique {A : Type} `{EqDecision A} (l : list A) : list A :=
  match l with
  | [] => []
  | x :: l' => x :: filter (fun y => y <> x) (unique l')
  end.

(** Lines 110-112; a NaN stint selects no row. *)
Definition renumber_all (rows : list summary_row) : list summary_row :=
  fold_left (fun acc stint =>
               match stint with
               | Some s => renumber s 1 acc
               | None => acc
               end) (unique (s_stint <$> rows)) rows.

(** Lines 105-112 *)
Definition summary_driver (laps_data : list lap_row) (useful : list app_row)
    (driver : string) : list summary_row :=
  let d1 := filter (fun l => lap_driver l = driver) laps_data in
  let d2 := filter (fun r => app_driver r = driver) useful in
  let d1 := sort_values lap_time d1 in
  let d2 := sort_values app_time d2 in
  renumber_all (merge_row d2 <$> d1).

(** [isnull()] of a cell. *)
Definition isnull (v : value) : bool :=
  match v with
  | VNone => true
  | _ => false
  end.

(** Lines 101-113 *)
Definition summary (laps_data : list lap_row) (laps_app_data : list app_row)
  : list summary_row :=
  let useful := filter (fun r => isnull (app_compound r) = false) laps_app_data in
  mjoin ((summary_driver laps_data useful) <$> unique (lap_driver <$> laps_data)).

(** ** Frame decoder ([parse] and the stream branch of [fetch_page]) *)

Inductive decode_error : Type :=
| EmptyText        (* IndexError at [text[0]] *)
| JSONDecodeError  (* [json.loads] *)
| Base64Error      (* [base64.b64decode] *)
| ZlibError        (* [zlib.decompress] *)
| UnicodeError     (* [bytes.decode] *)
| RecursionLimit.

Definition brace : Ascii.ascii := Ascii.ascii_of_nat 123.
Definition quote : Ascii.ascii := Ascii.ascii_of_nat 34.
Definition cr : Ascii.ascii := Ascii.ascii_of_nat 13.
Definition lf : Ascii.ascii := Ascii.ascii_of_nat 10.

Fixpoint lstrip (c : Ascii.ascii) (s : string) : string :=
  match s with
  | EmptyString => EmptyString
  | String a s' => if Ascii.eqb a c then lstrip c s' else s
  end.

Definition reverse_string (s : string) : string :=
  String.string_of_list_ascii (rev (String.list_ascii_of_string s)).

(** [text.strip] with the double quote as its argument: every leading and
    trailing quote goes. *)
Definition strip_quotes (s : string) : string :=
  reverse_string (lstrip quote (reverse_string (lstrip quote s))).

Definition warning : string := "Couldn't parse text".

Section Decoder.

(** The library calls of [parse]; [None] stands for the exception each one
    raises on input it rejects. *)
Variable json_loads : string -> option value.
Variable b64decode : string -> option (list Byte.byte).
Variable zlib_decompress : list Byte.byte -> option (list Byte.byte).
Variable decode_utf8_sig : list Byte.byte -> option string.

Definition lib {A : Type} (e : decode_error) (o : option A) : decode_error + A :=
  match o with
  | Some a => inr a
  | None => inl e
  end.

(** [parse(text, zipped)]: the value returned and the warnings logged, or
    the exception raised.  The recursive call passes [zipped=False]. *)
Fixpoint parse_fuel (fuel : nat) (text : string) (zipped : bool)
  : decode_error + (value * list string) :=
  match fuel with
  | O => inl RecursionLimit
  | S fuel' =>
      match text with
      | EmptyString => inl EmptyText
      | String c _ =>
          if Ascii.eqb c brace then
            match lib JSONDecodeError (json_loads text) with
            | inr v => inr (v, [])
            | inl e => inl e
            end
          else
            let text := if Ascii.eqb c quote then strip_quotes text else text in
            if zipped then
              match lib Base64Error (b64decode text) with
              | inl e => inl e
              | inr b =>
                  match lib ZlibError (zlib_decompress b) with
                  | inl e => inl e
                  | inr raw =>
                      match lib UnicodeError (decode_utf8_sig raw) with
                      | inl e => inl e
                      | inr s => parse_fuel fuel' s false
                      end
                  end
              end
            else inr (VStr text, [warning])
      end
  end.

(** Two levels are all the recursion can reach. *)
Definition parse (text : string) (zipped : bool)
  : decode_error + (value * list string) :=
  parse_fuel 2 text zipped.

(** [len('00:00:00:000')] *)
Definition tl : nat := 12.

Definition str_take (n : nat) (s : string) : string := String.substring 0 n s.
Definition str_drop (n : nat) (s : string) : string :=
  String.substring n (String.length s - n) s.

(** Line 474: the list comprehension over the entries of a stream; the
    first exception ends it. *)
Fixpoint parse_entries (entries : list string) (is_z : bool)
  : decode_error + (list (string * value) * list string) :=
  match entries with
  | [] => inr ([], [])
  | e :: rest =>
      match parse (str_drop tl e) is_z with
      | inl err => inl err
      | inr (v, log) =>
          match parse_entries rest is_z with
          | inl err => inl err
          | inr (frames, logs) => inr ((str_take tl e, v) :: frames, log ++ logs)
          end
      end
  end.

End Decoder.

(** ** Web path of a session ([make_path]) *)

Definition space : Ascii.ascii := Ascii.ascii_of_nat 32.
Definition underscore : Ascii.ascii := Ascii.ascii_of_nat 95.

(** [s.replace(a, b)] for one-character strings [a] and [b]. *)
Fixpoint replace_char (a b : Ascii.ascii) (s : string) : string :=
  match s with
  | EmptyString => EmptyString
  | String c s' => String (if Ascii.eqb c a then b else c) (replace_char a b s')
  end.

Section MakePath.

(** [(pd.to_datetime(d) + pd.DateOffset(-1)).strftime('%Y-%m-%d')]: the day
    before [d], or [None] where pandas rejects [d]. *)
Variable day_before : string -> option string.

Definition make_path (wname d session : string) : result string :=
  d_real <- (if String.eqb session "Qualifying"
             then of_option ValueError (day_before d)
             else Ok d) ;;
  let smooth_operator :=
    str_take 4 d +:+ "/" +:+ d +:+ " " +:+ wname +:+ "/" +:+ d_real +:+ " "
    +:+ session +:+ "/" in
  Ok ("/static/" +:+ replace_char space underscore smooth_operator).

End MakePath.

(** ** Tyre stints ([timing_app_data]) *)

Definition app_keys : list string :=
  [ "LapNumber"; "Driver"; "LapTime"; "Stint"; "TotalLaps"; "Compound"; "New";
    "TyresNotChanged"; "Time"; "LapFlags"; "LapCountTime"; "StartLaps"; "Outlap" ].

(** Lines 359-363 for one key. *)
Definition app_field (stint : value) (c : columns) (key : string) : result columns :=
  has <- py_in key stint ;;
  if has then v <- py_getitem stint key ;; append_cell c key v
  else append_cell c key VNone.

(** [f"{key}"] for the keys a loop over a value can yield; lists and dicts
    are not hashable and raise at [key not in data]. *)
Definition py_format (v : value) : result string :=
  match v with
  | VStr s => Ok s
  | VInt n => Ok (py_str n)
  | VBool b => Ok (if b then "True" else "False")
  | VNone => Ok "None"
  | _ => Raise TypeError
  end.

(** Lines 364-367: the message printed for a key of the stint that is not a
    column. *)
Definition report_key (c : columns) (log : list string) (key : value)
  : result (list string) :=
  name <- py_format key ;;
  let known := match key with
               | VStr s => bool_decide (is_Some (c !! s))
               | _ => false
               end in
  if known then Ok log else Ok (log ++ [name +:+ " not in data!"]).

(** Lines 356-370: one element of [enumerate(update)]. *)
Definition stint_step (time driver_number : string) (update : value)
    (s : columns * list string) (item : Z * value)
  : result (columns * list string) :=
  ns <- (if is_dict update
         then n <- py_int (snd item) ;;
              key <- (match snd item with
                      | VStr k => Ok k
                      | _ => Raise TypeError
                      end) ;;
              st <- py_getitem update key ;;
              Ok (n, st)
         else Ok item) ;;
  let stint_number := fst ns in
  let stint := snd ns in
  c <- foldM (app_field stint) app_keys (fst s) ;;
  keys <- py_iter stint ;;
  log <- foldM (report_key c) keys (snd s) ;;
  c <- set_cell c "Time" (-1) (VStr time) ;;
  c <- set_cell c "Driver" (-1) (VStr driver_number) ;;
  c <- set_cell c "Stint" (-1) (VInt stint_number) ;;
  Ok (c, log).

(** Lines 352-370 for one driver of a frame. *)
Definition app_driver_step (entry : string * value) (s : columns * list string)
    (d : value) : result (columns * list string) :=
  match d with
  | VStr driver_number =>
      lines <- py_getitem (snd entry) "Lines" ;;
      block <- py_getitem lines driver_number ;;
      has <- py_in "Stints" block ;;
      if has then
        update <- py_getitem block "Stints" ;;
        items <- py_iter update ;;
        foldM (stint_step (fst entry) driver_number update) (enumerate items) s
      else Ok s
  | _ => Raise TypeError
  end.

(** Lines 349-370; a frame without Lines raises here, it is not skipped. *)
Definition app_frame (s : columns * list string) (entry : string * value)
  : result (columns * list string) :=
  lines <- py_getitem (snd entry) "Lines" ;;
  drivers <- py_iter lines ;;
  foldM (app_driver_step entry) drivers s.

(** [timing_app_data(path, response)]: the columns of the frame that is
    returned and the lines that were printed. *)
Definition timing_app_data (response : list (string * value))
  : result (columns * list string) :=
  foldM app_frame response (empty_columns app_keys, []).

(** ** Telemetry and position samples ([car_data], [position]) *)

Definition car_index : list (string * string) :=
  [ ("0", "RPM"); ("2", "Speed"); ("3", "nGear"); ("4", "Throttle");
    ("5", "Brake"); ("45", "DRS") ].

Definition position_index : list (string * string) :=
  [ ("Status", "Status"); ("X", "X"); ("Y", "Y"); ("Z", "Z") ].

(** Lines 396-397 and 434-435: the three fixed columns and one per channel. *)
Definition sample_keys (index : list (string * string)) : list string :=
  [ "Date"; "Time"; "Driver" ] ++ map snd index.

(** [data[index[i]].append(channels[i])] *)
Definition channel_step (channels : value) (c : columns) (code_name : string * string)
  : result columns :=
  v <- py_getitem channels (fst code_name) ;;
  append_cell c (snd code_name) v.

Section Samples.

(** [pd.to_datetime(v, format=...)]: the timestamp, or [None] where pandas
    raises. *)
Variable to_datetime : value -> option value.

(** The two functions differ in the key of the entry list, the key of the
    cars, the key of the date, and in whether the channels of a car sit one
    level down under Channels. *)
Record layout : Type := mk_layout {
  entries_key : string;
  cars_key : string;
  date_key : string;
  channels_key : option string;
  index : list (string * string)
}.

Definition car_layout : layout :=
  mk_layout "Entries" "Cars" "Utc" (Some "Channels") car_index.

Definition position_layout : layout :=
  mk_layout "Position" "Entries" "Timestamp" None position_index.

(** Lines 405-409 and 443-447 *)
Definition car_step (y : layout) (time : string) (date cars : value) (c : columns)
    (car : value) : result columns :=
  match car with
  | VStr name =>
      c <- append_cell c "Time" (VStr time) ;;
      c <- append_cell c "Date" date ;;
      c <- append_cell c "Driver" car ;;
      sample <- py_getitem cars name ;;
      channels <- (match channels_key y with
                   | Some k => py_getitem sample k
                   | None => Ok sample
                   end) ;;
      foldM (channel_step channels) (index y) c
  | _ => Raise TypeError
  end.

(** Lines 402-409 and 440-447 *)
Definition sample_entry (y : layout) (time : string) (c : columns) (entry : value)
  : result columns :=
  cars <- py_getitem entry (cars_key y) ;;
  stamp <- py_getitem entry (date_key y) ;;
  date <- of_option ValueError (to_datetime stamp) ;;
  names <- py_iter cars ;;
  foldM (car_step y time date cars) names c.

(** Lines 401-409 and 439-447 *)
Definition sample_line (y : layout) (c : columns) (line : string * value)
  : result columns :=
  entries <- py_getitem (snd line) (entries_key y) ;;
  items <- py_iter entries ;;
  foldM (sample_entry y (fst line)) items c.

Definition samples (y : layout) (raw : list (string * value)) : result columns :=
  foldM (sample_line y) raw (empty_columns (sample_keys (index y))).

(** [car_data] and [position] on the response of [fetch_page]. *)
Definition car_data (raw : list (string * value)) : result columns :=
  samples car_layout raw.

Definition position (raw : list (string * value)) : result columns :=
  samples position_layout raw.

End Samples.

(** ** Fetching a page ([fetch_page]) *)

Definition pages : list (string * string) :=
  [ ("session_info", "SessionInfo.json");
    ("archive_status", "ArchiveStatus.json");
    ("heartbeat", "Heartbeat.jsonStream");
    ("audio_streams", "AudioStreams.jsonStream");
    ("driver_list", "DriverList.jsonStream");
    ("extrapolated_clock", "ExtrapolatedClock.jsonStream");
    ("race_control_messages", "RaceControlMessages.json");
    ("session_status", "SessionStatus.jsonStream");
    ("team_radio", "TeamRadio.jsonStream");
    ("timing_app_data", "TimingAppData.jsonStream");
    ("timing_stats", "TimingStats.jsonStream");
    ("track_status", "TrackStatus.jsonStream");
    ("weather_data", "WeatherData.jsonStream");
    ("position", "Position.z.jsonStream");
    ("car_data", "CarData.z.jsonStream");
    ("content_streams", "ContentStreams.jsonStream");
    ("timing_data", "TimingData.jsonStream");
    ("lap_count", "LapCount.jsonStream");
    ("championship_predicion", "ChampionshipPrediction.jsonStream") ].

Fixpoint page_of (name : string) (table : list (string * string)) : option string :=
  match table with
  | [] => None
  | (k, v) :: rest => if String.eqb name k then Some v else page_of name rest
  end.

(** [raw.split('\r\n')] *)
Fixpoint split_crlf (s : string) : list string :=
  match s with
  | EmptyString => [EmptyString]
  | String c s' =>
      match s' with
      | String c' s'' =>
          if Ascii.eqb c cr && Ascii.eqb c' lf
          then EmptyString :: split_crlf s''
          else match split_crlf s' with
               | h :: t => String c h :: t
               | [] => [String c EmptyString]
               end
      | EmptyString => [String c EmptyString]
      end
  end.

(** [l[:-1]] *)
Definition but_last {A : Type} (l : list A) : list A := take (length l - 1) l.

Inductive fetch_error : Type :=
| UnknownPage                    (* KeyError at [pages[name]] *)
| BodyNotText                    (* [r.content.decode] *)
| Decoding (e : decode_error).

Inductive fetched : Type :=
| NotAvailable                                            (* [None] *)
| Document (v : value) (log : list string)
| Stream (frames : list (string * value)) (log : list string).

Section FetchPage.

Variable json_loads : string -> option value.
Variable b64decode : string -> option (list Byte.byte).
Variable zlib_decompress : list Byte.byte -> option (list Byte.byte).
Variable decode_utf8_sig : list Byte.byte -> option string.

(** [fetch_page] once the request has come back with [status_code] and
    [content]. *)
Definition fetch_page (name : string) (status_code : Z) (content : list Byte.byte)
  : fetch_error + fetched :=
  match page_of name pages with
  | None => inl UnknownPage
  | Some page =>
      let is_stream := is_substring "jsonStream" page in
      let is_z := is_substring ".z." page in
      if status_code =? 200 then
        match decode_utf8_sig content with
        | None => inl BodyNotText
        | Some raw =>
            if is_stream then
              let entries := but_last (split_crlf raw) in
              match parse_entries json_loads b64decode zlib_decompress
                      decode_utf8_sig entries is_z with
              | inl e => inl (Decoding e)
              | inr (frames, log) => inr (Stream frames log)
              end
            else
              match parse json_loads b64decode zlib_decompress decode_utf8_sig
                      raw is_z with
              | inl e => inl (Decoding e)
              | inr (v, log) => inr (Document v log)
              end
        end
      else inr NotAvailable
  end.

End FetchPage.

(** ** The structure inspector ([_json_inspector]) *)

Inductive inspected : Type :=
| Returned (v : value)
| Printed (v : value)      (* "Inconsistent structure" printed, then returned *)
| NameError                (* the body calls [json_inspector], which no
                              definition of the module binds *)
| Raised (e : exn).

(** [_json_inspector(obj, start)].  The first element of a list and the
    first key of a dict already reach the call of the unbound name. *)
Definition json_inspector (obj : value) (start : option value) : inspected :=
  let structure := default obj start in
  match obj with
  | VList [] => Returned (VList [VDict []])
  | VList (_ :: _) => NameError
  | VDict [] => Returned structure
  | VDict ((key, _) :: _) =>
      match py_in key structure with
      | Raise e => Raised e
      | Ok true => NameError
      | Ok false =>
          if is_dict structure then NameError else Printed VNone
      end
  | _ => Returned VNone
  end.

(** ** The laps table as a whole ([_timing_data_laps]) *)

Inductive laps_error : Type :=
| UnboundDriver          (* line 193 reads [driver], bound by no iteration *)
| Failed (e : exn).

(** Lines 186-208 for the drivers as a map: each driver's finalised frame,
    or the exception its finalisation raises.  [flags] is the argument
    whose default is the dict shared between calls. *)
Definition timing_data_laps (to_timedelta : string -> option Z)
    (response : list (string * value)) (flags0 : gmap string flag_lists)
  : laps_error + gmap string (result columns) :=
  match laps_loop to_timedelta response (mk_state ∅ flags0) with
  | Raise e => inl (Failed e)
  | Ok st =>
      if bool_decide (data st = ∅) then inl UnboundDriver
      else inr (finalize_driver <$> data st)
  end.

(** ** Specification predicates and sample inputs *)

(** Every column of [data[driver]] has [n] cells and both lists of
    [flags[driver]] have [n] entries. *)
Definition columns_len (n : nat) (c : columns) : Prop :=
  forall key, key ∈ lap_keys -> exists l, c !! key = Some l /\ length l = n.

Definition flags_len (n : nat) (f : flag_lists) : Prop :=
  length (time_reference f) = n /\ length (locked_times f) = n.

Definition aligned (n : nat) (cf : columns * flag_lists) : Prop :=
  columns_len n (fst cf) /\ flags_len n (snd cf).

(** The drivers of [data] and of [flags] are the same, and each is aligned. *)
Definition state_aligned (st : state) : Prop :=
  forall driver,
    match data st !! driver, flags st !! driver with
    | Some c, Some f => exists n, (1 <= n)%nat /\ aligned n (c, f)
    | None, None => True
    | _, _ => False
    end.


(** An instance of [to_timedelta] for running the model on concrete
    frames: clock strings [H:M:S] with an optional fraction of up to nine
    digits, in nanoseconds. *)
Fixpoint split_on (sep : Ascii.ascii) (s : string) : list string :=
  match s with
  | EmptyString => [EmptyString]
  | String c s' =>
      if Ascii.eqb c sep then EmptyString :: split_on sep s'
      else match split_on sep s' with
           | h :: t => String c h :: t
           | [] => [String c EmptyString]
           end
  end.

Definition digits (s : string) : option Z :=
  Z.of_uint <$> NilZero.uint_of_string s.

Definition seconds_ns (s : string) : option Z :=
  match split_on (Ascii.ascii_of_nat 46) s with
  | [whole] => w ← digits whole; Some (w * 1000000000)
  | [whole; frac] =>
      w ← digits whole;
      f ← digits frac;
      if (String.length frac <=? 9)%nat
      then Some (w * 1000000000 + f * 10 ^ Z.of_nat (9 - String.length frac))
      else None
  | _ => None
  end.

Definition clock_to_timedelta (s : string) : option Z :=
  match split_on (Ascii.ascii_of_nat 58) s with
  | [h; m; sec] =>
      h ← digits h;
      m ← digits m;
      ns ← seconds_ns sec;
      Some ((h * 3600 + m * 60) * 1000000000 + ns)
  | _ => None
  end.

(** A two-frame capture for car 44: a first-sector time, then the lap
    counter that closes the first lap. *)
Definition sample_response : list (string * value) :=
  [ ("00:01:00.000",
     VDict [("Lines", VDict [("44", VDict [("Sectors",
        VDict [("0", VDict [("Value", VStr "20.1")])])])])]);
    ("00:02:00.000",
     VDict [("Lines", VDict [("44", VDict [("NumberOfLaps", VInt 1)])])]) ].

Definition empty_state : state := mk_state ∅ ∅.

Definition sample_state : state :=
  match laps_loop clock_to_timedelta sample_response empty_state with
  | Ok st => st
  | Raise _ => empty_state
  end.

Definition sample_columns : columns := default ∅ (data sample_state !! "44").

(** The two wire encodings of a full [Sectors] update, and a block that
    carries one of them among other fields. *)
Definition sectors_list (s0 s1 s2 : value) : value := VList [s0; s1; s2].

Definition sectors_map (s0 s1 s2 : value) : value :=
  VDict [("0", s0); ("1", s1); ("2", s2)].

Definition sector_value (v : value) : value := VDict [("Value", v)].

Definition block_with_sectors (pre post : list (string * value)) (sectors : value)
  : value :=
  VDict (pre ++ ("Sectors", sectors) :: post).

(** A frame that carries a single driver's block. *)
Definition frame_of (timestamp driver : string) (block : value) : string * value :=
  (timestamp, VDict [("Lines", VDict [(driver, block)])]).




(** Car 44's first lap: a first-sector time, then the lap time that locks
    the record, then a second lap time for the same record. *)
Definition sector_update (key v : string) : value :=
  VDict [("Sectors", VDict [(key, sector_value (VStr v))])].

Definition last_lap_update (v : string) : value :=
  VDict [("LastLapTime", VDict [("Value", VStr v)])].

Definition lock_history : list (string * value) :=
  [ frame_of "00:01:00.000" "44" (sector_update "0" "20.1");
    frame_of "00:02:10.000" "44" (last_lap_update "1:30.000") ].

Definition run_from (st : state) (response : list (string * value)) : state :=
  match laps_loop clock_to_timedelta response st with
  | Ok st' => st'
  | Raise _ => st
  end.

Definition locked_state : state := run_from empty_state lock_history.

Definition second_lap_time : list (string * value) :=
  [ frame_of "00:02:11.000" "44" (last_lap_update "1:31.000") ].



(** The facts a step needs about the targeted record: lists aligned on [n]
    rows, index [i] denoting position [j], the record's reference and lock. *)
Definition at_slot (n : nat) (i : Z) (j : nat) (c : columns) (f : flag_lists)
    (ref : option time_ref) (locked : bool) : Prop :=
  aligned n (c, f) /\ index_at n i = Some j /\
  time_reference f !! j = Some ref /\ locked_times f !! j = Some locked.


(** All three sectors of a lap in one packet, as the feed sends them when
    [Sectors] is a list. *)
Definition three_sectors : value :=
  VDict [("Sectors", sectors_list (sector_value (VStr "20.1"))
                                  (sector_value (VStr "19.9"))
                                  (sector_value (VStr "21.0")))].

(** The number of rows of a pit-stop column on which a count was recorded,
    and a number or NaN less [k]. *)
Definition count_some (l : list (option Z)) : nat :=
  length (filter (fun x => is_Some x) l).

Definition nan_sub (ps : option Z) (k : Z) : option Z :=
  match ps with
  | Some m => Some (m - k)
  | None => None
  end.


Definition recorded_on_change : list (option Z) :=
  [None; None; Some 1; None; Some 2].

(** The cell of the last row under a key, and the last row having no
    informative cell that counts as true. *)
Definition last_value (c : columns) (key : string) : option value :=
  c !! key ≫= last.

Definition empty_tail (c : columns) : Prop :=
  forall key, key ∈ empty_check ->
    exists x, last_value c key = Some x /\ truthy x = false.

(** Car 44 seen once, with a pit-stop count of zero and nothing else. *)
Definition zero_stops_response : list (string * value) :=
  [ frame_of "00:00:01.000" "44" (VDict [("NumberOfPitStops", VInt 0)]) ].

Definition zero_stops_columns : columns :=
  default ∅ (data (run_from empty_state zero_stops_response) !! "44").

(** The five lists of a driver's gap stream all hold [n] rows. *)
Definition stream_len (n : nat) (c : columns) : Prop :=
  forall key, key ∈ stream_keys -> exists l, c !! key = Some l /\ length l = n.

(** What a field of a new row is when the frame does not set it: the
    driver's previous value, None for the first row. *)
Definition carried (c : columns) (key : string) : value :=
  default VNone (last_value c key).

(** A gap stream with one row for car 44, and a later block that sets the
    position only. *)
Definition one_gap_row : columns :=
  <["Time" := [VStr "00:00:01.000"]]> (<["Driver" := [VStr "44"]]>
  (<["Position" := [VStr "3"]]> (<["GapToLeader" := [VStr "+1.234"]]>
  (<["IntervalToPositionAhead" := [VStr "+0.500"]]> ∅)))).

Definition position_only : value := VDict [("Position", VStr "2")].

(** The 1-based position of row [p] among the rows with stint [s], given
    the Stint column. *)
Definition rank (stints : list (option Z)) (p : nat) (s : Z) : Z :=
  Z.of_nat (length (filter (fun x => x = Some s) (take (S p) stints))).

(** Four laps of car 44 at 10, 20, 30 and 40 s and two tyre rows at 5 and
    25 s, both with no laps on the tyre; the pit-stop counts of the laps
    are a parameter. *)
Definition seconds (s : Z) : Z := s * 1000000000.

Definition four_laps (p1 p2 p3 p4 : Z) : list lap_row :=
  [ mk_lap "44" (seconds 10) (Some p1); mk_lap "44" (seconds 20) (Some p2);
    mk_lap "44" (seconds 30) (Some p3); mk_lap "44" (seconds 40) (Some p4) ].

Definition two_stints : list app_row :=
  [ mk_app "44" (seconds 5) (VStr "SOFT") (Some 0) (VStr "true");
    mk_app "44" (seconds 25) (VStr "MEDIUM") (Some 0) (VStr "true") ].

Definition tyre_life (rows : list summary_row) : list (option Z) :=
  s_total_laps <$> rows.

(** Stand-ins for the library calls of the decoder, enough to run it on
    sample payloads: the only JSON text accepted is the empty object, and
    nothing decodes as base64. *)
Definition sample_json_loads (s : string) : option value :=
  if String.eqb s "{}" then Some (VDict []) else None.

Definition sample_b64decode (s : string) : option (list Byte.byte) := None.
Definition sample_decompress (b : list Byte.byte) : option (list Byte.byte) := Some b.
Definition sample_decode (b : list Byte.byte) : option string :=
  Some (String.string_of_list_byte b).

Definition sample_parse : string -> bool -> decode_error + (value * list string) :=
  parse sample_json_loads sample_b64decode sample_decompress sample_decode.

Definition sample_parse_entries :
  list string -> bool -> decode_error + (list (string * value) * list string) :=
  parse_entries sample_json_loads sample_b64decode sample_decompress sample_decode.

(** A stream of two records: a good one, and one that is a bare timestamp. *)
Definition stream_with_bare_timestamp : list string :=
  [ "00:00:01.000{}"; "00:00:02.000" ].

(** ** Further specification predicates *)

(** The number of records a driver has: the length of the Time column. *)
Definition rows_of (st : state) (driver : string) : nat :=
  from_option (fun c : columns => from_option length 0%nat (c !! "Time")) 0%nat
              (data st !! driver).

(** The time reference of a driver's record at position [p]. *)
Definition ref_at (st : state) (driver : string) (p : nat) : option (option time_ref) :=
  f ← flags st !! driver; time_reference f !! p.

(** Every cell of column [k], if the column exists, satisfies [P]. *)
Definition col_all (k : string) (P : value -> Prop) (c : columns) : Prop :=
  forall l, c !! k = Some l -> Forall P l.

Definition is_time (v : value) : Prop := v = VNone \/ exists t, v = VTimedelta t.
Definition is_driver (driver : string) (v : value) : Prop := v = VNone \/ v = VStr driver.

(** A frame for car 77 alone, which closes a lap of that car. *)
Definition other_car : string * value :=
  ("00:03:00.000",
   VDict [("Lines", VDict [("77", VDict [("NumberOfLaps", VInt 2)])])]).

(** Position [p] of the flag lists holds a reference seeded with the same
    first-sector time as [r]. *)
Definition ref_kept (p : nat) (r : time_ref) (f : flag_lists) : Prop :=
  exists r', time_reference f !! p = Some (Some r') /\ ts0 r' = ts0 r.

(** The flags of a driver after a run keep what [f0] had at position [p]:
    the lock if it was set, and a reference with the same first-sector time
    if there was one. *)
Definition flags_kept (p : nat) (f0 f : flag_lists) : Prop :=
  (locked_times f0 !! p = Some true -> locked_times f !! p = Some true) /\
  (forall r, time_reference f0 !! p = Some (Some r) -> ref_kept p r f).

(** The cells of the Time column are timedeltas or None and the cells of
    the Driver column are the driver's key or None. *)
Definition stamped (driver : string) (c : columns) : Prop :=
  col_all "Time" is_time c /\ col_all "Driver" (is_driver driver) c.

Definition state_stamped (st : state) : Prop :=
  forall driver c, data st !! driver = Some c -> stamped driver c.

(** The columns have [n] rows and the flag lists [m] entries. *)
Definition lens (n m : nat) (cf : columns * flag_lists) : Prop :=
  columns_len n (fst cf) /\ flags_len m (snd cf).

(** A run that starts with the flags [f0] of an earlier call for the
    driver: while the driver has no columns the flags are still [f0];
    afterwards the flag lists are longer than the columns by the [m - 1]
    entries that were there before. *)
Definition carries_flags (driver : string) (f0 : flag_lists) (m : nat) (st : state)
  : Prop :=
  match data st !! driver with
  | Some c => exists f n, flags st !! driver = Some f /\ (1 <= n)%nat /\
                          lens n (n + m - 1) (c, f)
  | None => flags st !! driver = Some f0
  end.

Definition keeps_flags (driver : string) (p : nat) (f0 : flag_lists) (st : state)
  : Prop :=
  state_aligned st /\ exists f, flags st !! driver = Some f /\ flags_kept p f0 f.

(** Two captures for car 44: one in which it completes a lap, and a later
    one of a single frame. *)
Definition first_call : list (string * value) :=
  [ frame_of "00:01:00.000" "44" (VDict [("NumberOfLaps", VInt 1)]) ].

Definition second_call : list (string * value) :=
  [ frame_of "00:00:30.000" "44" (VDict [("NumberOfPitStops", VInt 0)]) ].

Definition after_first_call : state := run_from empty_state first_call.

Definition after_second_call : state :=
  run_from (mk_state ∅ (flags after_first_call)) second_call.

(** A pit-stop cell pandas can hold in a numeric column. *)
Definition is_count (v : value) : Prop := v = VNone \/ exists z, v = VInt z.

(** Every driver of the gap stream has five lists of one length. *)
Definition stream_aligned (d : gmap string columns) : Prop :=
  forall driver c, d !! driver = Some c -> exists n, stream_len n c.

(** The columns of a key list all hold [n] cells. *)
Definition keys_len (keys : list string) (n : nat) (c : columns) : Prop :=
  forall key, key ∈ keys -> exists l, c !! key = Some l /\ length l = n.

(** A two-frame gap capture for car 44. *)
Definition gap_response : list (string * value) :=
  [ frame_of "00:00:01.000" "44" (VDict [("Position", VStr "3")]);
    frame_of "00:00:02.000" "44" (VDict [("GapToLeader", VStr "+1.2")]) ].

(** [c'] is [c] with one cell appended to each column of [keys] and the
    other columns as they were. *)
Definition bumped (keys : list string) (c c' : columns) : Prop :=
  (forall key, key ∈ keys ->
     exists l v, c !! key = Some l /\ c' !! key = Some (l ++ [v])) /\
  (forall key, key ∉ keys -> c' !! key = c !! key).

(** A frame with one list-encoded stint for car 44 whose object carries a
    Time of its own and a key the table does not know. *)
Definition stint_frame : string * value :=
  frame_of "00:10:00.000" "44"
    (VDict [("Stints", VList [VDict [("Compound", VStr "SOFT");
                                     ("Time", VStr "bogus");
                                     ("Wear", VInt 3)]])]).

(** One telemetry line with one car, with and without the DRS channel. *)
Definition car_line (channels : list (string * value)) : string * value :=
  ("00:00:01.000",
   VDict [("Entries",
           VList [VDict [("Utc", VStr "2019-09-08T13:10:00.123Z");
                         ("Cars", VDict [("44", VDict [("Channels", VDict channels)])])]])]).

Definition all_channels : list (string * value) :=
  [ ("0", VInt 11000); ("2", VInt 300); ("3", VInt 8); ("4", VInt 100);
    ("5", VInt 0); ("45", VInt 12) ].

Definition sample_to_datetime (v : value) : option value := Some v.

(** The cell a stint contributes under a key: its value when the key is
    there, None otherwise. *)
Definition stint_cell (stint : value) (key : string) : value :=
  match py_in key stint with
  | Ok true => match py_getitem stint key with
               | Ok v => v
               | Raise _ => VNone
               end
  | _ => VNone
  end.

(** The three columns a stint row takes from the frame and not from the
    stint object. *)
Definition frame_keys : list string := [ "Time"; "Driver"; "Stint" ].

(** The number and the object of one element of [enumerate(update)]: for a
    list the position and the element, for a dict the key read as an
    integer and the value under it. *)
Definition stint_of (update : value) (item : Z * value) (k : Z) (stint : value) : Prop :=
  if is_dict update
  then py_int (snd item) = Ok k /\
       exists key, snd item = VStr key /\ py_getitem update key = Ok stint
  else item = (k, stint).

(** The cell a stint row holds under a key. *)
Definition row_cell (time driver_number : string) (k : Z) (stint : value)
    (key : string) : value :=
  if String.eqb key "Time" then VStr time
  else if String.eqb key "Driver" then VStr driver_number
  else if String.eqb key "Stint" then VInt k
  else stint_cell stint key.
(** ** Generic facts about the exception monad and list indexing *)

Lemma bind_Ok {A B : Type} (m : result A) (k : A -> result B) (b : B) :
  bind m k = Ok b -> exists a, m = Ok a /\ k a = Ok b.
Proof. destruct m as [a|e]; simpl; [eauto | discriminate]. Qed.

Lemma of_option_Ok {A : Type} (e : exn) (o : option A) (a : A) :
  of_option e o = Ok a -> o = Some a.
Proof. destruct o; simpl; congruence. Qed.

(** Break a successful run into the successful runs of its parts. *)
Ltac inv_ok :=
  repeat match goal with
  | H : bind _ _ = Ok _ |- _ =>
      let a := fresh "a" in
      let Ha := fresh "Ha" in
      apply bind_Ok in H as (a & Ha & H)
  | H : Ok _ = Ok _ |- _ => injection H as H; try subst
  | H : Raise _ = Ok _ |- _ => discriminate H
  | H : of_option _ _ = Ok _ |- _ => apply of_option_Ok in H
  end.

Lemma norm_index_lt {A : Type} (l : list A) (i : Z) (j : nat) :
  norm_index l i = Some j -> (j < length l)%nat.
Proof.
  unfold norm_index, index_at. destruct (i <? 0) eqn:Hi;
    destruct (_ && _) eqn:Hb; intros [= <-];
    apply andb_true_iff in Hb as [H0 H1]; lia.
Qed.

Lemma norm_index_neg {A : Type} (l : list A) (k : nat) :
  (0 < k <= length l)%nat ->
  norm_index l (- Z.of_nat k) = Some (length l - k)%nat.
Proof.
  intros Hk. unfold norm_index, index_at.
  replace (- Z.of_nat k <? 0) with true by (symmetry; apply Z.ltb_lt; lia).
  replace ((0 <=? _) && _) with true.
  - f_equal. lia.
  - symmetry. apply andb_true_iff. split; [apply Z.leb_le | apply Z.ltb_lt]; lia.
Qed.

Lemma py_set_length {A : Type} (l l' : list A) (i : Z) (x : A) :
  py_set l i x = Ok l' -> length l' = length l.
Proof.
  unfold py_set. destruct (norm_index l i); intros [= <-].
  apply length_insert.
Qed.

Lemma norm_index_insert {A : Type} (l : list A) (i : Z) (j : nat) (x : A) :
  norm_index (<[j := x]> l) i = norm_index l i.
Proof. unfold norm_index. by rewrite length_insert. Qed.

Lemma py_set_get {A : Type} (l l' : list A) (i : Z) (x : A) :
  py_set l i x = Ok l' -> py_get l' i = Ok x.
Proof.
  unfold py_set. destruct (norm_index l i) as [j|] eqn:Hj; intros [= <-].
  unfold py_get. rewrite norm_index_insert, Hj.
  rewrite list_lookup_insert_eq; [done | by eapply norm_index_lt].
Qed.

Lemma py_get_Some {A : Type} (l : list A) (i : Z) (j : nat) :
  norm_index l i = Some j -> exists x, py_get l i = Ok x /\ l !! j = Some x.
Proof.
  intros Hj. unfold py_get. rewrite Hj.
  destruct (lookup_lt_is_Some_2 l j (norm_index_lt _ _ _ Hj)) as [x Hx].
  exists x. by rewrite Hx.
Qed.

(** ** Slot selection *)




(** ** One slot per record: the column lists and the flag lists stay aligned *)


Ltac inv_step :=
  repeat (inv_ok;
          match goal with
          | H : (if ?b then _ else _) = Ok _ |- _ => destruct b eqn:?
          | H : match ?x with _ => _ end = Ok _ |- _ => destruct x eqn:?
          end);
  inv_ok.

(** Membership of a literal key in the list of lap columns. *)
Ltac in_keys :=
  unfold lap_keys; repeat first [apply list_elem_of_here | apply list_elem_of_further].

Ltac in_stream_keys :=
  unfold stream_keys; repeat first [apply list_elem_of_here | apply list_elem_of_further].

Lemma foldM_invariant {A S : Type} (P : S -> Prop) (f : S -> A -> result S) :
  (forall s x s', f s x = Ok s' -> P s -> P s') ->
  forall l s s', foldM f l s = Ok s' -> P s -> P s'.
Proof.
  intros Hf l. induction l as [|x l IH]; simpl; intros s s' Hrun Hs.
  - by inv_ok.
  - inv_ok. eauto.
Qed.

Lemma set_cell_len (n : nat) (c c' : columns) (key : string) (i : Z) (v : value) :
  set_cell c key i v = Ok c' -> columns_len n c -> columns_len n c'.
Proof.
  unfold set_cell, col. intros Hset Hc key' Hin. inv_ok.
  destruct (decide (key = key')) as [<-|Hne].
  - rewrite lookup_insert_eq. eexists; split; [done|].
    destruct (Hc key Hin) as (l & Hl & <-).
    rewrite Ha in Hl. injection Hl as <-. by eapply py_set_length.
  - rewrite lookup_insert_ne by done. by apply Hc.
Qed.

Lemma append_none_len (n : nat) (c : columns) :
  columns_len n c -> columns_len (S n) (append_none c).
Proof.
  intros Hc key Hin. destruct (Hc key Hin) as (l & Hl & <-).
  exists (l ++ [VNone]). unfold append_none. rewrite lookup_fmap, Hl. simpl.
  split; [done|]. rewrite length_app. simpl. lia.
Qed.

Lemma new_columns_len : columns_len 1 new_columns.
Proof.
  unfold new_columns. apply (append_none_len 0). intros key Hin.
  exists []. split; [|done].
  unfold lap_keys in Hin.
  repeat (apply elem_of_cons in Hin as [->|Hin]; [vm_compute; reflexivity|]).
  by apply elem_of_nil in Hin.
Qed.

Lemma set_ref_len (n : nat) (f f' : flag_lists) (i : Z) (r : time_ref) :
  set_ref f i r = Ok f' -> flags_len n f -> flags_len n f'.
Proof.
  unfold set_ref, flags_len. intros Hset [H1 H2]. inv_ok. simpl.
  apply py_set_length in Ha. split; congruence.
Qed.

Lemma set_locked_len (n : nat) (f f' : flag_lists) (i : Z) :
  set_locked f i = Ok f' -> flags_len n f -> flags_len n f'.
Proof.
  unfold set_locked, flags_len. intros Hset [H1 H2]. inv_ok. simpl.
  apply py_set_length in Ha. split; congruence.
Qed.

Section LapsAligned.

Variable to_timedelta : string -> option Z.

Lemma sector_step_aligned n time i ntr sectors cf item cf' :
  sector_step to_timedelta time i ntr sectors cf item = Ok cf' ->
  aligned n cf -> aligned n cf'.
Proof.
  unfold sector_step, resolve_item, sector_body, aligned.
  intros Hstep [Hc Hf]. destruct cf as [c f].
  simpl in *. inv_step; simpl;
    repeat match goal with
    | H : set_cell _ _ _ _ = Ok _ |- _ => apply (set_cell_len n) in H; [|assumption]
    | H : set_ref _ _ _ = Ok _ |- _ => apply (set_ref_len n) in H; [|assumption]
    end; by split.
Qed.

Lemma write_sectors_aligned n time i ntr block cf cf' :
  write_sectors to_timedelta time i ntr block cf = Ok cf' ->
  aligned n cf -> aligned n cf'.
Proof.
  unfold write_sectors. intros Hrun Hcf. inv_step; [|done].
  eapply (foldM_invariant (aligned n)); [|exact Hrun|exact Hcf].
  intros s x s'. apply sector_step_aligned.
Qed.

Lemma write_speeds_len n i block c c' :
  write_speeds i block c = Ok c' -> columns_len n c -> columns_len n c'.
Proof.
  unfold write_speeds. intros Hrun Hc. inv_step; [|done].
  eapply (foldM_invariant (columns_len n)); [|exact Hrun|exact Hc].
  intros s x s' Hstep Hs. unfold speed_step in Hstep.
  inv_step; [by eapply set_cell_len | done].
Qed.

Lemma write_pit_stops_len n i block c c' :
  write_pit_stops i block c = Ok c' -> columns_len n c -> columns_len n c'.
Proof.
  unfold write_pit_stops. intros Hrun Hc. inv_step; [by eapply set_cell_len | done].
Qed.

Lemma write_pit_times_len n time i block c c' :
  write_pit_times time i block c = Ok c' -> columns_len n c -> columns_len n c'.
Proof.
  unfold write_pit_times. intros Hrun Hc.
  inv_step;
    repeat match goal with
    | H : set_cell _ _ _ _ = Ok _ |- _ => apply (set_cell_len n) in H; [|assumption]
    end; done.
Qed.

Lemma write_last_lap_aligned n i block cf cf' :
  write_last_lap to_timedelta i block cf = Ok cf' -> aligned n cf -> aligned n cf'.
Proof.
  unfold write_last_lap, aligned. intros Hrun [Hc Hf]. destruct cf as [c f].
  simpl in *. inv_step; simpl;
    repeat match goal with
    | H : set_cell _ _ _ _ = Ok _ |- _ => apply (set_cell_len n) in H; [|assumption]
    | H : set_locked _ _ = Ok _ |- _ => apply (set_locked_len n) in H; [|assumption]
    end; by split.
Qed.

Lemma close_lap_aligned n block cf cf' :
  close_lap block cf = Ok cf' ->
  aligned n cf -> aligned n cf' \/ aligned (S n) cf'.
Proof.
  unfold close_lap, aligned. intros Hrun [Hc [Hf1 Hf2]]. destruct cf as [c f].
  simpl in *. inv_step; [right | left; by repeat split].
  simpl. split.
  - apply append_none_len. by eapply set_cell_len.
  - unfold flags_len. simpl. rewrite !length_app. simpl. lia.
Qed.

Lemma stamp_len n time driver i b c c' :
  stamp time driver i b c = Ok c' -> columns_len n c -> columns_len n c'.
Proof.
  unfold stamp. intros Hrun Hc. inv_step; eapply set_cell_len; eauto.
  eapply set_cell_len; eauto.
Qed.

Lemma entry_at_aligned n time driver block i c f cf' :
  entry_at to_timedelta time driver block i c f = Ok cf' ->
  aligned n (c, f) -> aligned n cf' \/ aligned (S n) cf'.
Proof.
  unfold entry_at. intros Hrun [Hc Hf]. simpl in *. inv_ok.
  apply (close_lap_aligned n) in Hrun; [done|].
  eapply write_last_lap_aligned; [eassumption|].
  apply (stamp_len n) in Ha1; [|done].
  apply (write_pit_stops_len n) in Ha2; [|done].
  apply (write_sectors_aligned n) in Ha3; [|by split].
  destruct Ha3 as [Hc3 Hf3].
  apply (write_speeds_len n) in Ha4; [|done].
  apply (write_pit_times_len n) in Ha5; [|done].
  by split.
Qed.

Lemma entry_state_aligned entry driver st st' :
  timing_data_laps_entry to_timedelta entry driver st = Ok st' ->
  state_aligned st -> state_aligned st'.
Proof.
  unfold timing_data_laps_entry. intros Hrun Hst. inv_ok. simpl.
  assert (exists n, (1 <= n)%nat /\
            aligned n (default new_columns (data st !! driver),
                       default new_flags (flags st !! driver))) as (n & Hn & Hal).
  { specialize (Hst driver).
    destruct (data st !! driver), (flags st !! driver); simpl; try done.
    exists 1%nat. split; [done|]. split; [apply new_columns_len | done]. }
  intros d. simpl. destruct (decide (driver = d)) as [<-|Hne].
  - rewrite !lookup_insert_eq.
    match goal with
    | He : entry_at _ _ _ _ _ _ _ = Ok _ |- _ => rename He into Hentry
    end.
    apply (entry_at_aligned n) in Hentry as [H|H]; [| |done]; eexists; (split; [|exact H]); lia.
  - rewrite !lookup_insert_ne by done. apply Hst.
Qed.

Lemma laps_loop_aligned response st st' :
  laps_loop to_timedelta response st = Ok st' ->
  state_aligned st -> state_aligned st'.
Proof.
  unfold laps_loop. apply foldM_invariant. clear. intros st entry st' Hrun Hst.
  unfold laps_frame in Hrun. inv_step; [|done].
  eapply (foldM_invariant state_aligned); [|exact Hrun|exact Hst].
  intros s d s' Hd Hs. destruct d; simpl in Hd; try discriminate.
  by eapply entry_state_aligned.
Qed.

End LapsAligned.


Lemma empty_state_aligned : state_aligned empty_state.
Proof. intros driver. simpl. by rewrite !lookup_empty. Qed.



(** ** Sectors as a list and as a keyed map *)

Lemma bind_congr {A B : Type} (m1 m2 : result A) (k1 k2 : A -> result B) :
  m1 = m2 -> (forall a, k1 a = k2 a) -> bind m1 k1 = bind m2 k2.
Proof. intros -> Hk. destruct m2; simpl; [apply Hk | done]. Qed.

Lemma assoc_app_other (k k0 : string) (pre post : list (string * value)) (a b : value) :
  k <> k0 ->
  assoc k (pre ++ (k0, a) :: post) = assoc k (pre ++ (k0, b) :: post).
Proof.
  intros Hne. induction pre as [|[k' v] pre IH]; simpl.
  - by apply String.eqb_neq in Hne as ->.
  - by rewrite IH.
Qed.

Lemma assoc_app_same (k0 : string) (pre post : list (string * value)) (a : value) :
  assoc k0 (pre ++ (k0, a) :: post) = Some (default a (assoc k0 pre)).
Proof.
  induction pre as [|[k' v] pre IH]; simpl.
  - by rewrite String.eqb_refl.
  - destruct (String.eqb k0 k'); [done | exact IH].
Qed.

Section SectorsEncoding.

Variable to_timedelta : string -> option Z.
Variables (pre post : list (string * value)) (s0 s1 s2 : value).

Let block_l : value := block_with_sectors pre post (sectors_list s0 s1 s2).
Let block_m : value := block_with_sectors pre post (sectors_map s0 s1 s2).

Lemma py_in_other (k : string) : k <> "Sectors" -> py_in k block_l = py_in k block_m.
Proof.
  intros Hne. unfold block_l, block_m, block_with_sectors. simpl.
  by rewrite (assoc_app_other k "Sectors" pre post _ (sectors_map s0 s1 s2)).
Qed.

Lemma py_getitem_other (k : string) :
  k <> "Sectors" -> py_getitem block_l k = py_getitem block_m k.
Proof.
  intros Hne. unfold block_l, block_m, block_with_sectors. simpl.
  by rewrite (assoc_app_other k "Sectors" pre post _ (sectors_map s0 s1 s2)).
Qed.

Lemma sector_loop_same time i ntr cf :
  foldM (sector_step to_timedelta time i ntr (sectors_list s0 s1 s2))
        (enumerate [s0; s1; s2]) cf
  = foldM (sector_step to_timedelta time i ntr (sectors_map s0 s1 s2))
          (enumerate [VStr "0"; VStr "1"; VStr "2"]) cf.
Proof.
  unfold enumerate. cbn [enumerate_from foldM].
  assert (forall s n key sk,
            resolve_item (sectors_map s0 s1 s2) (n, VStr key) = Ok (n, sk) ->
            sector_step to_timedelta time i ntr (sectors_list s0 s1 s2) s (n, sk)
            = sector_step to_timedelta time i ntr (sectors_map s0 s1 s2) s (n, VStr key))
    as Hstep.
  { intros s n key sk Hres. unfold sector_step. by rewrite Hres. }
  repeat (apply bind_congr; [apply Hstep; reflexivity | intros ?]).
  reflexivity.
Qed.

Lemma write_sectors_same time i ntr cf :
  write_sectors to_timedelta time i ntr block_l cf
  = write_sectors to_timedelta time i ntr block_m cf.
Proof.
  unfold write_sectors, block_l, block_m, block_with_sectors, py_in, py_getitem.
  rewrite !assoc_app_same. simpl.
  destruct (assoc "Sectors" pre) as [x|]; simpl; [done|].
  apply sector_loop_same.
Qed.

Lemma entry_at_same time driver i c f :
  entry_at to_timedelta time driver block_l i c f
  = entry_at to_timedelta time driver block_m i c f.
Proof.
  unfold entry_at, stamp, write_pit_stops, write_speeds, write_pit_times, write_last_lap,
    last_lap_value, close_lap.
  rewrite !(py_in_other "NumberOfPitStops"), !(py_getitem_other "NumberOfPitStops"),
    !(py_in_other "Speeds"), !(py_getitem_other "Speeds"),
    !(py_in_other "PitOut"), !(py_getitem_other "PitOut"),
    !(py_in_other "InPit"), !(py_getitem_other "InPit"),
    !(py_in_other "LastLapTime"), !(py_getitem_other "LastLapTime"),
    !(py_in_other "NumberOfLaps"), !(py_getitem_other "NumberOfLaps") by done.
  repeat (apply bind_congr;
          [first [reflexivity | apply write_sectors_same] | intros ?]).
  reflexivity.
Qed.

End SectorsEncoding.

(** C7. A block whose [Sectors] is the list of three sector objects and the
    same block whose [Sectors] is the map keyed "0", "1", "2" give the same
    result, whatever else the block holds: the same state, hence the same
    Sector1Time, Sector2Time and Sector3Time cells on the targeted record,
    or the same exception. *)
Theorem sectors_list_map_same (to_timedelta : string -> option Z)
    (timestamp driver : string) (pre post : list (string * value))
    (v0 v1 v2 : value) (st : state) :
  timing_data_laps_entry to_timedelta
    (frame_of timestamp driver
       (block_with_sectors pre post
          (sectors_list (sector_value v0) (sector_value v1) (sector_value v2))))
    driver st
  = timing_data_laps_entry to_timedelta
      (frame_of timestamp driver
         (block_with_sectors pre post
            (sectors_map (sector_value v0) (sector_value v1) (sector_value v2))))
      driver st.
Proof.
  unfold timing_data_laps_entry, frame_of. simpl.
  rewrite String.eqb_refl. simpl.
  repeat (apply bind_congr; [first [reflexivity | apply entry_at_same] | intros ?]).
  reflexivity.
Qed.

(** ** The lock on a record's timestamp *)

Lemma set_cell_other (c c' : columns) (key k : string) (i : Z) (v : value) :
  set_cell c key i v = Ok c' -> key <> k -> c' !! k = c !! k.
Proof.
  unfold set_cell. intros Hset Hne. inv_ok. by rewrite lookup_insert_ne.
Qed.

Lemma set_cell_spec (c c' : columns) (key : string) (i : Z) (v : value)
    (l : list value) :
  set_cell c key i v = Ok c' -> c !! key = Some l ->
  exists j, norm_index l i = Some j /\ c' = <[key := <[j := v]> l]> c.
Proof.
  unfold set_cell, col, py_set. intros Hset Hl. rewrite Hl in Hset. simpl in Hset.
  destruct (norm_index l i) as [j|]; simpl in Hset; [|done].
  exists j. split; [done|]. by inv_ok.
Qed.

Lemma py_get_lookup {A : Type} (l : list A) (i : Z) (j : nat) (x : A) :
  py_get l i = Ok x -> norm_index l i = Some j -> l !! j = Some x.
Proof. unfold py_get. intros Hget Hj. rewrite Hj in Hget. by inv_ok. Qed.

Lemma sector_key_not_time (n : Z) : sector_key n <> "Time".
Proof. unfold sector_key. simpl. discriminate. Qed.


Lemma set_ref_locked (f f' : flag_lists) (i : Z) (r : time_ref) :
  set_ref f i r = Ok f' -> locked_times f' = locked_times f.
Proof. unfold set_ref. intros H. by inv_ok. Qed.

Section Lock.

Variable to_timedelta : string -> option Z.

(** The sector loop never writes the Time column nor the lock flags. *)
Lemma write_sectors_frame time i ntr block cf cf' :
  write_sectors to_timedelta time i ntr block cf = Ok cf' ->
  fst cf' !! "Time" = fst cf !! "Time" /\
  locked_times (snd cf') = locked_times (snd cf).
Proof.
  unfold write_sectors. intros Hrun. inv_step; [|done].
  eapply (foldM_invariant
            (fun s => fst s !! "Time" = fst cf !! "Time" /\
                      locked_times (snd s) = locked_times (snd cf)));
    [|exact Hrun|done].
  clear. intros s x s' Hstep [Hc Hf].
  unfold sector_step, resolve_item, sector_body in Hstep.
  inv_step; simpl;
    repeat match goal with
    | H : set_cell _ (sector_key _) _ _ = Ok _ |- _ =>
        apply set_cell_other with (k := "Time") in H; [|apply sector_key_not_time]
    | H : set_ref _ _ _ = Ok _ |- _ => apply set_ref_locked in H
    end; split; congruence.
Qed.







End Lock.

Section LockRun.

Variable to_timedelta : string -> option Z.




End LockRun.




(** ** The time reference and the lap start it yields *)

Lemma py_get_at {A : Type} (l : list A) (i : Z) (j : nat) (x : A) :
  norm_index l i = Some j -> l !! j = Some x -> py_get l i = Ok x.
Proof. unfold py_get. by intros -> ->. Qed.

Lemma py_set_at {A : Type} (l : list A) (i : Z) (j : nat) (x : A) :
  norm_index l i = Some j -> py_set l i x = Ok (<[j := x]> l).
Proof. unfold py_set. by intros ->. Qed.

Lemma index_at_lt (n : nat) (i : Z) (j : nat) : index_at n i = Some j -> (j < n)%nat.
Proof.
  unfold index_at. destruct (i <? 0) eqn:Hi;
    destruct (_ && _) eqn:Hb; intros [= <-];
    apply andb_true_iff in Hb as [H0 H1]; lia.
Qed.

(** A write through a valid index into one of the lap columns succeeds,
    keeps the columns aligned and puts the value at the indexed position. *)
Lemma set_cell_total (n : nat) (c : columns) (key : string) (i : Z) (j : nat)
    (v : value) :
  columns_len n c -> key ∈ lap_keys -> index_at n i = Some j ->
  exists c', set_cell c key i v = Ok c' /\ columns_len n c' /\
             exists l, c' !! key = Some l /\ l !! j = Some v.
Proof.
  intros Hc Hkey Hj. destruct (Hc key Hkey) as (l & Hl & Hlen).
  exists (<[key := <[j := v]> l]> c).
  assert (set_cell c key i v = Ok (<[key := <[j := v]> l]> c)) as Hset.
  { unfold set_cell, col. rewrite Hl. simpl.
    rewrite (py_set_at l i j) by (unfold norm_index; by rewrite Hlen). done. }
  split; [done|]. split; [by eapply set_cell_len|].
  exists (<[j := v]> l). rewrite lookup_insert_eq. split; [done|].
  apply list_lookup_insert_eq. rewrite Hlen. by eapply index_at_lt.
Qed.

Lemma lap_start_refine (time new_delta : Z) (r : time_ref) :
  lap_start (refine time new_delta r) = Z.min (lap_start r) (time - new_delta).
Proof.
  unfold refine. destruct (Z.ltb_spec (time - new_delta) (lap_start r)).
  - unfold lap_start at 1. simpl. lia.
  - lia.
Qed.

Lemma ts0_refine (time new_delta : Z) (r : time_ref) :
  ts0 (refine time new_delta r) = ts0 r.
Proof. unfold refine. by destruct (_ <? _). Qed.

Lemma ts1_refine (time new_delta : Z) (r : time_ref) :
  ts1 (refine time new_delta r) = ts1 r.
Proof. unfold refine. by destruct (_ <? _). Qed.

(** Evaluate the dictionary look-ups of a block given by its fields. *)
Ltac py_eval :=
  cbn [py_in py_getitem assoc String.eqb Ascii.eqb Bool.eqb bool_decide decide
       decide_rel is_Some_dec bind of_option py_iter map fst snd enumerate
       enumerate_from foldM is_dict].

Section TimeReference.

Variable to_timedelta : string -> option Z.

Lemma at_slot_gets n i j c f ref locked :
  at_slot n i j c f ref locked ->
  py_get (time_reference f) i = Ok ref /\ py_get (locked_times f) i = Ok locked /\
  norm_index (time_reference f) i = Some j.
Proof.
  intros ([Hc [Hf1 Hf2]] & Hj & Hr & Hl). simpl in *.
  assert (norm_index (time_reference f) i = Some j) by (unfold norm_index; by rewrite Hf1).
  assert (norm_index (locked_times f) i = Some j) by (unfold norm_index; by rewrite Hf2).
  repeat split; [by eapply py_get_at | by eapply py_get_at | done].
Qed.

(** Lines 240-241: the per-packet writes succeed and keep the alignment. *)
Lemma stamp_total n i j c (b : bool) time driver :
  columns_len n c -> index_at n i = Some j ->
  exists c2, stamp time driver i b c = Ok c2 /\ columns_len n c2.
Proof.
  intros Hc Hj. unfold stamp.
  assert (exists c1, (if b then set_cell c "Time" i (VTimedelta time) else Ok c)
                     = Ok c1 /\ columns_len n c1) as (c1 & -> & Hc1).
  { destruct b; simpl; [|by exists c].
    destruct (set_cell_total n c "Time" i j (VTimedelta time)) as (c1 & H1 & Hc1 & _);
      [done | in_keys | done | by exists c1]. }
  simpl.
  destruct (set_cell_total n c1 "Driver" i j (VStr driver)) as (c2 & H2 & Hc2 & _);
    [done | in_keys | done | by exists c2].
Qed.

Lemma bind_ret {A : Type} (m : result A) : bind m Ok = m.
Proof. by destruct m. Qed.

(** A block that carries one sector only runs the sector body once and
    nothing else. *)
Lemma entry_at_sector (key : string) (n : Z) (v : string) time driver i c f :
  py_int (VStr key) = Ok n -> py_str n = key ->
  entry_at to_timedelta time driver (sector_update key v) i c f
  = (ref_i <- py_get (time_reference f) i ;;
     locked_i <- py_get (locked_times f) i ;;
     c <- stamp time driver i (negb locked_i) c ;;
     sector_body to_timedelta time i (bool_decide (ref_i = None)) (c, f) n
       (sector_value (VStr v))).
Proof.
  intros Hint Hstr. unfold entry_at.
  repeat (apply bind_congr; [reflexivity | intros ?]).
  unfold write_pit_stops, write_sectors, sector_update. py_eval.
  unfold sector_step, resolve_item. py_eval. rewrite Hint. py_eval.
  rewrite Hstr, String.eqb_refl. py_eval.
  destruct (sector_body _ _ _ _ _ _ _) as [[c' f']|e]; [|reflexivity].
  unfold write_speeds, write_pit_times, write_last_lap, last_lap_value, close_lap.
  py_eval. reflexivity.
Qed.

Lemma set_ref_total n i j f r :
  flags_len n f -> index_at n i = Some j ->
  set_ref f i r = Ok (mk_flags (<[j := Some r]> (time_reference f)) (locked_times f)) /\
  get_ref (mk_flags (<[j := Some r]> (time_reference f)) (locked_times f)) i = Ok r.
Proof.
  intros [Hf1 Hf2] Hj.
  assert (norm_index (time_reference f) i = Some j) as Hn
    by (unfold norm_index; by rewrite Hf1).
  unfold set_ref, get_ref. rewrite (py_set_at _ _ _ _ Hn). simpl. split; [done|].
  rewrite (py_get_at _ i j (Some r)); [done| |].
  - unfold norm_index. by rewrite length_insert.
  - apply list_lookup_insert_eq. rewrite Hf1. by eapply index_at_lt.
Qed.

Lemma at_slot_set_ref n i j c c' f ref locked r :
  at_slot n i j c f ref locked -> columns_len n c' ->
  at_slot n i j c' (mk_flags (<[j := Some r]> (time_reference f)) (locked_times f))
          (Some r) locked.
Proof.
  intros ([Hc [Hf1 Hf2]] & Hj & Hr & Hl) Hc'. simpl in *.
  repeat split; simpl; try done.
  - by rewrite length_insert.
  - apply list_lookup_insert_eq. rewrite Hf1. by eapply index_at_lt.
Qed.

(** Sector 1 on a record without a reference seeds it (lines 262-266). *)
Lemma sector1_step n i j c f locked time driver (v : string) s :
  at_slot n i j c f None locked ->
  v <> "" -> to_timedelta ("00:00:" +:+ v) = Some s ->
  exists cf', entry_at to_timedelta time driver (sector_update "0" v) i c f = Ok cf' /\
              at_slot n i j (fst cf') (snd cf')
                      (Some (mk_ref time s s None None)) locked.
Proof.
  intros Hslot Hv Hs.
  destruct (at_slot_gets _ _ _ _ _ _ _ Hslot) as (Hr & Hl & Hn).
  pose proof Hslot as ([Hc Hf] & Hj & _). simpl in Hc, Hf.
  rewrite (entry_at_sector "0" 0) by reflexivity. rewrite Hr, Hl. simpl.
  destruct (stamp_total n i j c (negb locked) time driver Hc Hj) as (c2 & -> & Hc2).
  simpl. unfold sector_body. simpl.
  destruct (set_cell_total n c2 "Sector1Time" i j (VStr v)) as (c3 & H3 & Hc3 & _);
    [done | in_keys | done |].
  change (sector_key 0) with "Sector1Time". rewrite H3. simpl.
  unfold ne_empty_str, is_str.
  replace (String.eqb "" v) with false
    by (symmetry; apply String.eqb_neq; congruence).
  simpl. unfold sector_td, parse_td. simpl. rewrite Hs. simpl.
  destruct (set_ref_total n i j f (mk_ref time s s None None) Hf Hj) as [-> _].
  simpl. eexists. split; [reflexivity|]. simpl. by eapply at_slot_set_ref.
Qed.

Lemma non_empty_measure (v : string) : v <> "" -> ne_empty_str (VStr v) = true.
Proof.
  intros Hv. unfold ne_empty_str, is_str.
  replace (String.eqb "" v) with false; [done|].
  symmetry. apply String.eqb_neq. congruence.
Qed.

(** Sector 2 on a record with a reference refines it (lines 269-279). *)
Lemma sector2_step n i j c f locked time driver (v : string) s r :
  at_slot n i j c f (Some r) locked ->
  v <> "" -> to_timedelta ("00:00:" +:+ v) = Some s ->
  exists cf', entry_at to_timedelta time driver (sector_update "1" v) i c f = Ok cf' /\
              at_slot n i j (fst cf') (snd cf')
                      (Some (set_ts1 s (refine time (s + ts0 r) r))) locked.
Proof.
  intros Hslot Hv Hs.
  destruct (at_slot_gets _ _ _ _ _ _ _ Hslot) as (Hr & Hl & Hn).
  pose proof Hslot as ([Hc Hf] & Hj & _). simpl in Hc, Hf.
  rewrite (entry_at_sector "1" 1) by reflexivity. rewrite Hr, Hl. simpl.
  destruct (stamp_total n i j c (negb locked) time driver Hc Hj) as (c2 & -> & Hc2).
  simpl. unfold sector_body, sector_value. py_eval.
  destruct (set_cell_total n c2 "Sector2Time" i j (VStr v)) as (c3 & H3 & Hc3 & _);
    [done | in_keys | done |].
  change (sector_key 1) with "Sector2Time". rewrite H3. py_eval.
  rewrite (non_empty_measure v Hv). simpl.
  unfold get_ref at 1. rewrite Hr. simpl.
  unfold sector_td, parse_td. simpl. rewrite Hs. simpl.
  unfold get_ref at 1. rewrite Hr. simpl.
  destruct (set_ref_total n i j f (set_ts1 s (refine time (s + ts0 r) r)) Hf Hj)
    as [Hset Hget].
  rewrite Hset. simpl. rewrite Hget. simpl. eexists. split; [reflexivity|]. simpl. by eapply at_slot_set_ref.
Qed.

(** Sector 3 on a record whose reference has seen sector 2 refines it
    (lines 282-293). *)
Lemma sector3_step n i j c f locked time driver (v : string) s r t1 :
  at_slot n i j c f (Some r) locked -> ts1 r = Some t1 ->
  v <> "" -> to_timedelta ("00:00:" +:+ v) = Some s ->
  exists cf', entry_at to_timedelta time driver (sector_update "2" v) i c f = Ok cf' /\
              at_slot n i j (fst cf') (snd cf')
                      (Some (set_ts2 s (refine time (s + t1 + ts0 r) r))) locked.
Proof.
  intros Hslot Ht1 Hv Hs.
  destruct (at_slot_gets _ _ _ _ _ _ _ Hslot) as (Hr & Hl & Hn).
  pose proof Hslot as ([Hc Hf] & Hj & _). simpl in Hc, Hf.
  rewrite (entry_at_sector "2" 2) by reflexivity. rewrite Hr, Hl. simpl.
  destruct (stamp_total n i j c (negb locked) time driver Hc Hj) as (c2 & -> & Hc2).
  simpl. unfold sector_body, sector_value. py_eval.
  destruct (set_cell_total n c2 "Sector3Time" i j (VStr v)) as (c3 & H3 & Hc3 & _);
    [done | in_keys | done |].
  change (sector_key 2) with "Sector3Time". rewrite H3. py_eval.
  rewrite (non_empty_measure v Hv). simpl.
  unfold get_ref. rewrite Hr. simpl. rewrite Ht1. simpl.
  unfold sector_td, parse_td. simpl. rewrite Hs. simpl.
  fold (set_ref f i (set_ts2 s (refine time (s + t1 + ts0 r) r))).
  destruct (set_ref_total n i j f (set_ts2 s (refine time (s + t1 + ts0 r) r)) Hf Hj)
    as [-> _].
  simpl. eexists. split; [reflexivity|]. simpl. by eapply at_slot_set_ref.
Qed.

(** A non-empty lap time on a record with a reference stores the lap
    start plus the lap time and sets the lock (lines 312-323). *)
Lemma last_lap_step n i j c f locked time driver (v : string) lap r :
  at_slot n i j c f (Some r) locked ->
  v <> "" -> to_timedelta ("00:" +:+ v) = Some lap ->
  exists cf', entry_at to_timedelta time driver (last_lap_update v) i c f = Ok cf' /\
              (exists tcol, fst cf' !! "Time" = Some tcol /\
                            tcol !! j = Some (VTimedelta (lap_start r + lap))) /\
              locked_times (snd cf') !! j = Some true.
Proof.
  intros Hslot Hv Hs.
  destruct (at_slot_gets _ _ _ _ _ _ _ Hslot) as (Hr & Hl & Hn).
  pose proof Hslot as ([Hc [Hf1 Hf2]] & Hj & _). simpl in Hc, Hf1, Hf2.
  unfold entry_at. rewrite Hr, Hl. simpl.
  destruct (stamp_total n i j c (negb locked) time driver Hc Hj) as (c2 & -> & Hc2).
  unfold write_pit_stops, write_sectors, write_speeds, write_pit_times,
    write_last_lap, last_lap_value, close_lap, last_lap_update.
  py_eval. rewrite (non_empty_measure v Hv). py_eval.
  destruct (set_cell_total n c2 "LastLapTime" i j (VStr v)) as (c3 & -> & Hc3 & _);
    [done | in_keys | done |].
  simpl. unfold parse_td. rewrite Hs, Hr. simpl.
  destruct (set_cell_total n c3 "Time" i j (VTimedelta (lap_start r + lap)))
    as (c4 & -> & Hc4 & Htime); [done | in_keys | done |].
  simpl. unfold set_locked.
  rewrite (py_set_at (locked_times f) i j) by (unfold norm_index; by rewrite Hf2).
  simpl. eexists. split; [reflexivity|]. simpl. split; [exact Htime|].
  apply list_lookup_insert_eq. rewrite Hf2. by eapply index_at_lt.
Qed.

End TimeReference.

(** C3, as the code has it.  On a record without a time reference, sector
    1, 2 and 3 values that arrive in three successive packets keep the lap
    start [base - delta] at the minimum of the candidates seen so far; when
    the lap time arrives, the lap start it uses is the minimum of the three
    candidates, and the record's Time cell is set to that lap start plus
    the lap time and locked. *)
Theorem time_reference_minimum (to_timedelta : string -> option Z)
    (n : nat) (i : Z) (j : nat) (c : columns) (f : flag_lists) (driver : string)
    (t1 t2 t3 t4 : Z) (v1 v2 v3 lt : string) (s1 s2 s3 lap : Z) :
  at_slot n i j c f None false ->
  v1 <> "" -> v2 <> "" -> v3 <> "" -> lt <> "" ->
  to_timedelta ("00:00:" +:+ v1) = Some s1 ->
  to_timedelta ("00:00:" +:+ v2) = Some s2 ->
  to_timedelta ("00:00:" +:+ v3) = Some s3 ->
  to_timedelta ("00:" +:+ lt) = Some lap ->
  exists cf1 cf2 cf3 cf4 r1 r2 r3,
    entry_at to_timedelta t1 driver (sector_update "0" v1) i c f = Ok cf1 /\
    time_reference (snd cf1) !! j = Some (Some r1) /\
    lap_start r1 = t1 - s1 /\
    entry_at to_timedelta t2 driver (sector_update "1" v2) i (fst cf1) (snd cf1)
      = Ok cf2 /\
    time_reference (snd cf2) !! j = Some (Some r2) /\
    lap_start r2 = Z.min (t1 - s1) (t2 - (s2 + s1)) /\
    entry_at to_timedelta t3 driver (sector_update "2" v3) i (fst cf2) (snd cf2)
      = Ok cf3 /\
    time_reference (snd cf3) !! j = Some (Some r3) /\
    lap_start r3 = Z.min (Z.min (t1 - s1) (t2 - (s2 + s1))) (t3 - (s3 + s2 + s1)) /\
    entry_at to_timedelta t4 driver (last_lap_update lt) i (fst cf3) (snd cf3)
      = Ok cf4 /\
    (exists tcol, fst cf4 !! "Time" = Some tcol /\
                  tcol !! j = Some (VTimedelta (lap_start r3 + lap))) /\
    locked_times (snd cf4) !! j = Some true.
Proof.
  intros Hslot Hv1 Hv2 Hv3 Hlt Hs1 Hs2 Hs3 Hlap.
  destruct (sector1_step to_timedelta n i j c f false t1 driver v1 s1 Hslot Hv1 Hs1)
    as (cf1 & Hrun1 & Hslot1).
  destruct (sector2_step to_timedelta n i j _ _ false t2 driver v2 s2 _ Hslot1 Hv2 Hs2)
    as (cf2 & Hrun2 & Hslot2).
  destruct (sector3_step to_timedelta n i j _ _ false t3 driver v3 s3 _ s2
              Hslot2 eq_refl Hv3 Hs3) as (cf3 & Hrun3 & Hslot3).
  destruct (last_lap_step to_timedelta n i j _ _ false t4 driver lt lap _
              Hslot3 Hlt Hlap) as (cf4 & Hrun4 & Htime & Hlock).
  exists cf1, cf2, cf3, cf4. do 3 eexists.
  split; [exact Hrun1|]. split; [apply Hslot1|]. split; [reflexivity|].
  split; [exact Hrun2|]. split; [apply Hslot2|].
  split.
  { unfold set_ts1, lap_start at 1. simpl.
    fold (lap_start (refine t2 (s2 + s1) (mk_ref t1 s1 s1 None None))).
    rewrite lap_start_refine. unfold lap_start. simpl. lia. }
  split; [exact Hrun3|]. split; [apply Hslot3|].
  split.
  { unfold set_ts2, lap_start at 1. simpl.
    match goal with
    | |- base ?r - delta ?r = _ => fold (lap_start r)
    end.
    rewrite lap_start_refine. rewrite ts0_refine. simpl.
    unfold set_ts1 at 1, lap_start at 1. simpl.
    fold (lap_start (refine t2 (s2 + s1) (mk_ref t1 s1 s1 None None))).
    rewrite lap_start_refine. unfold lap_start. simpl. lia. }
  split; [exact Hrun4|]. split; [exact Htime | exact Hlock].
Qed.

Lemma new_slot : at_slot 1 (-1) 0 new_columns new_flags None false.
Proof.
  repeat split; try reflexivity. apply new_columns_len.
Qed.

Lemma time_reference_minimum_witness :
  exists cf1 cf2 cf3 cf4 r1 r2 r3,
    entry_at clock_to_timedelta 60000000000 "44" (sector_update "0" "20.1") (-1)
      new_columns new_flags = Ok cf1 /\
    time_reference (snd cf1) !! 0%nat = Some (Some r1) /\
    lap_start r1 = 60000000000 - 20100000000 /\
    entry_at clock_to_timedelta 80000000000 "44" (sector_update "1" "19.9") (-1)
      (fst cf1) (snd cf1) = Ok cf2 /\
    time_reference (snd cf2) !! 0%nat = Some (Some r2) /\
    lap_start r2 = Z.min (60000000000 - 20100000000)
                         (80000000000 - (19900000000 + 20100000000)) /\
    entry_at clock_to_timedelta 101000000000 "44" (sector_update "2" "21.0") (-1)
      (fst cf2) (snd cf2) = Ok cf3 /\
    time_reference (snd cf3) !! 0%nat = Some (Some r3) /\
    lap_start r3 = Z.min (Z.min (60000000000 - 20100000000)
                                (80000000000 - (19900000000 + 20100000000)))
                         (101000000000 - (21000000000 + 19900000000 + 20100000000)) /\
    entry_at clock_to_timedelta 101500000000 "44" (last_lap_update "1:01.000") (-1)
      (fst cf3) (snd cf3) = Ok cf4 /\
    (exists tcol, fst cf4 !! "Time" = Some tcol /\
                  tcol !! 0%nat = Some (VTimedelta (lap_start r3 + 61000000000))) /\
    locked_times (snd cf4) !! 0%nat = Some true.
Proof.
  apply (time_reference_minimum clock_to_timedelta 1 (-1) 0 new_columns new_flags "44"
           60000000000 80000000000 101000000000 101500000000
           "20.1" "19.9" "21.0" "1:01.000"
           20100000000 19900000000 21000000000 61000000000).
  - exact new_slot.
  - discriminate.
  - discriminate.
  - discriminate.
  - discriminate.
  - reflexivity.
  - reflexivity.
  - reflexivity.
  - reflexivity.
Defined.

(** The three sectors in one packet: only sector 1 enters the reference,
    because the flag of line 235 is read before the loop.  The lap start
    stays at the first candidate, 99.9 s, while the minimum of the three
    candidates is 59 s; the lap time then stores 99.9 s + 61 s. *)
Lemma sectors_in_one_packet :
  exists cf cf',
    entry_at clock_to_timedelta 120000000000 "44" three_sectors (-1)
      new_columns new_flags = Ok cf /\
    time_reference (snd cf) !! 0%nat
      = Some (Some (mk_ref 120000000000 20100000000 20100000000 None None)) /\
    lap_start (mk_ref 120000000000 20100000000 20100000000 None None) = 99900000000 /\
    Z.min (Z.min (120000000000 - 20100000000)
                 (120000000000 - (19900000000 + 20100000000)))
          (120000000000 - (21000000000 + 19900000000 + 20100000000)) = 59000000000 /\
    entry_at clock_to_timedelta 121000000000 "44" (last_lap_update "1:01.000") (-1)
      (fst cf) (snd cf) = Ok cf' /\
    (fst cf' !! "Time") ≫= (fun tcol => tcol !! 0%nat)
      = Some (VTimedelta 160900000000).
Proof.
  eexists. eexists.
  split; [vm_compute; reflexivity|].
  split; [vm_compute; reflexivity|].
  split; [reflexivity|].
  split; [reflexivity|].
  split; [vm_compute; reflexivity|].
  vm_compute. reflexivity.
Qed.

(** ** Pit-stop counts after the backward pass *)

Lemma assign_from_lookup (k lap : nat) (v : option Z) (col : list (option Z)) (j : nat) :
  (j < length col)%nat ->
  assign_from k lap v col !! j
  = if (k + j <=? lap)%nat then Some v else col !! j.
Proof.
  revert k j. induction col as [|x col IH]; intros k j Hj; simpl in *; [lia|].
  destruct j as [|j]; simpl.
  - rewrite Nat.add_0_r. by destruct (k <=? lap)%nat.
  - rewrite IH by lia. by replace (S k + j)%nat with (k + S j)%nat by lia.
Qed.

Lemma assign_upto_lookup (lap : nat) (v : option Z) (col : list (option Z)) (j : nat) :
  (j < length col)%nat ->
  assign_upto lap v col !! j = if (j <=? lap)%nat then Some v else col !! j.
Proof. intros Hj. unfold assign_upto. by rewrite assign_from_lookup. Qed.

Lemma assign_upto_length (lap : nat) (v : option Z) (col : list (option Z)) :
  length (assign_upto lap v col) = length col.
Proof.
  unfold assign_upto. generalize 0%nat.
  induction col as [|x col IH]; intros k; simpl; [done | by rewrite IH].
Qed.

Lemma count_some_nil : count_some [] = 0%nat.
Proof. reflexivity. Qed.

Lemma count_some_Some (x : Z) (l : list (option Z)) :
  count_some (Some x :: l) = S (count_some l).
Proof. reflexivity. Qed.

Lemma count_some_None (l : list (option Z)) :
  count_some (None :: l) = count_some l.
Proof. reflexivity. Qed.

(** Equations between a number or NaN less two equal amounts. *)
Ltac nan_arith ps :=
  destruct ps; unfold minus_one, nan_sub; [f_equal; lia | reflexivity].

(** The backward pass over the suffix [s] that starts at row [k] of the
    column [w]: every row before [k] holds the start value less the number
    of recorded rows of [s], and row [k + t] holds the start value less the
    number of recorded rows from [t] on. *)
Lemma backward_pass (s : list (option Z)) :
  forall (k : nat) (w : list (option Z)) (ps : option Z),
    length w = (k + length s)%nat ->
    let out := fold_left correction_step
                 (rev (indices_from (fun x => bool_decide (is_Some x)) k s
                       ++ [(k + length s)%nat])) (w, ps) in
    snd out = nan_sub ps (Z.of_nat (count_some s) + 1) /\
    length (fst out) = length w /\
    (forall j, (j < k)%nat -> fst out !! j = Some (nan_sub ps (Z.of_nat (count_some s)))) /\
    (forall t, (t < length s)%nat ->
       fst out !! (k + t)%nat = Some (nan_sub ps (Z.of_nat (count_some (drop t s))))).
Proof.
  induction s as [|x s IH]; intros k w ps Hlen; cbn [indices_from length app rev] in *.
  - cbn [fold_left]. unfold correction_step. cbn [fst snd].
    rewrite count_some_nil. split; [|split; [|split]].
    + nan_arith ps.
    + by rewrite assign_upto_length.
    + intros j Hj. rewrite assign_upto_lookup by lia.
      replace (j <=? k + 0)%nat with true by (symmetry; apply Nat.leb_le; lia).
      f_equal. nan_arith ps.
    + intros t Ht. lia.
  - specialize (IH (S k) w ps).
    replace (S k + length s)%nat with (k + S (length s))%nat in IH by lia.
    destruct (IH Hlen) as (Hps & Hl & Hlow & Hhigh). clear IH.
    destruct x as [x|].
    + rewrite count_some_Some.
      replace (bool_decide (is_Some (Some x))) with true by done.
      cbn [app rev]. rewrite fold_left_app.
      set (out := fold_left correction_step _ (w, ps)) in *.
      cbn [fold_left]. unfold correction_step. cbn [fst snd].
      split; [|split; [|split]].
      * rewrite Hps. nan_arith ps.
      * by rewrite assign_upto_length.
      * intros j Hj. rewrite assign_upto_lookup by lia.
        replace (j <=? k)%nat with true by (symmetry; apply Nat.leb_le; lia).
        rewrite Hps. f_equal. nan_arith ps.
      * intros t Ht. rewrite assign_upto_lookup by lia.
        destruct t as [|t].
        -- replace (k + 0 <=? k)%nat with true by (symmetry; apply Nat.leb_le; lia).
           rewrite Hps, drop_0, count_some_Some. f_equal. nan_arith ps.
        -- replace (k + S t <=? k)%nat with false by (symmetry; apply Nat.leb_gt; lia).
           replace (k + S t)%nat with (S k + t)%nat by lia. cbn [drop].
           apply Hhigh. lia.
    + rewrite count_some_None.
      replace (bool_decide (is_Some (@None Z))) with false by done.
      split; [done|]. split; [done|]. split.
      * intros j Hj. apply Hlow. lia.
      * intros t Ht. destruct t as [|t].
        -- rewrite drop_0, count_some_None, Nat.add_0_r. apply Hlow. lia.
        -- replace (k + S t)%nat with (S k + t)%nat by lia. cbn [drop].
           apply Hhigh. lia.
Qed.

Lemma count_some_minus_one (l : list (option Z)) :
  count_some (map minus_one l) = count_some l.
Proof.
  induction l as [|[x|] l IH]; simpl; [done | |].
  - by rewrite !count_some_Some, IH.
  - by rewrite !count_some_None, IH.
Qed.

Lemma indices_minus_one (k : nat) (l : list (option Z)) :
  indices_from (fun x => bool_decide (is_Some x)) k (map minus_one l)
  = indices_from (fun x => bool_decide (is_Some x)) k l.
Proof.
  revert k. induction l as [|[x|] l IH]; intros k; simpl; [done | |]; by rewrite IH.
Qed.

Lemma corrected_length (l : list (option Z)) :
  length (correct_pit_stops l) = length l.
Proof.
  destruct (backward_pass (map minus_one l) 0 (map minus_one l) (nan_max l) eq_refl)
    as (_ & Hlen & _).
  etransitivity; [exact Hlen | apply length_map].
Qed.

Lemma corrected_lookup (l : list (option Z)) (j : nat) :
  (j < length l)%nat ->
  correct_pit_stops l !! j
  = Some (nan_sub (nan_max l) (Z.of_nat (count_some (drop j l)))).
Proof.
  intros Hj. unfold correct_pit_stops, pit_laps.
  destruct (backward_pass (map minus_one l) 0 (map minus_one l) (nan_max l) eq_refl)
    as (_ & _ & _ & Hhigh).
  cbn [Nat.add] in Hhigh. rewrite Hhigh by (by rewrite length_map).
  by rewrite skipn_map, count_some_minus_one.
Qed.




(** Counts recorded only where they change, from 1 on. *)
Example pit_stops_on_change :
  correct_pit_stops recorded_on_change = [Some 0; Some 0; Some 0; Some 1; Some 1].
Proof. reflexivity. Qed.

(** ** Trimming the last open record *)

Lemma py_get_last {A : Type} (l : list A) :
  py_get l (-1) = of_option IndexError (last l).
Proof.
  unfold py_get. destruct l as [|x l] using rev_ind; [done|].
  assert (norm_index (l ++ [x]) (-1) = Some (length l)) as ->.
  { change (-1) with (- Z.of_nat 1). rewrite norm_index_neg.
    - rewrite length_app. simpl. f_equal. lia.
    - rewrite length_app. simpl. lia. }
  by rewrite last_snoc, lookup_app_r, Nat.sub_diag.
Qed.

Lemma mapM_last_cells (n : nat) (c : columns) (keys : list string) :
  columns_len (S n) c -> (forall key, key ∈ keys -> key ∈ lap_keys) ->
  exists cells, mapM (last_cell c) keys = Ok cells /\
                Forall2 (fun key x => last_value c key = Some x) keys cells.
Proof.
  intros Hc. induction keys as [|key keys IH]; intros Hin; simpl.
  - by exists [].
  - destruct IH as (cells & -> & Hcells).
    { intros k Hk. apply Hin. by apply list_elem_of_further. }
    destruct (Hc key) as (l & Hl & Hlen); [apply Hin, list_elem_of_here|].
    unfold last_cell at 1, col. rewrite Hl. simpl. rewrite py_get_last.
    destruct (last l) as [x|] eqn:Hlast.
    + simpl. exists (x :: cells). split; [done|]. constructor; [|done].
      unfold last_value. by rewrite Hl.
    + apply last_None in Hlast. subst l. discriminate.
Qed.

Lemma empty_check_keys (key : string) : key ∈ empty_check -> key ∈ lap_keys.
Proof. unfold empty_check. intros H. by apply list_elem_of_filter in H as [_ H]. Qed.

Lemma drop_last_row_len (n : nat) (c : columns) :
  columns_len (S n) c -> columns_len n (drop_last_row c).
Proof.
  intros Hc key Hkey. destruct (Hc key Hkey) as (l & Hl & Hlen).
  exists (take (length l - 1) l). unfold drop_last_row.
  rewrite lookup_fmap, Hl. split; [done|]. rewrite length_take. lia.
Qed.

Lemma last_row_any_spec (n : nat) (c : columns) :
  columns_len (S n) c ->
  exists any, last_row_any c = Ok any /\ (any = false <-> empty_tail c).
Proof.
  intros Hc.
  destruct (mapM_last_cells n c empty_check Hc empty_check_keys) as (cells & Hm & Hcells).
  exists (existsb truthy cells). unfold last_row_any. rewrite Hm. split; [done|].
  unfold empty_tail. clear Hm. induction Hcells as [|key x keys cells Hx _ IH]; simpl.
  - split; [|done]. intros _ key Hkey. by apply elem_of_nil in Hkey.
  - rewrite orb_false_iff, IH. split.
    + intros [Hx' Hrest] k Hk. apply elem_of_cons in Hk as [->|Hk]; [eauto | auto].
    + intros Hall. split.
      * destruct (Hall key) as (y & Hy & Hty); [apply list_elem_of_here|].
        congruence.
      * intros k Hk. apply Hall. by apply list_elem_of_further.
Qed.




(** ** Rows of the gap and position stream *)

Lemma fill_full (n : nat) (l : list value) : length l = S n -> fill (S n) l = l.
Proof.
  intros Hl. unfold fill. rewrite Hl. simpl. by rewrite Nat.ltb_irrefl.
Qed.

Lemma fill_short (n : nat) (l : list value) :
  length l = n -> fill (S n) l = l ++ [default VNone (last l)].
Proof.
  intros Hl. unfold fill. rewrite Hl. destruct n as [|n].
  - by destruct l.
  - cbn [Nat.eqb].
    by replace (S n <? S (S n))%nat with true by (symmetry; apply Nat.ltb_lt; lia).
Qed.

Lemma append_if_spec (c : columns) (key : string) (l : list value) (o : option value) :
  c !! key = Some l -> append_if c key o = Ok (<[key := l ++ option_list o]> c).
Proof.
  intros Hl. destruct o as [v|]; simpl.
  - unfold append_cell, col. by rewrite Hl.
  - by rewrite app_nil_r, insert_id.
Qed.

(** The last cell after the fill: the value the frame set, or the one
    carried from the row before. *)
Lemma fill_last (n : nat) (l : list value) (o : option value) :
  length l = n ->
  length (fill (S n) (l ++ option_list o)) = S n /\
  last (fill (S n) (l ++ option_list o)) = Some (default (default VNone (last l)) o).
Proof.
  intros Hl. destruct o as [v|]; simpl.
  - rewrite fill_full by (rewrite length_app; simpl; lia).
    rewrite length_app, last_snoc. simpl. split; [lia | done].
  - rewrite app_nil_r, fill_short by done.
    rewrite length_app, last_snoc. simpl. split; [lia | done].
Qed.




(** The row added for a block with Position only keeps the gap and the
    interval of the row before. *)
Example position_only_row :
  carried one_gap_row "GapToLeader" = VStr "+1.234" /\
  carried one_gap_row "IntervalToPositionAhead" = VStr "+0.500" /\
  bind (stream_block "00:00:05.000" "44" position_only one_gap_row)
       (fun c' => Ok (c' !! "Position", c' !! "GapToLeader",
                      c' !! "IntervalToPositionAhead"))
  = Ok (Some [VStr "3"; VStr "2"],
        Some [VStr "+1.234"; VStr "+1.234"],
        Some [VStr "+0.500"; VStr "+0.500"]).
Proof. repeat split; vm_compute; reflexivity. Qed.

(** ** Tyre life in the summary table *)

Lemma renumber_stints (s k : Z) (rows : list summary_row) :
  s_stint <$> renumber s k rows = s_stint <$> rows.
Proof.
  revert k. induction rows as [|r rows IH]; intros k; simpl; [done|].
  case_bool_decide; simpl; by rewrite IH.
Qed.

Lemma renumber_lookup (s : Z) (rows : list summary_row) :
  forall (k : Z) (p : nat) (r : summary_row),
    rows !! p = Some r ->
    renumber s k rows !! p
    = Some (if bool_decide (s_stint r = Some s)
            then add_total_laps (k - 1 + rank (s_stint <$> rows) p s) r
            else r).
Proof.
  induction rows as [|r0 rows IH]; intros k p r Hp; [done|].
  destruct p as [|p]; simpl in Hp.
  - injection Hp as ->. simpl. unfold rank. simpl.
    case_bool_decide as Hs; simpl; [|done].
    rewrite filter_cons_True by done. simpl.
    do 2 f_equal. lia.
  - simpl. unfold rank. cbn [take fmap list_fmap].
    case_bool_decide as Hs0; simpl.
    + rewrite (IH (k + 1) p r Hp). rewrite filter_cons_True by done.
      case_bool_decide; [|done]. unfold rank. cbn [length]. do 2 f_equal.
      unfold fmap. lia.
    + rewrite (IH k p r Hp). by rewrite filter_cons_False by done.
Qed.

Lemma unique_elem {A : Type} `{EqDecision A} (l : list A) (x : A) :
  x ∈ unique l <-> x ∈ l.
Proof.
  induction l as [|y l IH]; simpl; [done|].
  rewrite !elem_of_cons, list_elem_of_filter, IH.
  destruct (decide (x = y)); naive_solver.
Qed.

Lemma unique_NoDup {A : Type} `{EqDecision A} (l : list A) : NoDup (unique l).
Proof.
  induction l as [|y l IH]; simpl; constructor.
  - rewrite list_elem_of_filter. naive_solver.
  - by apply NoDup_filter.
Qed.

(** The pass over a list of distinct stints gives every row of a listed
    stint its rank and leaves the others. *)
Lemma renumber_fold (stints : list (option Z)) :
  NoDup stints ->
  forall (rows : list summary_row) (p : nat) (r : summary_row),
    rows !! p = Some r ->
    fold_left (fun acc stint =>
                 match stint with
                 | Some s => renumber s 1 acc
                 | None => acc
                 end) stints rows !! p
    = Some (match s_stint r with
            | Some s => if bool_decide (Some s ∈ stints)
                        then add_total_laps (rank (s_stint <$> rows) p s) r
                        else r
            | None => r
            end).
Proof.
  induction 1 as [|u stints Hu Hnd IH]; intros rows p r Hp; simpl.
  - rewrite Hp. by destruct (s_stint r).
  - destruct u as [s|].
    + pose proof (renumber_lookup s rows 1 p r Hp) as Hstep.
      rewrite (IH _ p _ Hstep). rewrite renumber_stints. f_equal.
      case_bool_decide as Hs.
      * simpl. rewrite Hs.
        rewrite bool_decide_eq_false_2 by done.
        rewrite bool_decide_eq_true_2 by apply list_elem_of_here.
        f_equal; lia.
      * destruct (s_stint r) as [s'|]; [|done].
        assert (Some s' <> Some s) as Hne by congruence.
        destruct (decide (Some s' ∈ stints)) as [Hin|Hnin].
        -- rewrite !bool_decide_eq_true_2; [done | by apply list_elem_of_further | done].
        -- rewrite !bool_decide_eq_false_2; [done | | done].
           rewrite elem_of_cons. naive_solver.
    + rewrite (IH rows p r Hp). f_equal. destruct (s_stint r) as [s'|]; [|done].
      destruct (decide (Some s' ∈ stints)) as [Hin|Hnin].
      * rewrite !bool_decide_eq_true_2; [done | by apply list_elem_of_further | done].
      * rewrite !bool_decide_eq_false_2; [done | | done].
        rewrite elem_of_cons. naive_solver.
Qed.

Lemma renumber_all_lookup (rows : list summary_row) (p : nat) (r : summary_row) :
  rows !! p = Some r ->
  renumber_all rows !! p
  = Some (match s_stint r with
          | Some s => add_total_laps (rank (s_stint <$> rows) p s) r
          | None => r
          end).
Proof.
  intros Hp. unfold renumber_all.
  rewrite (renumber_fold _ (unique_NoDup _) rows p r Hp). f_equal.
  destruct (s_stint r) as [s|] eqn:Hs; [|done].
  rewrite bool_decide_eq_true_2; [done|].
  apply unique_elem. rewrite <- Hs. apply list_elem_of_fmap_2.
  by eapply list_elem_of_lookup_2.
Qed.

Lemma renumber_all_stints (rows : list summary_row) :
  s_stint <$> renumber_all rows = s_stint <$> rows.
Proof.
  unfold renumber_all. generalize (unique (s_stint <$> rows)). intros stints.
  revert rows. induction stints as [|[s|] stints IH]; intros rows; simpl; [done | |].
  - by rewrite IH, renumber_stints.
  - apply IH.
Qed.

Lemma insert_sorted_perm {A : Type} (key : A -> Z) (x : A) (l : list A) :
  insert_sorted key x l ≡ₚ x :: l.
Proof.
  induction l as [|y l IH]; simpl; [done|].
  destruct (key x <? key y); [done|]. rewrite IH. apply Permutation_swap.
Qed.

Lemma insert_sorted_sorted {A : Type} (key : A -> Z) (x : A) (l : list A) :
  StronglySorted (fun a b => key a <= key b) l ->
  StronglySorted (fun a b => key a <= key b) (insert_sorted key x l).
Proof.
  induction 1 as [|y l Hl IH Hy]; simpl.
  - repeat constructor.
  - destruct (Z.ltb_spec (key x) (key y)).
    + constructor; [by constructor|]. constructor; [lia|].
      eapply Forall_impl; [exact Hy|]. simpl. intros z Hz. lia.
    + constructor; [exact IH|]. rewrite insert_sorted_perm.
      constructor; [lia | exact Hy].
Qed.

Lemma sort_values_sorted {A : Type} (key : A -> Z) (l : list A) :
  StronglySorted (fun a b => key a <= key b) (sort_values key l).
Proof.
  unfold sort_values.
  assert (forall acc, StronglySorted (fun a b => key a <= key b) acc ->
            StronglySorted (fun a b => key a <= key b)
              (fold_left (fun acc x => insert_sorted key x acc) l acc)) as H.
  { induction l as [|x l IH]; intros acc Hacc; simpl; [done|].
    apply IH. by apply insert_sorted_sorted. }
  apply H. constructor.
Qed.

Lemma sort_values_perm {A : Type} (key : A -> Z) (l : list A) :
  sort_values key l ≡ₚ l.
Proof.
  unfold sort_values.
  assert (forall acc, fold_left (fun acc x => insert_sorted key x acc) l acc ≡ₚ l ++ acc)
    as H.
  { induction l as [|x l IH]; intros acc; simpl; [done|].
    rewrite IH, insert_sorted_perm. by rewrite Permutation_middle. }
  by rewrite H, app_nil_r.
Qed.

(** C6, as the code has it.  For one driver the laps and the tyre rows are
    put in time order; each lap takes compound and TotalLaps from the last
    tyre row at or before its time; TotalLaps of a lap then grows by the
    lap's 1-based position among the driver's laps that have the same
    Stint, which is the lap's pit-stop count plus one. *)
Theorem tyre_life_by_stint (laps_data : list lap_row) (useful : list app_row)
    (driver : string) (p : nat) (l : lap_row) :
  let d1 := sort_values lap_time (filter (fun l => lap_driver l = driver) laps_data) in
  let d2 := sort_values app_time (filter (fun r => app_driver r = driver) useful) in
  d1 !! p = Some l ->
  StronglySorted (fun a b => lap_time a <= lap_time b) d1 /\
  StronglySorted (fun a b => app_time a <= app_time b) d2 /\
  d1 ≡ₚ filter (fun l => lap_driver l = driver) laps_data /\
  d2 ≡ₚ filter (fun r => app_driver r = driver) useful /\
  length (summary_driver laps_data useful driver) = length d1 /\
  exists row,
    summary_driver laps_data useful driver !! p = Some row /\
    s_time row = lap_time l /\
    s_stint row = lap_stint l /\
    s_compound row = from_option app_compound VNone (asof d2 (lap_time l)) /\
    s_total_laps row
    = match lap_stint l with
      | Some s => (fun seed => seed + rank (lap_stint <$> d1) p s)
                    <$> (asof d2 (lap_time l) ≫= app_total_laps)
      | None => asof d2 (lap_time l) ≫= app_total_laps
      end.
Proof.
  intros d1 d2 Hp.
  split; [apply sort_values_sorted|]. split; [apply sort_values_sorted|].
  split; [apply sort_values_perm|]. split; [apply sort_values_perm|].
  unfold summary_driver. fold d1 d2.
  split.
  { rewrite <- (length_fmap s_stint), renumber_all_stints. by rewrite !length_fmap. }
  assert ((merge_row d2 <$> d1) !! p = Some (merge_row d2 l)) as Hrow
    by (by rewrite list_lookup_fmap, Hp).
  rewrite (renumber_all_lookup _ p _ Hrow).
  assert (s_stint <$> (merge_row d2 <$> d1) = lap_stint <$> d1) as ->.
  { rewrite <- list_fmap_compose. by apply list_fmap_ext. }
  eexists. split; [reflexivity|].
  simpl. destruct (lap_stint l) as [s|] eqn:Hs; simpl; rewrite ?Hs; done.
Qed.

Lemma tyre_life_by_stint_witness :
  let d1 := sort_values lap_time
              (filter (fun l => lap_driver l = "44") (four_laps 0 0 1 1)) in
  let d2 := sort_values app_time (filter (fun r => app_driver r = "44") two_stints) in
  StronglySorted (fun a b => lap_time a <= lap_time b) d1 /\
  StronglySorted (fun a b => app_time a <= app_time b) d2 /\
  d1 ≡ₚ filter (fun l => lap_driver l = "44") (four_laps 0 0 1 1) /\
  d2 ≡ₚ filter (fun r => app_driver r = "44") two_stints /\
  length (summary_driver (four_laps 0 0 1 1) two_stints "44") = length d1 /\
  exists row,
    summary_driver (four_laps 0 0 1 1) two_stints "44" !! 2%nat = Some row /\
    s_time row = lap_time (mk_lap "44" (seconds 30) (Some 1)) /\
    s_stint row = lap_stint (mk_lap "44" (seconds 30) (Some 1)) /\
    s_compound row = from_option app_compound VNone (asof d2 (seconds 30)) /\
    s_total_laps row
    = match lap_stint (mk_lap "44" (seconds 30) (Some 1)) with
      | Some s => (fun seed => seed + rank (lap_stint <$> d1) 2 s)
                    <$> (asof d2 (seconds 30) ≫= app_total_laps)
      | None => asof d2 (seconds 30) ≫= app_total_laps
      end.
Proof.
  apply (tyre_life_by_stint (four_laps 0 0 1 1) two_stints "44" 2
           (mk_lap "44" (seconds 30) (Some 1))).
  reflexivity.
Defined.

(** The laps at 10, 20, 30, 40 s with pit-stop counts 0, 0, 1, 1 and tyre
    rows at 5 and 25 s. *)
Example tyre_life_two_stints :
  tyre_life (summary (four_laps 0 0 1 1) two_stints)
  = [Some 1; Some 2; Some 1; Some 2].
Proof. vm_compute. reflexivity. Qed.

(** The same laps and tyre rows when the pit-stop count stays at 0: laps 3
    and 4 are matched to the tyre row of 25 s, yet the numbering runs on,
    because the groups are those of the Stint column. *)
Lemma tyre_life_follows_pit_stops :
  s_compound <$> summary (four_laps 0 0 0 0) two_stints
    = [VStr "SOFT"; VStr "SOFT"; VStr "MEDIUM"; VStr "MEDIUM"] /\
  tyre_life (summary (four_laps 0 0 0 0) two_stints)
    = [Some 1; Some 2; Some 3; Some 4] /\
  tyre_life (summary (four_laps 0 0 0 0) two_stints)
    <> [Some 1; Some 2; Some 1; Some 2].
Proof.
  split; [vm_compute; reflexivity|].
  split; [vm_compute; reflexivity|].
  vm_compute. discriminate.
Qed.

(** ** The frame decoder *)

Section DecoderFacts.

Variable json_loads : string -> option value.
Variable b64decode : string -> option (list Byte.byte).
Variable zlib_decompress : list Byte.byte -> option (list Byte.byte).
Variable decode_utf8_sig : list Byte.byte -> option string.

Abbreviation parse' := (parse json_loads b64decode zlib_decompress decode_utf8_sig).
Abbreviation parse_fuel' :=
  (parse_fuel json_loads b64decode zlib_decompress decode_utf8_sig).
Abbreviation parse_entries' :=
  (parse_entries json_loads b64decode zlib_decompress decode_utf8_sig).

(** An uncompressed payload needs one level only. *)
Lemma parse_plain_fuel (fuel : nat) (text : string) :
  parse_fuel' (S fuel) text false = parse_fuel' 1 text false.
Proof.
  simpl. destruct text as [|c rest]; [done|].
  destruct (Ascii.eqb c brace); done.
Qed.

(** The recursion never runs out: any fuel from two on gives [parse]. *)
Lemma parse_fuel_enough (fuel : nat) (text : string) (zipped : bool) :
  parse_fuel' (S (S fuel)) text zipped = parse' text zipped.
Proof.
  unfold parse. destruct zipped; [|by rewrite !parse_plain_fuel].
  cbn [parse_fuel]. destruct text as [|c rest]; [done|].
  destruct (Ascii.eqb c brace); [done|].
  destruct (lib Base64Error _) as [e|b]; [done|].
  destruct (lib ZlibError _) as [e|raw]; [done|].
  destruct (lib UnicodeError _) as [e|s]; [done|].
  change (parse_fuel' (S fuel) s false = parse_fuel' 1 s false).
  apply parse_plain_fuel.
Qed.

Lemma parse_entries_abort (entries : list string) (e : string) (is_z : bool)
    (err : decode_error) :
  e ∈ entries -> parse' (str_drop tl e) is_z = inl err ->
  exists err', parse_entries' entries is_z = inl err'.
Proof.
  intros Hin Hbad. induction entries as [|x entries IH]; [by apply elem_of_nil in Hin|].
  simpl. apply elem_of_cons in Hin as [<-|Hin].
  - rewrite Hbad. eauto.
  - destruct (parse' (str_drop tl x) is_z) as [err0|[v log]]; [eauto|].
    destruct (IH Hin) as (err' & ->). eauto.
Qed.

End DecoderFacts.

(** C9, as the code has it.  For a payload with first character [c]: when
    [c] is the opening brace the decoder returns what the JSON parser
    returns, and raises when the parser does; otherwise, with the quotes
    stripped when [c] is a quote, a compressed channel decodes base64,
    inflates, decodes the text and parses the result as an uncompressed
    payload, raising when one of these steps does, and an uncompressed
    channel returns the stripped string with one warning, the payload itself
    when it does not start with a quote.  An empty payload raises, and a
    stream with a record whose payload raises is lost as a whole. *)
Theorem parse_cases
    (json_loads : string -> option value)
    (b64decode : string -> option (list Byte.byte))
    (zlib_decompress : list Byte.byte -> option (list Byte.byte))
    (decode_utf8_sig : list Byte.byte -> option string)
    (c : Ascii.ascii) (rest : string) (zipped : bool) :
  let parse' := parse json_loads b64decode zlib_decompress decode_utf8_sig in
  let text := String c rest in
  let unquoted := if Ascii.eqb c quote then strip_quotes text else text in
  (Ascii.eqb c brace = true ->
   parse' text zipped
   = match json_loads text with
     | Some v => inr (v, [])
     | None => inl JSONDecodeError
     end) /\
  (Ascii.eqb c brace = false ->
   parse' text false = inr (VStr unquoted, [warning]) /\
   (Ascii.eqb c quote = false -> parse' text false = inr (VStr text, [warning])) /\
   parse' text true
   = match b64decode unquoted with
     | None => inl Base64Error
     | Some b =>
         match zlib_decompress b with
         | None => inl ZlibError
         | Some raw =>
             match decode_utf8_sig raw with
             | None => inl UnicodeError
             | Some s => parse' s false
             end
         end
     end) /\
  parse' "" zipped = inl EmptyText /\
  (forall entries e is_z err,
     e ∈ entries -> parse' (str_drop tl e) is_z = inl err ->
     exists err',
       parse_entries json_loads b64decode zlib_decompress decode_utf8_sig entries is_z
       = inl err').
Proof.
  intros parse' text unquoted. subst parse'.
  split; [|split; [|split]].
  - intros Hc. unfold parse, text. simpl. rewrite Hc.
    by destruct (json_loads _).
  - intros Hc. unfold parse, text, unquoted. simpl. rewrite Hc.
    split; [done|]. split.
    + by intros ->.
    + destruct (b64decode _) as [b|]; simpl; [|done].
      destruct (zlib_decompress b) as [raw|]; simpl; [|done].
      by destruct (decode_utf8_sig raw) as [s|].
  - done.
  - intros entries e is_z err. apply parse_entries_abort.
Qed.

Lemma parse_cases_witness :
  let text := "{}" in
  let unquoted := text in
  (true = true ->
   sample_parse text false
   = match sample_json_loads text with
     | Some v => inr (v, [])
     | None => inl JSONDecodeError
     end) /\
  (true = false ->
   sample_parse text false = inr (VStr unquoted, [warning]) /\
   (false = false -> sample_parse text false = inr (VStr text, [warning])) /\
   sample_parse text true
   = match sample_b64decode unquoted with
     | None => inl Base64Error
     | Some b =>
         match sample_decompress b with
         | None => inl ZlibError
         | Some raw =>
             match sample_decode raw with
             | None => inl UnicodeError
             | Some s => sample_parse s false
             end
         end
     end) /\
  sample_parse "" false = inl EmptyText /\
  (forall entries e is_z err,
     e ∈ entries -> sample_parse (str_drop tl e) is_z = inl err ->
     exists err', sample_parse_entries entries is_z = inl err').
Proof.
  exact (parse_cases sample_json_loads sample_b64decode sample_decompress
           sample_decode (Ascii.ascii_of_nat 123) "}" false).
Defined.

(** One record that is a bare timestamp has an empty payload; indexing it
    raises, nothing catches the exception, and the stream is lost although
    its first record decodes.  A payload that starts with a brace and is
    not JSON raises as well. *)
Lemma bad_record_aborts_stream :
  sample_parse (str_drop tl "00:00:01.000{}") false = inr (VDict [], []) /\
  sample_parse (str_drop tl "00:00:02.000") false = inl EmptyText /\
  sample_parse_entries stream_with_bare_timestamp false = inl EmptyText /\
  sample_parse "{" false = inl JSONDecodeError.
Proof. repeat split; vm_compute; reflexivity. Qed.

(** ** Further properties of the lap reconstructor *)

Section LapsExtra.

Variable to_timedelta : string -> option Z.

Lemma entry_other_driver entry d st st' driver :
  timing_data_laps_entry to_timedelta entry d st = Ok st' -> d <> driver ->
  data st' !! driver = data st !! driver /\ flags st' !! driver = flags st !! driver.
Proof.
  unfold timing_data_laps_entry. intros Hrun Hne. inv_ok. simpl.
  by rewrite !lookup_insert_ne.
Qed.

Lemma assoc_None_keys (driver : string) (kvs : list (string * value)) :
  assoc driver kvs = None -> VStr driver ∉ map (fun kv => VStr (fst kv)) kvs.
Proof.
  induction kvs as [|[k v] kvs IH]; simpl; [intros _; apply not_elem_of_nil|].
  destruct (String.eqb_spec driver k) as [->|Hne]; [done|].
  intros Hnone. rewrite not_elem_of_cons. split; [congruence | by apply IH].
Qed.

End LapsExtra.

(** X1. A frame whose Lines has no entry for a driver leaves that driver's
    columns and flags exactly as they were: the work done for the other
    drivers of the frame never reaches them. *)
Theorem absent_driver_untouched (to_timedelta : string -> option Z)
    (st st' : state) (timestamp : string) (payload : value)
    (kvs : list (string * value)) (driver : string) :
  py_getitem payload "Lines" = Ok (VDict kvs) ->
  assoc driver kvs = None ->
  laps_frame to_timedelta st (timestamp, payload) = Ok st' ->
  data st' !! driver = data st !! driver /\ flags st' !! driver = flags st !! driver.
Proof.
  intros Hlines Hnone Hrun. unfold laps_frame in Hrun. simpl in Hrun.
  inv_step; [|done]. rewrite Hlines in *. inv_ok. simpl in *. inv_ok.
  pose proof (assoc_None_keys driver kvs Hnone) as Hnot.
  revert st Hrun. induction (map (fun kv => VStr (fst kv)) kvs) as [|d ds IH];
    intros st Hrun; simpl in Hrun; inv_ok; [done|].
  apply not_elem_of_cons in Hnot as [Hd Hds].
  destruct (IH Hds _ Hrun) as [-> ->].
  destruct d; simpl in *; try discriminate.
  eapply entry_other_driver; [eassumption | congruence].
Qed.

Lemma absent_driver_untouched_witness :
  data (run_from locked_state [other_car]) !! "44" = data locked_state !! "44" /\
  flags (run_from locked_state [other_car]) !! "44" = flags locked_state !! "44".
Proof.
  apply (absent_driver_untouched clock_to_timedelta locked_state
           (run_from locked_state [other_car]) (fst other_car) (snd other_car)
           [("77", VDict [("NumberOfLaps", VInt 2)])] "44").
  - reflexivity.
  - reflexivity.
  - vm_compute. reflexivity.
Defined.

Lemma close_lap_rows n block cf cf' :
  close_lap block cf = Ok cf' -> aligned n cf ->
  exists b, py_in "NumberOfLaps" block = Ok b /\ aligned (if b then S n else n) cf'.
Proof.
  unfold close_lap, aligned. intros Hrun [Hc [Hf1 Hf2]]. destruct cf as [c f].
  simpl in *. apply bind_Ok in Hrun as (b & Hb & Hrun). exists b. split; [done|].
  destruct b; inv_ok; [|by repeat split].
  simpl. split.
  - apply append_none_len. by eapply set_cell_len.
  - unfold flags_len. simpl. rewrite !length_app. simpl. lia.
Qed.

Lemma entry_at_rows to_timedelta n time driver block i c f cf' :
  entry_at to_timedelta time driver block i c f = Ok cf' -> aligned n (c, f) ->
  exists b, py_in "NumberOfLaps" block = Ok b /\ aligned (if b then S n else n) cf'.
Proof.
  unfold entry_at. intros Hrun [Hc Hf]. simpl in *. inv_ok.
  apply (close_lap_rows n) in Hrun; [done|].
  eapply write_last_lap_aligned; [eassumption|].
  apply (stamp_len n) in Ha1; [|done].
  apply (write_pit_stops_len n) in Ha2; [|done].
  apply (write_sectors_aligned _ n) in Ha3; [|by split].
  destruct Ha3 as [Hc3 Hf3].
  apply (write_speeds_len n) in Ha4; [|done].
  apply (write_pit_times_len n) in Ha5; [|done].
  by split.
Qed.

Lemma aligned_rows n (c : columns) f : aligned n (c, f) -> from_option length 0%nat (c !! "Time") = n.
Proof.
  intros [Hc _]. simpl in Hc. destruct (Hc "Time") as (l & -> & Hl); [in_keys | done].
Qed.

(** X2. One entry for a driver never removes a record and adds exactly one
    when the driver's block has NumberOfLaps, none otherwise; a driver seen
    for the first time starts with one record. *)
Theorem records_grow (to_timedelta : string -> option Z)
    (history : list (string * value)) (entry : string * value)
    (st st' : state) (driver : string) (lines block : value) :
  laps_loop to_timedelta history empty_state = Ok st ->
  py_getitem (snd entry) "Lines" = Ok lines ->
  py_getitem lines driver = Ok block ->
  timing_data_laps_entry to_timedelta entry driver st = Ok st' ->
  exists b,
    py_in "NumberOfLaps" block = Ok b /\
    rows_of st' driver
    = (Nat.max 1 (rows_of st driver) + (if b then 1 else 0))%nat.
Proof.
  intros Hhist Hlines Hblock Hrun.
  pose proof (laps_loop_aligned _ _ _ _ Hhist empty_state_aligned driver) as Hst.
  unfold timing_data_laps_entry in Hrun. inv_ok.
  rewrite Hlines in *. inv_ok. rewrite Hblock in *. inv_ok.
  assert (exists n, (1 <= n)%nat /\ Nat.max 1 (rows_of st driver) = n /\
            aligned n (default new_columns (data st !! driver),
                       default new_flags (flags st !! driver))) as (n & Hn & Hrows & Hal).
  { unfold rows_of.
    destruct (data st !! driver) as [c|], (flags st !! driver) as [f|]; simpl; try done.
    - destruct Hst as (n & Hn & Hal). exists n. rewrite (aligned_rows n c f Hal).
      split; [done|]. split; [lia | done].
    - exists 1%nat. split; [done|]. split; [done|].
      split; [apply new_columns_len | done]. }
  match goal with
  | He : entry_at _ _ _ _ _ _ _ = Ok ?cf |- _ =>
      destruct (entry_at_rows _ n _ _ _ _ _ _ _ He Hal) as (b & Hb & Hal');
      destruct cf as [c' f']
  end.
  exists b. split; [done|]. rewrite Hrows.
  unfold rows_of. simpl. rewrite lookup_insert_eq. simpl.
  rewrite (aligned_rows _ c' f' Hal'). destruct b; lia.
Qed.

Lemma records_grow_witness :
  exists b,
    py_in "NumberOfLaps" (VDict [("NumberOfLaps", VInt 2)]) = Ok b /\
    rows_of (run_from locked_state [other_car]) "77"
    = (Nat.max 1 (rows_of locked_state "77") + (if b then 1 else 0))%nat.
Proof.
  apply (records_grow clock_to_timedelta lock_history other_car locked_state
           (run_from locked_state [other_car]) "77"
           (VDict [("77", VDict [("NumberOfLaps", VInt 2)])])
           (VDict [("NumberOfLaps", VInt 2)])).
  - vm_compute. reflexivity.
  - reflexivity.
  - reflexivity.
  - vm_compute. reflexivity.
Defined.

Lemma set_ref_at n f f' i r :
  set_ref f i r = Ok f' -> flags_len n f ->
  exists j, index_at n i = Some j /\
            f' = mk_flags (<[j := Some r]> (time_reference f)) (locked_times f).
Proof.
  unfold set_ref, py_set, norm_index. intros Hset [Hf1 Hf2]. rewrite Hf1 in Hset.
  destruct (index_at n i) as [j|]; simpl in Hset; [|done].
  exists j. split; [done|]. by inv_ok.
Qed.

Lemma get_ref_at n f i r0 :
  get_ref f i = Ok r0 -> flags_len n f ->
  exists j, index_at n i = Some j /\ time_reference f !! j = Some (Some r0).
Proof.
  unfold get_ref, py_get, norm_index. intros Hget [Hf1 Hf2]. rewrite Hf1 in Hget.
  destruct (index_at n i) as [j|]; simpl in Hget; [|done].
  exists j. split; [done|]. inv_ok. congruence.
Qed.

(** Writing a reference that has the first-sector time of the one read at
    the same index keeps every position's first-sector time. *)
Lemma refine_kept n f f' i p r r0 rnew :
  flags_len n f -> ref_kept p r f ->
  get_ref f i = Ok r0 -> ts0 rnew = ts0 r0 -> set_ref f i rnew = Ok f' ->
  flags_len n f' /\ ref_kept p r f' /\ locked_times f' = locked_times f.
Proof.
  intros Hf (r' & Hr' & Hts) Hget Hnew Hset.
  split; [by eapply set_ref_len|]. split; [|by eapply set_ref_locked].
  destruct (get_ref_at n f i r0 Hget Hf) as (j & Hj & Hr0).
  destruct (set_ref_at n f f' i rnew Hset Hf) as (j' & Hj' & ->).
  rewrite Hj in Hj'. injection Hj' as <-. unfold ref_kept. simpl.
  destruct (decide (j = p)) as [->|Hne].
  - exists rnew. rewrite list_lookup_insert_eq by (by eapply lookup_lt_Some).
    split; [done|]. congruence.
  - exists r'. by rewrite list_lookup_insert_ne.
Qed.

(** Seeding a reference at an index that does not denote [p] keeps [p]. *)
Lemma seed_kept n f f' i p r rnew :
  flags_len n f -> ref_kept p r f ->
  index_at n i <> Some p -> set_ref f i rnew = Ok f' ->
  flags_len n f' /\ ref_kept p r f' /\ locked_times f' = locked_times f.
Proof.
  intros Hf (r' & Hr' & Hts) Hp Hset.
  split; [by eapply set_ref_len|]. split; [|by eapply set_ref_locked].
  destruct (set_ref_at n f f' i rnew Hset Hf) as (j & Hj & ->).
  exists r'. simpl. rewrite list_lookup_insert_ne; [done|]. congruence.
Qed.

Section FlagsKept.

Variable to_timedelta : string -> option Z.

Lemma sector_body_kept n time i ntr cf k sector cf' p r :
  sector_body to_timedelta time i ntr cf k sector = Ok cf' ->
  flags_len n (snd cf) -> ref_kept p r (snd cf) ->
  (ntr = true -> index_at n i <> Some p) ->
  flags_len n (snd cf') /\ ref_kept p r (snd cf') /\
  locked_times (snd cf') = locked_times (snd cf).
Proof.
  unfold sector_body. intros Hrun Hf Hr Hntr.
  apply bind_Ok in Hrun as (hv & _ & Hrun).
  apply bind_Ok in Hrun as (c1 & _ & Hrun).
  apply bind_Ok in Hrun as (hm & _ & Hrun).
  apply bind_Ok in Hrun as (f1 & Hf1 & Hrun).
  apply bind_Ok in Hrun as (rh0 & _ & Hrun).
  apply bind_Ok in Hrun as (f2 & Hf2 & Hrun).
  apply bind_Ok in Hrun as (rh01 & _ & Hrun).
  apply bind_Ok in Hrun as (f3 & Hf3 & Hrun).
  injection Hrun as <-. simpl.
  assert (flags_len n f1 /\ ref_kept p r f1 /\ locked_times f1 = locked_times (snd cf))
    as (Hl1 & Hr1 & Hk1).
  { destruct ((k =? 0) && hm && ntr) eqn:Hcond; [|by inv_ok].
    apply andb_true_iff in Hcond as [_ ->]. inv_ok.
    eapply seed_kept; eauto. }
  assert (flags_len n f2 /\ ref_kept p r f2 /\ locked_times f2 = locked_times f1)
    as (Hl2 & Hr2 & Hk2).
  { destruct ((k =? 1) && hm && rh0); [|by inv_ok]. inv_ok.
    match goal with
    | Hg : get_ref ?f i = Ok ?r0, Hs : set_ref ?f i ?rn = Ok ?f' |- _ =>
        apply (refine_kept n f f' i p r r0 rn);
          [done | done | exact Hg | simpl; apply ts0_refine | exact Hs]
    end. }
  assert (flags_len n f3 /\ ref_kept p r f3 /\ locked_times f3 = locked_times f2)
    as (Hl3 & Hr3 & Hk3).
  { destruct ((k =? 2) && hm && rh01); [|by inv_ok]. inv_ok.
    match goal with
    | Hg : get_ref ?f i = Ok ?r0, Hs : set_ref ?f i ?rn = Ok ?f' |- _ =>
        apply (refine_kept n f f' i p r r0 rn);
          [done | done | exact Hg | simpl; apply ts0_refine | exact Hs]
    end. }
  split; [done|]. split; [done|]. congruence.
Qed.

Lemma write_sectors_kept n time i ntr block cf cf' p r :
  write_sectors to_timedelta time i ntr block cf = Ok cf' ->
  flags_len n (snd cf) -> ref_kept p r (snd cf) ->
  (ntr = true -> index_at n i <> Some p) ->
  ref_kept p r (snd cf').
Proof.
  unfold write_sectors. intros Hrun Hf Hr Hntr. inv_step; [|done].
  eapply (foldM_invariant
            (fun s => flags_len n (snd s) /\ ref_kept p r (snd s)));
    [|exact Hrun|done].
  intros s x s' Hstep [Hs1 Hs2]. unfold sector_step in Hstep. inv_ok.
  match goal with
  | H : sector_body _ _ _ _ _ _ _ = Ok _ |- _ =>
      destruct (sector_body_kept n _ _ _ _ _ _ _ p r H Hs1 Hs2 Hntr) as (? & ? & _)
  end.
  done.
Qed.

Lemma write_last_lap_flags i block cf cf' p :
  write_last_lap to_timedelta i block cf = Ok cf' ->
  time_reference (snd cf') = time_reference (snd cf) /\
  (locked_times (snd cf) !! p = Some true -> locked_times (snd cf') !! p = Some true).
Proof.
  unfold write_last_lap. intros Hrun. inv_step; simpl; try done.
  match goal with
  | H : set_locked _ _ = Ok _ |- _ => unfold set_locked, py_set in H
  end.
  destruct (norm_index _ _) as [j|]; simpl in *; [|done]. inv_ok. simpl.
  split; [done|]. intros Hp.
  destruct (decide (j = p)) as [->|Hne].
  - apply list_lookup_insert_eq. by eapply lookup_lt_Some.
  - by rewrite list_lookup_insert_ne.
Qed.

Lemma close_lap_flags block cf cf' p :
  close_lap block cf = Ok cf' ->
  (locked_times (snd cf) !! p = Some true -> locked_times (snd cf') !! p = Some true) /\
  (forall x, time_reference (snd cf) !! p = Some x ->
             time_reference (snd cf') !! p = Some x).
Proof.
  unfold close_lap. intros Hrun. inv_step; simpl; [|done].
  split; [intros H | intros x H]; by apply lookup_app_l_Some.
Qed.

Lemma entry_at_kept n time driver block i c f cf' p :
  entry_at to_timedelta time driver block i c f = Ok cf' ->
  aligned n (c, f) -> flags_kept p f (snd cf').
Proof.
  unfold entry_at. intros Hrun [Hc Hf]. simpl in *. inv_ok.
  pose proof (write_sectors_frame _ _ _ _ _ _ _ Ha3) as [_ Hlocks]. simpl in Hlocks.
  pose proof (write_last_lap_flags _ _ _ _ p Ha6) as [Hrefs Hlock6]. simpl in *.
  pose proof (close_lap_flags _ _ _ p Hrun) as [Hlock7 Href7].
  split.
  - intros Hp. apply Hlock7, Hlock6. by rewrite Hlocks.
  - intros r Hr.
    assert (ref_kept p r (snd a3)) as (r' & Hr' & Hts).
    { eapply (write_sectors_kept n); [exact Ha3 | done | by exists r |].
      intros Hntr Hp. apply bool_decide_eq_true in Hntr. subst a.
      destruct Hf as [Hf1 Hf2].
      assert (norm_index (time_reference f) i = Some p) as Hn
        by (unfold norm_index; by rewrite Hf1).
      pose proof (py_get_lookup _ _ _ _ Ha Hn). congruence. }
    exists r'. split; [|done]. apply Href7. by rewrite Hrefs.
Qed.

End FlagsKept.

Lemma flags_kept_refl p f : flags_kept p f f.
Proof. split; [done|]. intros r Hr. by exists r. Qed.

Lemma flags_kept_trans p f0 f1 f2 :
  flags_kept p f0 f1 -> flags_kept p f1 f2 -> flags_kept p f0 f2.
Proof.
  intros [Hl1 Hr1] [Hl2 Hr2]. split; [auto|].
  intros r Hr. destruct (Hr1 r Hr) as (r1 & Hr1' & Hts1).
  destruct (Hr2 r1 Hr1') as (r2 & Hr2' & Hts2). exists r2. split; [done | congruence].
Qed.

Section FlagsKeptRun.

Variable to_timedelta : string -> option Z.

Lemma entry_keeps_flags entry d st st' driver p f0 :
  timing_data_laps_entry to_timedelta entry d st = Ok st' ->
  keeps_flags driver p f0 st -> keeps_flags driver p f0 st'.
Proof.
  intros Hrun (Hal & f & Hf & Hk).
  split; [by eapply entry_state_aligned|].
  destruct (decide (d = driver)) as [->|Hne].
  - unfold timing_data_laps_entry in Hrun. inv_ok. simpl.
    rewrite lookup_insert_eq. eexists. split; [done|].
    eapply flags_kept_trans; [exact Hk|].
    specialize (Hal driver). rewrite Hf in *.
    destruct (data st !! driver) as [c|]; [|done].
    destruct Hal as (n & _ & Hal). simpl in *.
    match goal with
    | H : entry_at _ _ _ _ _ _ _ = Ok _ |- _ =>
        exact (entry_at_kept _ n _ _ _ _ _ _ _ p H Hal)
    end.
  - destruct (entry_other_driver _ _ _ _ _ _ Hrun Hne) as [_ ->]. eauto.
Qed.

Lemma loop_keeps_flags entries st st' driver p f0 :
  laps_loop to_timedelta entries st = Ok st' ->
  keeps_flags driver p f0 st -> keeps_flags driver p f0 st'.
Proof.
  unfold laps_loop. apply foldM_invariant. clear. intros st entry st' Hrun Hst.
  unfold laps_frame in Hrun. inv_step; [|done].
  eapply (foldM_invariant (keeps_flags driver p f0)); [|exact Hrun|exact Hst].
  intros s d s' Hd Hs. destruct d; simpl in Hd; try discriminate.
  by eapply entry_keeps_flags.
Qed.

End FlagsKeptRun.

(** X3. Whatever frames follow, a record's lock flag, once set, stays set,
    and a record's time reference, once seeded, is never cleared and keeps
    the first-sector time it was seeded with. *)
Theorem lock_and_reference_kept (to_timedelta : string -> option Z)
    (history entries : list (string * value)) (st st' : state)
    (driver : string) (p : nat) (f0 : flag_lists) :
  laps_loop to_timedelta history empty_state = Ok st ->
  flags st !! driver = Some f0 ->
  laps_loop to_timedelta entries st = Ok st' ->
  exists f,
    flags st' !! driver = Some f /\
    (locked_times f0 !! p = Some true -> locked_times f !! p = Some true) /\
    (forall r, time_reference f0 !! p = Some (Some r) ->
       exists r', time_reference f !! p = Some (Some r') /\ ts0 r' = ts0 r).
Proof.
  intros Hhist Hf0 Hrun.
  destruct (loop_keeps_flags to_timedelta entries st st' driver p f0 Hrun)
    as (_ & f & Hf & Hl & Hr).
  - split; [eapply laps_loop_aligned; [exact Hhist | apply empty_state_aligned]|].
    exists f0. split; [done | apply flags_kept_refl].
  - exists f. split; [done|]. split; [done | exact Hr].
Qed.

Lemma lock_and_reference_kept_witness :
  exists f,
    flags (run_from locked_state second_lap_time) !! "44" = Some f /\
    (locked_times (default new_flags (flags locked_state !! "44")) !! 0%nat = Some true ->
     locked_times f !! 0%nat = Some true) /\
    (forall r,
       time_reference (default new_flags (flags locked_state !! "44")) !! 0%nat
         = Some (Some r) ->
       exists r', time_reference f !! 0%nat = Some (Some r') /\ ts0 r' = ts0 r).
Proof.
  apply (lock_and_reference_kept clock_to_timedelta lock_history second_lap_time
           locked_state (run_from locked_state second_lap_time) "44" 0
           (default new_flags (flags locked_state !! "44"))).
  - vm_compute. reflexivity.
  - vm_compute. reflexivity.
  - vm_compute. reflexivity.
Defined.

(** ** What the Time and Driver columns hold *)

Lemma set_cell_all (k : string) (P : value -> Prop) (c c' : columns)
    (key : string) (i : Z) (v : value) :
  set_cell c key i v = Ok c' -> col_all k P c -> (key = k -> P v) -> col_all k P c'.
Proof.
  unfold set_cell, col, py_set. intros Hset Hc Hv l Hl. inv_ok.
  destruct (norm_index a i) as [j|]; [|done]. inv_ok.
  destruct (decide (key = k)) as [->|Hne].
  - rewrite lookup_insert_eq in Hl. injection Hl as <-.
    apply Forall_insert; [by apply Hc | by apply Hv].
  - rewrite lookup_insert_ne in Hl by done. by apply Hc.
Qed.

Lemma append_none_all (k : string) (P : value -> Prop) (c : columns) :
  P VNone -> col_all k P c -> col_all k P (append_none c).
Proof.
  intros HP Hc l Hl. unfold append_none in Hl. rewrite lookup_fmap in Hl.
  destruct (c !! k) as [l0|] eqn:Hl0; [|done]. injection Hl as <-.
  apply Forall_app. split; [by apply Hc | by repeat constructor].
Qed.

Lemma set_cell_stamped (d : string) (c c' : columns) (key : string) (i : Z) (v : value) :
  set_cell c key i v = Ok c' -> stamped d c ->
  (key = "Time" -> is_time v) -> (key = "Driver" -> is_driver d v) -> stamped d c'.
Proof.
  intros Hset [Ht Hd] Hvt Hvd. split; eapply set_cell_all; eauto.
Qed.

(** Side conditions of a write: the key is neither Time nor Driver, or the
    value written is of the column's kind. *)
Ltac key_side :=
  let Hk := fresh "Hk" in
  intros Hk;
  first [ discriminate Hk
        | unfold sector_key in Hk; simpl in Hk; discriminate Hk
        | right; eexists; reflexivity
        | right; reflexivity ].

(** Carry [stamped] across the next write of a run. *)
Ltac stamp_step :=
  match goal with
  | H : set_cell ?c ?key ?i ?v = Ok ?c', Hc : stamped ?d ?c |- _ =>
      let Hn := fresh "Hst" in
      assert (stamped d c') as Hn
        by (apply (set_cell_stamped d c c' key i v H Hc); key_side);
      clear H
  end.

Section Stamped.

Variable to_timedelta : string -> option Z.

Lemma stamp_stamped time d i b c c' :
  stamp time d i b c = Ok c' -> stamped d c -> stamped d c'.
Proof. unfold stamp. intros Hrun Hc. inv_step; repeat stamp_step; done. Qed.

Lemma write_pit_stops_stamped d i block c c' :
  write_pit_stops i block c = Ok c' -> stamped d c -> stamped d c'.
Proof. unfold write_pit_stops. intros Hrun Hc. inv_step; repeat stamp_step; done. Qed.

Lemma write_sectors_stamped d time i ntr block cf cf' :
  write_sectors to_timedelta time i ntr block cf = Ok cf' ->
  stamped d (fst cf) -> stamped d (fst cf').
Proof.
  unfold write_sectors. intros Hrun Hc. inv_step; [|done].
  eapply (foldM_invariant (fun s => stamped d (fst s))); [|exact Hrun|exact Hc].
  clear. intros s x s' Hstep Hs. unfold sector_step, resolve_item, sector_body in Hstep.
  destruct s as [c f]. simpl in *. inv_step; simpl; repeat stamp_step; done.
Qed.

Lemma write_speeds_stamped d i block c c' :
  write_speeds i block c = Ok c' -> stamped d c -> stamped d c'.
Proof.
  unfold write_speeds. intros Hrun Hc. inv_step; [|done].
  eapply (foldM_invariant (stamped d)); [|exact Hrun|exact Hc].
  clear. intros s x s' Hstep Hs. unfold speed_step in Hstep.
  inv_step; repeat stamp_step; done.
Qed.

Lemma write_pit_times_stamped d time i block c c' :
  write_pit_times time i block c = Ok c' -> stamped d c -> stamped d c'.
Proof. unfold write_pit_times. intros Hrun Hc. inv_step; repeat stamp_step; done. Qed.

Lemma write_last_lap_stamped d i block cf cf' :
  write_last_lap to_timedelta i block cf = Ok cf' ->
  stamped d (fst cf) -> stamped d (fst cf').
Proof.
  unfold write_last_lap. intros Hrun Hc. destruct cf as [c f]. simpl in *.
  inv_step; simpl; repeat stamp_step; done.
Qed.

Lemma close_lap_stamped d block cf cf' :
  close_lap block cf = Ok cf' -> stamped d (fst cf) -> stamped d (fst cf').
Proof.
  unfold close_lap. intros Hrun Hc. destruct cf as [c f]. simpl in *.
  inv_step; simpl; [|done]. stamp_step.
  destruct Hst as [Ht Hd]. split; apply append_none_all; try done; by left.
Qed.

Lemma entry_at_stamped time d block i c f cf' :
  entry_at to_timedelta time d block i c f = Ok cf' -> stamped d c -> stamped d (fst cf').
Proof.
  unfold entry_at. intros Hrun Hc. inv_ok.
  eapply close_lap_stamped; [exact Hrun|].
  eapply write_last_lap_stamped; [eassumption|]. simpl.
  eapply write_pit_times_stamped; [eassumption|].
  eapply write_speeds_stamped; [eassumption|].
  eapply write_sectors_stamped; [eassumption|]. simpl.
  eapply write_pit_stops_stamped; [eassumption|].
  eapply stamp_stamped; eassumption.
Qed.

Lemma new_columns_stamped d : stamped d new_columns.
Proof.
  split; intros l Hl; vm_compute in Hl; injection Hl as <-;
    repeat constructor; by left.
Qed.

Lemma entry_state_stamped entry d st st' :
  timing_data_laps_entry to_timedelta entry d st = Ok st' ->
  state_stamped st -> state_stamped st'.
Proof.
  unfold timing_data_laps_entry. intros Hrun Hst driver c Hc. inv_ok. simpl in Hc.
  destruct (decide (d = driver)) as [->|Hne].
  - rewrite lookup_insert_eq in Hc. injection Hc as <-.
    eapply entry_at_stamped; [eassumption|].
    destruct (data st !! driver) as [c0|] eqn:Hc0; simpl;
      [by apply Hst | apply new_columns_stamped].
  - rewrite lookup_insert_ne in Hc by done. by apply Hst.
Qed.

Lemma laps_loop_stamped response st st' :
  laps_loop to_timedelta response st = Ok st' -> state_stamped st -> state_stamped st'.
Proof.
  unfold laps_loop. apply foldM_invariant. clear. intros st entry st' Hrun Hst.
  unfold laps_frame in Hrun. inv_step; [|done].
  eapply (foldM_invariant state_stamped); [|exact Hrun|exact Hst].
  intros s d s' Hd Hs. destruct d; simpl in Hd; try discriminate.
  by eapply entry_state_stamped.
Qed.

End Stamped.

Lemma index_at_neg (n k : nat) :
  (0 < k <= n)%nat -> index_at n (- Z.of_nat k) = Some (n - k)%nat.
Proof.
  intros Hk. pose proof (norm_index_neg (replicate n ()) k) as H.
  unfold norm_index in H. rewrite length_replicate in H. by apply H.
Qed.

(** X4. In every state the loop reaches, the Time cells of a driver are
    timedeltas or None and the Driver cells are the driver's key or None;
    slot selection therefore never raises, answers -1 or -2, and the answer
    denotes an existing record. *)
Theorem slot_always_valid (to_timedelta : string -> option Z)
    (history : list (string * value)) (st : state) (driver : string) (c : columns)
    (time : Z) :
  laps_loop to_timedelta history empty_state = Ok st ->
  data st !! driver = Some c ->
  stamped driver c /\
  exists i j,
    select_slot time c = Ok i /\ (i = -1 \/ i = -2) /\
    index_at (rows_of st driver) i = Some j.
Proof.
  intros Hhist Hc.
  assert (state_stamped empty_state) as Hst0.
  { intros d c0 H0. simpl in H0. by rewrite lookup_empty in H0. }
  pose proof (laps_loop_stamped _ _ _ _ Hhist Hst0 driver c Hc) as Hst.
  split; [exact Hst|].
  pose proof (laps_loop_aligned _ _ _ _ Hhist empty_state_aligned driver) as Hal.
  rewrite Hc in Hal. destruct (flags st !! driver) as [f|]; [|done].
  destruct Hal as (n & Hn & Hal).
  assert (rows_of st driver = n) as ->.
  { unfold rows_of. rewrite Hc. simpl. exact (aligned_rows n c f Hal). }
  destruct Hal as [Hcols _]. simpl in Hcols.
  destruct (Hcols "Time") as (tcol & Htcol & Hlen); [in_keys|].
  unfold select_slot, col. rewrite Htcol. simpl. rewrite Hlen.
  destruct (Z.ltb_spec 1 (Z.of_nat n)) as [Hbig|Hsmall].
  - assert (norm_index tcol (-2) = Some (n - 2)%nat) as Hidx.
    { change (-2) with (- Z.of_nat 2). rewrite <- Hlen. apply norm_index_neg. lia. }
    destruct (py_get_Some tcol (-2) _ Hidx) as (v & Hget & Hv).
    rewrite Hget. simpl.
    destruct Hst as [Htime _]. specialize (Htime tcol Htcol).
    rewrite Forall_lookup in Htime. specialize (Htime _ _ Hv).
    destruct Htime as [->|[t ->]]; simpl.
    + exists (-1), (n - 1)%nat. split; [done|]. split; [by left|].
      change (-1) with (- Z.of_nat 1). apply index_at_neg. lia.
    + destruct (time <? t + five_seconds).
      * exists (-2), (n - 2)%nat. split; [done|]. split; [by right|].
        change (-2) with (- Z.of_nat 2). apply index_at_neg. lia.
      * exists (-1), (n - 1)%nat. split; [done|]. split; [by left|].
        change (-1) with (- Z.of_nat 1). apply index_at_neg. lia.
  - exists (-1), (n - 1)%nat. split; [done|]. split; [by left|].
    change (-1) with (- Z.of_nat 1). apply index_at_neg. lia.
Qed.

Lemma slot_always_valid_witness :
  stamped "44" sample_columns /\
  exists i j,
    select_slot 125000000000 sample_columns = Ok i /\ (i = -1 \/ i = -2) /\
    index_at (rows_of sample_state "44") i = Some j.
Proof.
  apply (slot_always_valid clock_to_timedelta sample_response sample_state "44"
           sample_columns 125000000000).
  - vm_compute. reflexivity.
  - vm_compute. reflexivity.
Defined.

(** ** A second call with the flags of the first *)

Section Lens.

Variable to_timedelta : string -> option Z.

Lemma write_sectors_lens n m time i ntr block cf cf' :
  write_sectors to_timedelta time i ntr block cf = Ok cf' ->
  lens n m cf -> lens n m cf'.
Proof.
  unfold write_sectors. intros Hrun Hcf. inv_step; [|done].
  eapply (foldM_invariant (lens n m)); [|exact Hrun|exact Hcf].
  clear. intros s x s' Hstep [Hc Hf].
  unfold sector_step, resolve_item, sector_body in Hstep. destruct s as [c f].
  simpl in *. inv_step; simpl;
    repeat match goal with
    | H : set_cell _ _ _ _ = Ok _ |- _ => apply (set_cell_len n) in H; [|assumption]
    | H : set_ref _ _ _ = Ok _ |- _ => apply (set_ref_len m) in H; [|assumption]
    end; by split.
Qed.

Lemma write_last_lap_lens n m i block cf cf' :
  write_last_lap to_timedelta i block cf = Ok cf' -> lens n m cf -> lens n m cf'.
Proof.
  unfold write_last_lap, lens. intros Hrun [Hc Hf]. destruct cf as [c f].
  simpl in *. inv_step; simpl;
    repeat match goal with
    | H : set_cell _ _ _ _ = Ok _ |- _ => apply (set_cell_len n) in H; [|assumption]
    | H : set_locked _ _ = Ok _ |- _ => apply (set_locked_len m) in H; [|assumption]
    end; by split.
Qed.

Lemma close_lap_lens n m block cf cf' :
  close_lap block cf = Ok cf' -> lens n m cf ->
  lens n m cf' \/ lens (S n) (S m) cf'.
Proof.
  unfold close_lap, lens. intros Hrun [Hc [Hf1 Hf2]]. destruct cf as [c f].
  simpl in *. inv_step; [right | left; by repeat split].
  simpl. split.
  - apply append_none_len. by eapply set_cell_len.
  - unfold flags_len. simpl. rewrite !length_app. simpl. lia.
Qed.

Lemma entry_at_lens n m time driver block i c f cf' :
  entry_at to_timedelta time driver block i c f = Ok cf' ->
  lens n m (c, f) -> lens n m cf' \/ lens (S n) (S m) cf'.
Proof.
  unfold entry_at. intros Hrun [Hc Hf]. simpl in *. inv_ok.
  apply (close_lap_lens n m) in Hrun; [done|].
  eapply write_last_lap_lens; [eassumption|].
  apply (stamp_len n) in Ha1; [|done].
  apply (write_pit_stops_len n) in Ha2; [|done].
  apply (write_sectors_lens n m) in Ha3; [|by split].
  destruct Ha3 as [Hc3 Hf3].
  apply (write_speeds_len n) in Ha4; [|done].
  apply (write_pit_times_len n) in Ha5; [|done].
  by split.
Qed.

Lemma entry_carries entry d st st' driver f0 m :
  timing_data_laps_entry to_timedelta entry d st = Ok st' ->
  (1 <= m)%nat -> flags_len m f0 ->
  carries_flags driver f0 m st -> carries_flags driver f0 m st'.
Proof.
  intros Hrun Hm Hf0 Hst. unfold carries_flags in *.
  destruct (decide (d = driver)) as [->|Hne].
  - unfold timing_data_laps_entry in Hrun. inv_ok. simpl.
    rewrite !lookup_insert_eq.
    assert (exists n, (1 <= n)%nat /\
              lens n (n + m - 1) (default new_columns (data st !! driver),
                                  default new_flags (flags st !! driver)))
      as (n & Hn & Hl).
    { destruct (data st !! driver) as [c|].
      - destruct Hst as (f & n & -> & Hn & Hl). by exists n.
      - rewrite Hst. exists 1%nat. split; [done|].
        assert ((1 + m - 1)%nat = m) as -> by lia.
        split; [apply new_columns_len | exact Hf0]. }
    match goal with
    | H : entry_at _ _ _ _ _ _ _ = Ok ?cf |- _ =>
        apply (entry_at_lens n (n + m - 1)) in H as [H|H]; [| |exact Hl];
        destruct cf as [c' f']; simpl
    end.
    + exists f', n. split; [reflexivity|]. split; [exact Hn|]. assumption.
    + exists f', (S n). split; [reflexivity|]. split; [lia|].
      assert ((S n + m - 1)%nat = S (n + m - 1)) as -> by lia. assumption.
  - destruct (entry_other_driver _ _ _ _ _ _ Hrun Hne) as [-> ->]. exact Hst.
Qed.

Lemma loop_carries response st st' driver f0 m :
  laps_loop to_timedelta response st = Ok st' ->
  (1 <= m)%nat -> flags_len m f0 ->
  carries_flags driver f0 m st -> carries_flags driver f0 m st'.
Proof.
  intros Hrun Hm Hf0. revert st st' Hrun. unfold laps_loop.
  apply (foldM_invariant (carries_flags driver f0 m)).
  intros st entry st' Hrun Hst.
  unfold laps_frame in Hrun. inv_step; [|done].
  eapply (foldM_invariant (carries_flags driver f0 m)); [|exact Hrun|exact Hst].
  intros s d s' Hd Hs. destruct d; simpl in Hd; try discriminate.
  by eapply entry_carries.
Qed.

End Lens.

(** X5. The flags dict is the default argument of [_timing_data_laps] and
    outlives the call, while the data dict is made anew.  For a driver who
    had [m] records in a first call, a second call leaves flag lists that
    are [m - 1] entries longer than the driver's columns: from the second
    record of the first call on, the two are out of step. *)
Theorem second_call_misaligned (to_timedelta : string -> option Z)
    (first second : list (string * value)) (st1 st2 : state) (driver : string) :
  laps_loop to_timedelta first empty_state = Ok st1 ->
  laps_loop to_timedelta second (mk_state ∅ (flags st1)) = Ok st2 ->
  (1 <= rows_of st1 driver)%nat ->
  (1 <= rows_of st2 driver)%nat ->
  exists f,
    flags st2 !! driver = Some f /\
    length (time_reference f) = (rows_of st2 driver + rows_of st1 driver - 1)%nat /\
    length (locked_times f) = (rows_of st2 driver + rows_of st1 driver - 1)%nat.
Proof.
  intros Hrun1 Hrun2 Hrows1 Hrows2.
  pose proof (laps_loop_aligned _ _ _ _ Hrun1 empty_state_aligned driver) as Hal.
  unfold rows_of in Hrows1.
  destruct (data st1 !! driver) as [c1|] eqn:Hc1; [|simpl in Hrows1; lia].
  destruct (flags st1 !! driver) as [f1|] eqn:Hf1; [|done].
  destruct Hal as (m & Hm & Hal).
  assert (rows_of st1 driver = m) as Hr1.
  { unfold rows_of. rewrite Hc1. simpl. exact (aligned_rows m c1 f1 Hal). }
  destruct Hal as [_ Hflags]. simpl in Hflags.
  pose proof (loop_carries to_timedelta second _ st2 driver f1 m Hrun2 Hm Hflags)
    as Hcar.
  unfold carries_flags in Hcar. simpl in Hcar. rewrite lookup_empty in Hcar.
  specialize (Hcar Hf1).
  rewrite Hr1. unfold rows_of in Hrows2 |- *.
  destruct (data st2 !! driver) as [c2|]; [|simpl in Hrows2; lia].
  destruct Hcar as (f & n & Hf & Hn & Hcols & Hfl1 & Hfl2). simpl in *.
  destruct (Hcols "Time") as (l & -> & Hl); [in_keys|]. simpl.
  exists f. split; [done|]. rewrite Hl. split; [exact Hfl1 | exact Hfl2].
Qed.

Lemma second_call_misaligned_witness :
  exists f,
    flags after_second_call !! "44" = Some f /\
    length (time_reference f)
      = (rows_of after_second_call "44" + rows_of after_first_call "44" - 1)%nat /\
    length (locked_times f)
      = (rows_of after_second_call "44" + rows_of after_first_call "44" - 1)%nat.
Proof.
  apply (second_call_misaligned clock_to_timedelta first_call second_call
           after_first_call after_second_call "44").
  - vm_compute. reflexivity.
  - vm_compute. reflexivity.
  - vm_compute. lia.
  - vm_compute. lia.
Defined.

(** After the two sample calls car 44 has one record and two entries in
    each flag list. *)
Example second_call_lengths :
  rows_of after_first_call "44" = 2%nat /\
  rows_of after_second_call "44" = 1%nat /\
  (length ∘ locked_times) <$> flags after_second_call !! "44" = Some 2%nat.
Proof. repeat split; vm_compute; reflexivity. Qed.

(** ** Further properties of the finalisation *)

Lemma nan_max_fold (l : list (option Z)) (acc : option Z) :
  fold_left (fun acc x =>
               match acc, x with
               | Some a, Some b => Some (Z.max a b)
               | None, _ => x
               | _, None => acc
               end) l acc = None ->
  acc = None /\ Forall (fun x => x = None) l.
Proof.
  revert acc. induction l as [|x l IH]; intros acc H; simpl in H; [by split|].
  apply IH in H as [Hacc Hl]. destruct acc, x; try discriminate.
  split; [done|]. by constructor.
Qed.

(** X6. The corrected pit-stop column has no gaps and never goes down:
    when a count was recorded anywhere, every lap holds a number, each lap
    holds the number of the lap before or one more, and no lap exceeds the
    largest recorded count; when no count was recorded, every lap holds
    NaN. *)
Theorem corrected_steps (l : list (option Z)) :
  (nan_max l = None ->
   forall j, (j < length l)%nat -> correct_pit_stops l !! j = Some None) /\
  (forall m, nan_max l = Some m ->
     (forall j, (j < length l)%nat ->
        exists a, correct_pit_stops l !! j = Some (Some a) /\ a <= m) /\
     (forall j a b,
        correct_pit_stops l !! j = Some (Some a) ->
        correct_pit_stops l !! S j = Some (Some b) ->
        a <= b <= a + 1)).
Proof.
  split.
  - intros Hm j Hj. by rewrite corrected_lookup, Hm.
  - intros m Hm. split.
    + intros j Hj. rewrite corrected_lookup, Hm by done. simpl.
      eexists. split; [reflexivity | lia].
    + intros j a b Ha Hb.
      assert (S j < length l)%nat as HSj.
      { apply lookup_lt_Some in Hb. by rewrite corrected_length in Hb. }
      rewrite corrected_lookup, Hm in Ha, Hb by lia. simpl in *.
      injection Ha as <-. injection Hb as <-.
      destruct (lookup_lt_is_Some_2 l j) as [x Hx]; [lia|].
      rewrite (drop_S l x j Hx).
      destruct x; [rewrite count_some_Some | rewrite count_some_None]; lia.
Qed.

Lemma mapM_length {A B : Type} (f : A -> result B) (l : list A) (l' : list B) :
  mapM f l = Ok l' -> length l' = length l.
Proof.
  revert l'. induction l as [|x l IH]; intros l' H; simpl in H; inv_ok; [done|].
  simpl. f_equal. by apply IH.
Qed.

Lemma mapM_as_number (cells : list value) :
  Forall is_count cells -> exists nums, mapM as_number cells = Ok nums.
Proof.
  induction 1 as [|v cells Hv _ [nums IH]]; simpl; [by exists []|].
  rewrite IH. destruct Hv as [->|[z ->]]; simpl; eauto.
Qed.

Lemma insert_column_len (n : nat) (c : columns) (key : string) (l : list value) :
  columns_len n c -> length l = n -> columns_len n (<[key := l]> c).
Proof.
  intros Hc Hl k Hk. destruct (decide (key = k)) as [->|Hne].
  - rewrite lookup_insert_eq. by exists l.
  - rewrite lookup_insert_ne by done. by apply Hc.
Qed.

Lemma trim_tail_len (n : nat) (c c' : columns) :
  columns_len (S n) c -> trim_tail c = Ok c' ->
  columns_len (S n) c' \/ columns_len n c'.
Proof.
  intros Hc Hrun. unfold trim_tail in Hrun. inv_step.
  - right. by apply drop_last_row_len.
  - by left.
Qed.

Lemma finalize_len (m : nat) (c c' : columns) (cells : list value) (nums : list (option Z)) :
  columns_len m c -> c !! "NumberOfPitStops" = Some cells ->
  mapM as_number cells = Ok nums ->
  columns_len m (<["NumberOfPitStops" := of_number <$> correct_pit_stops nums]> c).
Proof.
  intros Hc Hcells Hnums. apply insert_column_len; [done|].
  rewrite length_fmap, corrected_length, (mapM_length _ _ _ Hnums).
  destruct (Hc "NumberOfPitStops") as (l & Hl & <-); [in_keys|]. congruence.
Qed.

(** X7. A driver's columns with at least one record, whose pit-stop cells
    are integers or None, always finalise: the result has the same records
    or one fewer, the fourteen columns still of one length. *)
Theorem finalize_total (n : nat) (c : columns) :
  columns_len (S n) c ->
  col_all "NumberOfPitStops" is_count c ->
  exists c', finalize_driver c = Ok c' /\
             (columns_len (S n) c' \/ columns_len n c').
Proof.
  intros Hc Hcount.
  destruct (last_row_any_spec n c Hc) as (any & Hany & _).
  unfold finalize_driver, trim_tail. rewrite Hany. simpl.
  assert (forall m c1, columns_len m c1 -> col_all "NumberOfPitStops" is_count c1 ->
            exists c', (cells <- col c1 "NumberOfPitStops" ;;
                        nums <- mapM as_number cells ;;
                        Ok (<["NumberOfPitStops" := of_number <$> correct_pit_stops nums]> c1))
                       = Ok c' /\ columns_len m c') as Hfin.
  { intros m c1 Hc1 Hcount1.
    destruct (Hc1 "NumberOfPitStops") as (cells & Hcells & Hlen); [in_keys|].
    unfold col. rewrite Hcells. simpl.
    destruct (mapM_as_number cells (Hcount1 cells Hcells)) as (nums & Hnums).
    rewrite Hnums. simpl. eexists. split; [reflexivity|].
    by eapply finalize_len. }
  destruct any; simpl.
  - destruct (Hfin (S n) c Hc Hcount) as (c' & -> & Hc'). eauto.
  - destruct (Hfin n (drop_last_row c)) as (c' & -> & Hc'); [| |eauto].
    + by apply drop_last_row_len.
    + intros l Hl. unfold drop_last_row in Hl. rewrite lookup_fmap in Hl.
      destruct (c !! "NumberOfPitStops") as [l0|] eqn:Hl0; [|done].
      injection Hl as <-. apply Forall_take. by apply Hcount.
Qed.

Lemma finalize_total_witness :
  exists c', finalize_driver zero_stops_columns = Ok c' /\
             (columns_len 1 c' \/ columns_len 0 c').
Proof.
  apply (finalize_total 0 zero_stops_columns).
  - intros key Hkey. unfold lap_keys in Hkey.
    repeat (apply elem_of_cons in Hkey as [->|Hkey];
            [eexists; split; [vm_compute; reflexivity | reflexivity]|]).
    by apply elem_of_nil in Hkey.
  - intros l Hl. vm_compute in Hl. injection Hl as <-.
    constructor; [right; by eexists | constructor].
Defined.

(** ** Further properties of the gap stream *)

Lemma stream_block_len (n : nat) (time driver : string) (block : value) (c c' : columns) :
  stream_len n c -> stream_block time driver block c = Ok c' ->
  stream_len n c' \/ stream_len (S n) c'.
Proof.
  intros Hc Hrun. unfold stream_block in Hrun.
  apply bind_Ok in Hrun as (position & _ & Hrun).
  destruct (Hc "Time") as (lT & HT & HlT); [in_stream_keys|].
  destruct (Hc "Driver") as (lD & HD & HlD); [in_stream_keys|].
  destruct (Hc "Position") as (lP & HP & HlP); [in_stream_keys|].
  destruct (Hc "GapToLeader") as (lG & HG & HlG); [in_stream_keys|].
  destruct (Hc "IntervalToPositionAhead") as (lI & HI & HlI); [in_stream_keys|].
  rewrite (append_if_spec c "Position" lP position HP) in Hrun. cbn [bind] in Hrun.
  apply bind_Ok in Hrun as (gap & _ & Hrun).
  rewrite (append_if_spec _ "GapToLeader" lG gap) in Hrun
    by (by rewrite lookup_insert_ne).
  cbn [bind] in Hrun.
  apply bind_Ok in Hrun as (interval & _ & Hrun).
  rewrite (append_if_spec _ "IntervalToPositionAhead" lI interval) in Hrun
    by (by rewrite !lookup_insert_ne).
  cbn [bind] in Hrun.
  destruct (bool_decide (is_Some position) || bool_decide (is_Some gap)
            || bool_decide (is_Some interval)) eqn:Hnew.
  - right. unfold append_cell, col in Hrun.
    rewrite !lookup_insert_ne in Hrun by done. rewrite HT in Hrun.
    cbn [bind of_option] in Hrun.
    rewrite lookup_insert_ne in Hrun by done.
    rewrite !lookup_insert_ne in Hrun by done.
    rewrite HD in Hrun. cbn [bind of_option] in Hrun.
    rewrite lookup_insert_ne in Hrun by done. rewrite lookup_insert_eq in Hrun.
    cbn [bind of_option] in Hrun. injection Hrun as <-.
    rewrite length_app. cbn [length].
    replace (length lT + 1)%nat with (S n) by lia.
    destruct (fill_last n lP position HlP) as [HlenP _].
    destruct (fill_last n lG gap HlG) as [HlenG _].
    destruct (fill_last n lI interval HlI) as [HlenI _].
    assert (forall (l : list value) v, length l = n ->
              fill (S n) (l ++ [v]) = l ++ [v]) as Hfull.
    { intros l v Hl. apply fill_full. rewrite length_app. simpl. lia. }
    intros key Hkey. unfold stream_keys in Hkey. rewrite lookup_fmap.
    repeat (apply elem_of_cons in Hkey as [->|Hkey];
            [simplify_map_eq; eexists; split; [reflexivity|];
             first [done | rewrite Hfull by done; rewrite length_app; simpl; lia]
            |]).
    by apply elem_of_nil in Hkey.
  - left. apply orb_false_iff in Hnew as [Hnew Hi'].
    apply orb_false_iff in Hnew as [Hp' Hg'].
    destruct position; [done|]. destruct gap; [done|]. destruct interval; [done|].
    simpl in Hrun. rewrite !app_nil_r in Hrun.
    rewrite (insert_id c "Position" lP HP), (insert_id c "GapToLeader" lG HG),
      (insert_id c "IntervalToPositionAhead" lI HI) in Hrun.
    by injection Hrun as <-.
Qed.

Lemma empty_stream_len : stream_len 0 (empty_columns stream_keys).
Proof.
  intros key Hkey. unfold stream_keys in Hkey.
  repeat (apply elem_of_cons in Hkey as [->|Hkey];
          [eexists; split; [vm_compute; reflexivity | reflexivity]|]).
  by apply elem_of_nil in Hkey.
Qed.

Lemma stream_driver_aligned entry d d' drv :
  stream_driver entry d drv = Ok d' -> stream_aligned d -> stream_aligned d'.
Proof.
  intros Hrun Hd. destruct drv; simpl in Hrun; try discriminate. inv_ok.
  intros driver c Hc. destruct (decide (s = driver)) as [->|Hne].
  - rewrite lookup_insert_eq in Hc. injection Hc as <-.
    assert (exists n, stream_len n (default (empty_columns stream_keys) (d !! driver)))
      as (n & Hn).
    { destruct (d !! driver) as [c0|] eqn:Hc0; simpl; [by eapply Hd|].
      exists 0%nat. apply empty_stream_len. }
    match goal with
    | H : stream_block _ _ _ _ = Ok _ |- _ =>
        destruct (stream_block_len n _ _ _ _ _ Hn H); eauto
    end.
  - rewrite lookup_insert_ne in Hc by done. by eapply Hd.
Qed.

(** X8. After any response the gap stream builder gets through, the five
    lists of every driver have one length, so each driver's lists form a
    table. *)
Theorem stream_lists_aligned (response : list (string * value))
    (d : gmap string columns) (driver : string) (c : columns) :
  timing_data_stream response = Ok d ->
  d !! driver = Some c ->
  exists n, forall key, key ∈ stream_keys ->
    exists l, c !! key = Some l /\ length l = n.
Proof.
  intros Hrun Hc. unfold timing_data_stream in Hrun.
  assert (stream_aligned d) as Hd; [|by eapply Hd].
  eapply (foldM_invariant stream_aligned); [|exact Hrun|].
  - clear. intros s entry s' Hrun Hs. unfold stream_frame in Hrun.
    inv_step; [|done].
    eapply (foldM_invariant stream_aligned); [|exact Hrun|exact Hs].
    intros s0 x s1. apply stream_driver_aligned.
  - intros dr c0 H0. by rewrite lookup_empty in H0.
Qed.

Lemma stream_lists_aligned_witness :
  exists n, forall key, key ∈ stream_keys ->
    exists l,
      default ∅ (match timing_data_stream gap_response with
                 | Ok d => d !! "44"
                 | Raise _ => None
                 end) !! key = Some l /\ length l = n.
Proof.
  apply (stream_lists_aligned gap_response
           (match timing_data_stream gap_response with
            | Ok d => d
            | Raise _ => ∅
            end) "44").
  - vm_compute. reflexivity.
  - vm_compute. reflexivity.
Defined.

(** ** Tyre stint rows and telemetry samples *)

Lemma bumped_len (keys : list string) (n : nat) (c c' : columns) :
  keys_len keys n c -> bumped keys c c' -> keys_len keys (S n) c'.
Proof.
  intros Hc [Hin _] key Hkey.
  destruct (Hin key Hkey) as (l & v & Hl & Hl').
  destruct (Hc key Hkey) as (l0 & Hl0 & Hlen).
  exists (l ++ [v]). split; [done|]. rewrite length_app. simpl.
  rewrite Hl in Hl0. injection Hl0 as ->. lia.
Qed.

(** A loop whose body appends one cell to the column its item names, over
    items that name distinct columns, appends that cell to each of them. *)
Lemma append_loop_cells {A : Type} (step : columns -> A -> result columns)
    (key_of : A -> string) (val_of : A -> value) (items : list A) :
  (forall c x c', step c x = Ok c' ->
     exists l, c !! key_of x = Some l /\ c' = <[key_of x := l ++ [val_of x]]> c) ->
  NoDup (map key_of items) ->
  forall c c', foldM step items c = Ok c' ->
    (forall x, x ∈ items ->
       exists l, c !! key_of x = Some l /\ c' !! key_of x = Some (l ++ [val_of x])) /\
    (forall key, key ∉ map key_of items -> c' !! key = c !! key).
Proof.
  intros Hstep. induction items as [|x items IH]; intros Hnd c c' Hrun;
    simpl in *; inv_ok.
  - split; [intros y Hy; by apply elem_of_nil in Hy | done].
  - apply NoDup_cons in Hnd as [Hx Hnd].
    destruct (Hstep _ _ _ Ha) as (l & Hl & ->).
    destruct (IH Hnd _ _ Hrun) as [Hin Hout]. split.
    + intros y Hy. apply elem_of_cons in Hy as [->|Hy].
      * exists l. split; [done|]. rewrite (Hout _ Hx). apply lookup_insert_eq.
      * destruct (Hin y Hy) as (l' & Hl' & Hl'').
        exists l'. split; [|done].
        rewrite lookup_insert_ne in Hl'; [done|]. intros Heq. apply Hx.
        rewrite Heq. apply (list_elem_of_fmap_2 key_of), Hy.
    + intros key Hkey. apply not_elem_of_cons in Hkey as [Hne Hkey].
      rewrite (Hout key Hkey). by rewrite lookup_insert_ne.
Qed.

Lemma append_loop_bumped {A : Type} (step : columns -> A -> result columns)
    (key_of : A -> string) (val_of : A -> value) (items : list A) :
  (forall c x c', step c x = Ok c' ->
     exists l, c !! key_of x = Some l /\ c' = <[key_of x := l ++ [val_of x]]> c) ->
  NoDup (map key_of items) ->
  forall c c', foldM step items c = Ok c' -> bumped (map key_of items) c c'.
Proof.
  intros Hstep Hnd c c' Hrun.
  destruct (append_loop_cells step key_of val_of items Hstep Hnd c c' Hrun)
    as [Hin Hout].
  split; [|done]. intros key Hkey.
  apply list_elem_of_fmap in Hkey as (x & -> & Hx).
  destruct (Hin x Hx) as (l & Hl & Hl'). eauto.
Qed.

Lemma append_cell_spec (c c' : columns) (key : string) (v : value) :
  append_cell c key v = Ok c' ->
  exists l, c !! key = Some l /\ c' = <[key := l ++ [v]]> c.
Proof. unfold append_cell, col. intros H. inv_ok. eauto. Qed.

Lemma bumped_one (c c' : columns) (key : string) (v : value) :
  append_cell c key v = Ok c' -> bumped [key] c c'.
Proof.
  intros H. destruct (append_cell_spec _ _ _ _ H) as (l & Hl & ->). split.
  - intros k Hk. apply list_elem_of_singleton in Hk as ->.
    exists l, v. by rewrite lookup_insert_eq.
  - intros k Hk. rewrite lookup_insert_ne; [done|]. intros ->.
    apply Hk, list_elem_of_here.
Qed.

Lemma bumped_app (ks1 ks2 : list string) (c c1 c2 : columns) :
  bumped ks1 c c1 -> bumped ks2 c1 c2 -> (forall k, k ∈ ks1 -> k ∉ ks2) ->
  bumped (ks1 ++ ks2) c c2.
Proof.
  intros [Hin1 Hout1] [Hin2 Hout2] Hdisj. split.
  - intros key Hkey. apply elem_of_app in Hkey as [Hkey|Hkey].
    + destruct (Hin1 key Hkey) as (l & v & Hl & Hl1). exists l, v.
      split; [done|]. by rewrite (Hout2 key (Hdisj key Hkey)).
    + destruct (Hin2 key Hkey) as (l & v & Hl & Hl2). exists l, v.
      split; [|done]. rewrite <- Hl. symmetry. apply Hout1.
      intros Hk1. by apply (Hdisj key Hk1).
  - intros key Hkey. apply not_elem_of_app in Hkey as [H1 H2].
    by rewrite (Hout2 key H2), (Hout1 key H1).
Qed.

Lemma set_cell_keys_len (keys : list string) (n : nat) (c c' : columns)
    (key : string) (i : Z) (v : value) :
  set_cell c key i v = Ok c' -> keys_len keys n c -> keys_len keys n c'.
Proof.
  unfold set_cell, col. intros Hset Hc key' Hin. inv_ok.
  destruct (decide (key = key')) as [<-|Hne].
  - rewrite lookup_insert_eq. eexists; split; [done|].
    destruct (Hc key Hin) as (l & Hl & <-).
    rewrite Ha in Hl. injection Hl as <-. by eapply py_set_length.
  - rewrite lookup_insert_ne by done. by apply Hc.
Qed.

Lemma set_cell_last (c c' : columns) (key : string) (v : value) :
  set_cell c key (-1) v = Ok c' -> last_value c' key = Some v.
Proof.
  unfold set_cell, col. intros Hset. inv_ok. unfold last_value.
  rewrite lookup_insert_eq. simpl.
  pose proof (py_set_get _ _ _ _ Ha0) as Hget. rewrite py_get_last in Hget.
  by destruct (last a0); inv_ok.
Qed.

Lemma set_cell_last_other (c c' : columns) (key k : string) (i : Z) (v : value) :
  set_cell c key i v = Ok c' -> key <> k -> last_value c' k = last_value c k.
Proof.
  intros Hset Hne. unfold last_value. by rewrite (set_cell_other _ _ _ _ _ _ Hset Hne).
Qed.

Lemma app_keys_NoDup : NoDup app_keys.
Proof. apply (bool_decide_unpack (NoDup app_keys)). vm_compute. exact I. Qed.

Lemma app_field_spec (stint : value) (c : columns) (key : string) (c' : columns) :
  app_field stint c key = Ok c' ->
  exists l, c !! key = Some l /\ c' = <[key := l ++ [stint_cell stint key]]> c.
Proof.
  unfold app_field, stint_cell. intros Hstep.
  apply bind_Ok in Hstep as (has & Hhas & Hstep). rewrite Hhas.
  destruct has.
  - apply bind_Ok in Hstep as (v & Hv & Hstep). rewrite Hv.
    by apply append_cell_spec.
  - by apply append_cell_spec.
Qed.

Lemma app_fields_cells (stint : value) (c c' : columns) :
  foldM (app_field stint) app_keys c = Ok c' ->
  (forall key, key ∈ app_keys ->
     exists l, c !! key = Some l /\ c' !! key = Some (l ++ [stint_cell stint key])) /\
  bumped app_keys c c'.
Proof.
  intros Hrun.
  pose proof (append_loop_cells (app_field stint) id (stint_cell stint) app_keys) as H.
  pose proof (append_loop_bumped (app_field stint) id (stint_cell stint) app_keys) as H'.
  rewrite map_id in H, H'.
  split; [apply (H (app_field_spec stint) app_keys_NoDup c c' Hrun)|].
  apply (H' (app_field_spec stint) app_keys_NoDup c c' Hrun).
Qed.

Lemma set_cell_last_snoc (c c' : columns) (key : string) (v x : value)
    (l : list value) :
  set_cell c key (-1) v = Ok c' -> c !! key = Some (l ++ [x]) ->
  c' = <[key := l ++ [v]]> c.
Proof.
  intros Hset Hl. destruct (set_cell_spec _ _ _ _ _ _ Hset Hl) as (j & Hj & ->).
  change (-1) with (- Z.of_nat 1) in Hj. rewrite norm_index_neg in Hj.
  - injection Hj as <-. f_equal. rewrite length_app. simpl.
    rewrite insert_app_r_alt by lia.
    by replace (length l + 1 - 1 - length l)%nat with 0%nat by lia.
  - rewrite length_app. simpl. lia.
Qed.

(** Overwriting the last cell of a column that has just been appended to
    leaves the column one cell longer than before, with the new value at
    its end. *)
Lemma set_last_cells (val val' : string -> value) (keys : list string)
    (c0 c c' : columns) (key : string) (v : value) :
  (forall k, k ∈ keys ->
     exists l, c0 !! k = Some l /\ c !! k = Some (l ++ [val k])) ->
  key ∈ keys ->
  set_cell c key (-1) v = Ok c' ->
  (forall k, val' k = if String.eqb k key then v else val k) ->
  forall k, k ∈ keys ->
    exists l, c0 !! k = Some l /\ c' !! k = Some (l ++ [val' k]).
Proof.
  intros Hc Hkey Hset Hval k Hk. rewrite Hval.
  destruct (Hc key Hkey) as (l0 & Hl0 & Hl0').
  rewrite (set_cell_last_snoc _ _ _ _ _ _ Hset Hl0').
  destruct (String.eqb_spec k key) as [->|Hne].
  - exists l0. split; [done|]. apply lookup_insert_eq.
  - destruct (Hc k Hk) as (l & Hl & Hl'). exists l. split; [done|].
    by rewrite lookup_insert_ne.
Qed.

(** X9. One stint adds one row to the table and leaves the rows before it
    as they were. The row's Time, Driver and Stint are the frame's time,
    the driver's key and the stint number, whatever the stint object has
    under those keys; every other column gets the stint's value under the
    column's name, or None where the stint has none. *)
Theorem stint_row (time driver_number : string) (update : value)
    (c c' : columns) (log log' : list string) (item : Z * value) :
  stint_step time driver_number update (c, log) item = Ok (c', log') ->
  exists k stint,
    stint_of update item k stint /\
    forall key, key ∈ app_keys ->
      exists l, c !! key = Some l /\
                c' !! key = Some (l ++ [row_cell time driver_number k stint key]).
Proof.
  unfold stint_step. intros Hstep.
  apply bind_Ok in Hstep as ([k stint] & Hns & Hstep). simpl in Hstep.
  exists k, stint. split.
  { unfold stint_of. destruct (is_dict update); [|by inv_ok].
    apply bind_Ok in Hns as (n & Hn & Hns).
    apply bind_Ok in Hns as (key & Hkey & Hns).
    apply bind_Ok in Hns as (st & Hst & Hns).
    injection Hns as -> ->. split; [done|].
    destruct (snd item); try done. injection Hkey as ->. eauto. }
  apply bind_Ok in Hstep as (c1 & Hc1 & Hstep).
  apply bind_Ok in Hstep as (keys & _ & Hstep).
  apply bind_Ok in Hstep as (log1 & _ & Hstep).
  apply bind_Ok in Hstep as (c2 & Hc2 & Hstep).
  apply bind_Ok in Hstep as (c3 & Hc3 & Hstep).
  apply bind_Ok in Hstep as (c4 & Hc4 & Hstep).
  injection Hstep as <- <-.
  destruct (app_fields_cells _ _ _ Hc1) as [H1 _].
  pose (val2 := fun key => if String.eqb key "Time" then VStr time
                           else stint_cell stint key).
  pose (val3 := fun key => if String.eqb key "Driver" then VStr driver_number
                           else val2 key).
  assert (H2 : forall key, key ∈ app_keys ->
            exists l, c !! key = Some l /\ c2 !! key = Some (l ++ [val2 key])).
  { apply (set_last_cells (stint_cell stint) val2 app_keys c c1 c2 "Time"
             (VStr time)); [done| |done|done].
    unfold app_keys. repeat (apply list_elem_of_here || apply list_elem_of_further). }
  assert (H3 : forall key, key ∈ app_keys ->
            exists l, c !! key = Some l /\ c3 !! key = Some (l ++ [val3 key])).
  { apply (set_last_cells val2 val3 app_keys c c2 c3 "Driver"
             (VStr driver_number)); [done| |done|done].
    unfold app_keys. repeat (apply list_elem_of_here || apply list_elem_of_further). }
  apply (set_last_cells val3 (row_cell time driver_number k stint) app_keys
           c c3 c4 "Stint" (VInt k)); [done| |done|].
  { unfold app_keys. repeat (apply list_elem_of_here || apply list_elem_of_further). }
  intros key. unfold row_cell, val3, val2.
  destruct (String.eqb_spec key "Stint") as [->|]; [done|].
  destruct (String.eqb_spec key "Time") as [->|]; [done|].
  by destruct (String.eqb_spec key "Driver").
Qed.
